(** * Schneider AI code reviewer: the orchestration core, embedded and verified

    The development follows the TypeScript sources of the editor extension
    (llmClient.ts, extension.ts, chatbotView.ts) and the reply parser of the
    backend as given in the project's technical write-up.

    Conventions of the embedding:
    - JavaScript numbers that the code only compares and adds (HTTP status,
      score, line numbers, milliseconds) are integers [Z];
    - a JSON field that may be absent is an [option]; [x || d] is written out
      with the JavaScript notion of falsy value for the type at hand;
    - asynchronous methods are functions in a state-and-exception monad [M]
      over a [world] that holds the remote server, the number of requests
      issued so far and the trace of observable events, so that [await] is
      sequencing and [try]/[catch] is [try_catch];
    - console output is not an observable event, and the pictographs that
      decorate user-facing texts are left out of the strings. *)

From Stdlib Require Import ZArith List String Ascii Bool Lia DecimalString.
Import ListNotations.
Local Open Scope string_scope.

Local Open Scope Z_scope.
Local Open Scope list_scope.

Notation "s1 ^^ s2" := (String.append s1 s2)
  (at level 35, right associativity).

(** ** JavaScript helpers *)

Module Js.

(** Template-literal rendering of a number. *)
Definition num_to_string (z : Z) : string :=
  NilZero.string_of_int (Z.to_int z).

(** Truthiness of a possibly absent string: [undefined] and the empty
    string are falsy. *)
Definition truthy_string (s : option string) : bool :=
  match s with
  | Some v => negb (String.eqb v EmptyString)
  | None => false
  end.

(** [s || d] on strings. *)
Definition or_string (s : option string) (d : string) : string :=
  match s with
  | Some v => if String.eqb v EmptyString then d else v
  | None => d
  end.

(** [n || d] on numbers: [undefined] and [0] are falsy. *)
Definition or_number (n : option Z) (d : Z) : Z :=
  match n with
  | Some v => if v =? 0 then d else v
  | None => d
  end.

(** [xs || d] on arrays: every array, also the empty one, is truthy. *)
Definition or_array {A : Type} (xs : option (list A)) (d : list A) : list A :=
  match xs with
  | Some v => v
  | None => d
  end.

(** [xs?.length || 0]. *)
Definition length_or_zero {A : Type} (xs : option (list A)) : Z :=
  match xs with
  | Some v => Z.of_nat (List.length v)
  | None => 0
  end.

End Js.

(** ** Data model (llmClient.ts, interfaces) *)

Record Issue := mkIssue {
  rule : option string;
  message : option string;
  line : option Z;
  severity : string;
  fix' : option string;
  category : option string
}.

Record IssueStatistics := mkIssueStatistics {
  critical : Z;
  errors : Z;
  warnings : Z;
  info : Z
}.

Record AnalysisResult := mkAnalysisResult {
  success : bool;
  issues : list Issue;
  score : Z;
  grade : string;
  file_type : string;
  rules_checked : Z;
  statistics : option IssueStatistics
}.

(** The body of a reply as it comes off the wire: an untyped JSON object,
    every field of which may be missing. [j_success] is the truthiness of
    the field [success]. *)
Record body := mkBody {
  j_success : bool;
  j_error : option string;
  j_reply : option string;
  j_fixed_code : option string;
  j_issues : option (list Issue);
  j_score : option Z;
  j_grade : option string;
  j_file_type : option string;
  j_rules_checked : option Z;
  j_statistics : option IssueStatistics
}.

Definition empty_body : body :=
  mkBody false None None None None None None None None None.

(** ** The world: remote server, request counter, trace *)

Inductive http_method := GET | POST.

Inductive payload :=
| AnalyzePayload (code filename : string)
| FixPayload (code error : string) (issues : list Issue) (filename : string)
| ChatPayload (message context : string).

Record AxiosConfig := mkConfig {
  cfg_method : http_method;
  cfg_url : string;
  cfg_timeout : Z;
  cfg_data : option payload
}.

(** What one HTTP exchange can come to: an answer with a status and a body
    ([None] for a [null] body), no route to the server, or no
    answer within the timeout. *)
Inductive wire :=
| Answer (status : Z) (data : option body)
| Unreachable
| TimedOut.

Record AxiosResponse := mkResponse {
  status : Z;
  data : option body
}.

(** Values that the code throws. [AxiosError] carries [error.response];
    [Undefined] is [throw lastError] with [lastError] never assigned. *)
Inductive js_error :=
| AxiosError (response : option AxiosResponse)
| Error (msg : string)
| Undefined.

Inductive webview_message :=
| MsgAnalysisComplete (result : AnalysisResult) (score issueCount : Z)
    (fileName : string)
| MsgFixing (text : string)
| MsgCodeFixed (fixedCode : string)
| MsgThinking (text : string)
| MsgChatReply (text : string)
| MsgError (text : string).

Inductive event :=
| HttpSend (config : AxiosConfig)
| HttpSettle (config : AxiosConfig) (w : wire)
| Sleep (ms : Z)
| PostMessage (m : webview_message)
| InformationMessage (text : string)
| WarningMessage (text : string)
| ErrorMessage (text : string).

Record world := mkWorld {
  server : nat -> AxiosConfig -> wire;
  sent : nat;
  trace : list event
}.

(** ** The monad of asynchronous code *)

Inductive outcome (A : Type) :=
| Return (a : A)
| Throw (e : js_error).
Arguments Return {A} a.
Arguments Throw {A} e.

Definition M (A : Type) : Type := world -> outcome A * world.

Definition ret {A : Type} (a : A) : M A := fun w => (Return a, w).

Definition throw {A : Type} (e : js_error) : M A := fun w => (Throw e, w).

Definition bind {A B : Type} (m : M A) (k : A -> M B) : M B :=
  fun w =>
    match m w with
    | (Return a, w1) => k a w1
    | (Throw e, w1) => (Throw e, w1)
    end.

Definition try_catch {A : Type} (m : M A) (handler : js_error -> M A) : M A :=
  fun w =>
    match m w with
    | (Return a, w1) => (Return a, w1)
    | (Throw e, w1) => handler e w1
    end.

Definition emit (e : event) : M unit :=
  fun w => (Return tt, mkWorld (server w) (sent w) (trace w ++ [e])).

Notation "x <- m ;; k" := (bind m (fun x => k))
  (at level 61, m at next level, right associativity).
Notation "m ;;; k" := (bind m (fun _ => k))
  (at level 61, right associativity).

(** ** axios *)

(** [axios(config)]: the request goes out, the exchange settles, and the
    promise resolves when [validateStatus] accepts the status; it rejects
    with an [AxiosError] that carries the response otherwise, and with one
    that carries none when there was no answer. *)
Definition axios (validateStatus : Z -> bool) (config : AxiosConfig)
  : M AxiosResponse :=
  fun w =>
    let settled := server w (sent w) config in
    let w1 := mkWorld (server w) (S (sent w))
                (trace w ++ [HttpSend config; HttpSettle config settled]) in
    match settled with
    | Answer s d =>
        if validateStatus s
        then (Return (mkResponse s d), w1)
        else (Throw (AxiosError (Some (mkResponse s d))), w1)
    | Unreachable => (Throw (AxiosError None), w1)
    | TimedOut => (Throw (AxiosError None), w1)
    end.

Definition isAxiosError (e : js_error) : bool :=
  match e with
  | AxiosError _ => true
  | _ => false
  end.

(** ** LLMClient (llmClient.ts) *)

Module LLMClient.

Record t := mk {
  serverUrl : string;
  timeout : Z;
  retryAttempts : nat
}.

(** Field initialisers of the class; the constructor reads the URL from
    the configuration and falls back to the local one. *)
Definition create (configured : option string) : t :=
  mk (Js.or_string configured "http://localhost:5000") 60000 2.

Definition delay (ms : Z) : M unit := emit (Sleep ms).

(** The [validateStatus] that [makeRequest] passes to axios. *)
Definition validateStatus (status : Z) : bool := status <? 500.

(** [error.response?.status] and the test of the [catch] block:
    [status && (status === 400 || ... || status === 404)]. *)
Definition is_client_fault (e : js_error) : bool :=
  match e with
  | AxiosError (Some r) =>
      negb (status r =? 0) &&
      ((status r =? 400) || (status r =? 401) ||
       (status r =? 403) || (status r =? 404))
  | _ => false
  end.

(** The [config] object of [makeRequest]; [validateStatus] is passed to
    axios next to it. The payload is attached to a POST only. *)
Definition requestConfig (c : t) (endpoint : string) (method : http_method)
    (data' : option payload) (timeout : Z) : AxiosConfig :=
  mkConfig method (serverUrl c ^^ endpoint) timeout
    (match data', method with
     | Some d, POST => Some d
     | _, _ => None
     end).

(** The body of the [try] block of one loop iteration. *)
Definition attempt_once (c : t) (endpoint : string) (method : http_method)
    (data' : option payload) (timeout : Z) : M (option body) :=
  let config := requestConfig c endpoint method data' timeout in
  response <- axios validateStatus config ;;
  if 400 <=? status response
  then throw (Error ("HTTP " ^^ Js.num_to_string (status response) ^^ ": " ^^
                     Js.or_string
                       (match data response with
                        | Some b => j_error b
                        | None => None
                        end) "Unknown error"))
  else ret (data response).

(** The [for] loop of [makeRequest], [remaining] iterations before
    [attempt <= retryAttempts] fails; [break] and the loop exit both reach
    [throw lastError]. *)
Fixpoint retry_loop (c : t) (endpoint : string) (method : http_method)
    (data' : option payload) (timeout : Z)
    (remaining attempt : nat) (lastError : js_error) : M (option body) :=
  match remaining with
  | O => throw lastError
  | S remaining' =>
      try_catch (attempt_once c endpoint method data' timeout)
        (fun error =>
           if isAxiosError error && is_client_fault error
           then throw error
           else
             (if (attempt <? retryAttempts c)%nat
              then delay (1000 * (Z.of_nat attempt + 1))
              else ret tt) ;;;
             retry_loop c endpoint method data' timeout
               remaining' (S attempt) error)
  end.

Definition makeRequest (c : t) (endpoint : string) (method : http_method)
    (data' : option payload) (timeout : Z) : M (option body) :=
  retry_loop c endpoint method data' timeout (S (retryAttempts c)) O Undefined.

(** Reading a property of [response.data]: a [null] body raises a
    [TypeError], which is an [Error] and not an axios error. *)
Definition property_of (response : option body) : M body :=
  match response with
  | Some b => ret b
  | None => throw (Error "Cannot read properties of null")
  end.

(** [handleError] never returns; the value is the error it throws. An
    axios error without a response has its [request] set in this world
    (the request did go out), so the request-setup branch is not
    reachable and is left out. *)
Definition handleError (c : t) (error : js_error) (operation : string)
  : js_error :=
  match error with
  | AxiosError (Some r) =>
      let message := operation ^^ " failed (HTTP " ^^
                     Js.num_to_string (status r) ^^ ")" in
      let message :=
        match data r with
        | Some b =>
            if Js.truthy_string (j_error b)
            then message ^^ ": " ^^ Js.or_string (j_error b) ""
            else message
        | None => message
        end in
      let message :=
        if (status r =? 401) || (status r =? 403)
        then "Authentication error. Please check backend API keys in .env file."
        else if status r =? 500
        then "Server error. Check backend logs for details."
        else if status r =? 503
        then "Service unavailable. Backend AI service may be down."
        else message in
      Error message
  | AxiosError None =>
      Error ("Cannot connect to backend server at " ^^ serverUrl c ^^ ". " ^^
             "Please ensure the Python backend is running. " ^^
             "Start it with: python app.py")
  | Error m => Error (operation ^^ " failed: " ^^ m)
  | Undefined => Error (operation ^^ " failed: Unknown error")
  end.

Definition analyzeCode (c : t) (code fileName : string) : M AnalysisResult :=
  try_catch
    (response <- makeRequest c "/analyze" POST
                   (Some (AnalyzePayload code fileName)) (timeout c) ;;
     r <- property_of response ;;
     if j_success r
     then ret (mkAnalysisResult true
                 (Js.or_array (j_issues r) [])
                 (Js.or_number (j_score r) 0)
                 (Js.or_string (j_grade r) "N/A")
                 (Js.or_string (j_file_type r) "unknown")
                 (Js.or_number (j_rules_checked r) 0)
                 (j_statistics r))
     else throw (Error "Analysis failed: Invalid response from server"))
    (fun error => throw (handleError c error "Code analysis")).

Definition handleChatError (error : js_error) : string :=
  match error with
  | AxiosError (Some r) =>
      if status r =? 500
      then "I encountered an internal error. The backend AI service may be experiencing issues. Please try again in a moment."
      else "I apologize, but I encountered an unexpected error. Please check the backend logs and try again."
  | AxiosError None =>
      "I cannot reach the backend server. Please ensure it is running and try again."
  | _ =>
      "I apologize, but I encountered an unexpected error. Please check the backend logs and try again."
  end.

Definition chat (c : t) (message context : string) : M string :=
  try_catch
    (response <- makeRequest c "/chat" POST
                   (Some (ChatPayload message context)) 30000 ;;
     r <- property_of response ;;
     if j_success r
     then ret (Js.or_string (j_reply r) "No response from AI")
     else ret "I apologize, but I encountered an error. Please try again.")
    (fun error => ret (handleChatError error)).

Definition fixCode (c : t) (code error : string) (issues : list Issue)
    (filename : string) : M string :=
  try_catch
    (response <- makeRequest c "/fix" POST
                   (Some (FixPayload code error issues filename))
                   (timeout c) ;;
     r <- property_of response ;;
     if j_success r && Js.truthy_string (j_fixed_code r)
     then ret (Js.or_string (j_fixed_code r) "")
     else throw (Error "Code fixing failed: No fixed code returned"))
    (fun _ =>
       emit (WarningMessage "Code fixing failed. Returning original code.") ;;;
       ret code).

End LLMClient.

(** ** The webview script (chatbotView.ts, [_getHtmlForWebview]) *)

Module Webview.

Inductive rating := Excellent | NeedsImprovement | Poor.

(** The band test of [showAnalysisResults(data)]; the same test is made a
    second time for the summary line. *)
Definition ratingOf (score : Z) : rating :=
  if 80 <=? score then Excellent
  else if 50 <=? score then NeedsImprovement
  else Poor.

Record ScoreCard := mkScoreCard {
  scoreNumber : Z;
  fileName : string;
  scoreColor : string;
  scoreRating : string;
  summary : string
}.

Definition showAnalysisResults (score : Z) (name : string) : ScoreCard :=
  let n := Js.num_to_string score in
  match ratingOf score with
  | Excellent =>
      mkScoreCard score name "#00A651" "Excellent"
        ("Excellent work! Your code scored " ^^ n ^^
         "/100. Code meets Schneider standards!")
  | NeedsImprovement =>
      mkScoreCard score name "#FF8C00" "Needs Improvement"
        ("Your code scored " ^^ n ^^
         "/100. Some issues found. Click Auto-Fix to resolve them!")
  | Poor =>
      mkScoreCard score name "#DC143C" "Poor"
        ("Your code scored " ^^ n ^^
         "/100. Multiple violations found. Click Auto-Fix Code to fix all issues!")
  end.

(** The [message] listener, for the one message kind that draws the score
    card. *)
Definition onMessage (m : webview_message) : option ScoreCard :=
  match m with
  | MsgAnalysisComplete _ score _ name => Some (showAnalysisResults score name)
  | _ => None
  end.

End Webview.

(** ** ChatbotViewProvider (chatbotView.ts) *)

Module ChatbotViewProvider.

Record t := mk {
  view : bool;
  currentAnalysisResult : option AnalysisResult;
  currentCode : string;
  currentFileName : string
}.

(** [this._view?.webview.postMessage(m)]. *)
Definition postMessage (p : t) (m : webview_message) : M unit :=
  if view p then emit (PostMessage m) else ret tt.

(** A template literal prints a missing property as [undefined]. *)
Definition template (s : option string) : string :=
  match s with
  | Some v => v
  | None => "undefined"
  end.

(** The [analysisComplete] message of [showAnalysisResults], sent on the
    analyze path: [score: result.score || 0]. *)
Definition analysisCompleteMessage (result : AnalysisResult)
    (fileName : string) : webview_message :=
  MsgAnalysisComplete result
    (Js.or_number (Some (score result)) 0)
    (Js.length_or_zero (Some (issues result)))
    fileName.

(** The [analysisComplete] message of [handleFixCode], sent after the
    re-analysis: [score: newResult.score]. *)
Definition reanalysisCompleteMessage (newResult : AnalysisResult)
    (fileName : string) : webview_message :=
  MsgAnalysisComplete newResult
    (score newResult)
    (Js.length_or_zero (Some (issues newResult)))
    fileName.

Definition showAnalysisResults (p : t) (result : AnalysisResult)
    (code fileName : string) : M t :=
  let p1 := mk (view p) (Some result) code fileName in
  postMessage p1 (analysisCompleteMessage result fileName) ;;;
  ret p1.

(** The inner [try] of [handleFixCode]: re-analysis of the fixed code. *)
Definition reanalyze (c : LLMClient.t) (p : t) (fixedCode : string) : M t :=
  try_catch
    (newResult <- LLMClient.analyzeCode c fixedCode (currentFileName p) ;;
     let p1 := mk (view p) (Some newResult) (currentCode p)
                 (currentFileName p) in
     postMessage p1
       (reanalysisCompleteMessage newResult (currentFileName p1)) ;;;
     emit (InformationMessage
             ("Score updated: " ^^ Js.num_to_string (score newResult) ^^
              "/100 (" ^^ grade newResult ^^ ")")) ;;;
     ret p1)
    (fun _ => ret p).

(** [handleFixCode]. The provider is threaded through; the outer [catch]
    prints [error.message], which only an [Error] is given here, since
    nothing in the [try] block throws anything else. *)
Definition handleFixCode (c : LLMClient.t) (p : t) : M t :=
  match currentAnalysisResult p with
  | None => emit (WarningMessage "No analysis results to fix") ;;; ret p
  | Some current =>
      if String.eqb (currentCode p) ""
      then emit (WarningMessage "No analysis results to fix") ;;; ret p
      else
        try_catch
          (postMessage p (MsgFixing "AI is fixing your code...") ;;;
           let errorDesc :=
             match issues current with
             | firstIssue :: _ =>
                 template (rule firstIssue) ^^ ": " ^^
                 template (message firstIssue)
             | [] => "Multiple issues detected"
             end in
           fixedCode <- LLMClient.fixCode c (currentCode p) errorDesc
                          (issues current) (currentFileName p) ;;
           let p1 := mk (view p) (currentAnalysisResult p) fixedCode
                       (currentFileName p) in
           postMessage p1 (MsgCodeFixed fixedCode) ;;;
           emit (InformationMessage
                   "Code fixed! Re-analyzing to update score...") ;;;
           reanalyze c p1 fixedCode)
          (fun error =>
             let text :=
               match error with
               | Error m => m
               | _ => "undefined"
               end in
             emit (ErrorMessage ("Fix failed: " ^^ text)) ;;;
             postMessage p (MsgError ("Fix error: " ^^ text)) ;;;
             ret p)
  end.

End ChatbotViewProvider.

(** ** The extension (extension.ts) *)

Module Extension.

(** *** Status bar after an analysis ([startAnalysis]) *)

Inductive statusIcon := IconCheck | IconWarning | IconError.

Definition statusIconOf (score : Z) : statusIcon :=
  if 90 <=? score then IconCheck
  else if 70 <=? score then IconWarning
  else IconError.

Record StatusBarItem := mkStatusBarItem {
  text : string;
  backgroundColor : option string
}.

Definition updateStatusBar (result : AnalysisResult) : StatusBarItem :=
  let score := Js.or_number (Some (score result)) 0 in
  let label := " Score: " ^^ Js.num_to_string score ^^ "/100 (" ^^
               grade result ^^ ")" in
  match statusIconOf score with
  | IconCheck => mkStatusBarItem ("$(check)" ^^ label) None
  | IconWarning =>
      mkStatusBarItem ("$(warning)" ^^ label)
        (Some "statusBarItem.warningBackground")
  | IconError =>
      mkStatusBarItem ("$(error)" ^^ label)
        (Some "statusBarItem.errorBackground")
  end.

(** *** Analysis history *)

Record AnalysisHistory := mkAnalysisHistory {
  timestamp : string;
  fileName : string;
  filePath : string;
  h_score : Z;
  h_grade : string;
  issueCount : Z;
  fileType : string
}.

Definition historyEntry (now name path fileExtension : string)
    (result : AnalysisResult) : AnalysisHistory :=
  mkAnalysisHistory now name path
    (Js.or_number (Some (score result)) 0)
    (Js.or_string (Some (grade result)) "N/A")
    (Js.length_or_zero (Some (issues result)))
    (Js.or_string (Some (file_type result)) fileExtension).

(** [analysisHistory.unshift(historyEntry)] and the truncation that
    follows it; [slice(0, 50)] is [firstn 50]. *)
Definition saveToHistory (analysisHistory : list AnalysisHistory)
    (entry : AnalysisHistory) : list AnalysisHistory :=
  let analysisHistory := entry :: analysisHistory in
  if (50 <? List.length analysisHistory)%nat
  then firstn 50 analysisHistory
  else analysisHistory.

(** The history after a run of analyses, oldest analysis first in
    [entries]. *)
Definition saveAll (analysisHistory : list AnalysisHistory)
    (entries : list AnalysisHistory) : list AnalysisHistory :=
  fold_left saveToHistory entries analysisHistory.

(** [clearAnalysisHistory], once confirmed, and [loadAnalysisHistory]. *)
Definition clearAnalysisHistory : list AnalysisHistory := [].

Definition loadAnalysisHistory (stored : option (list AnalysisHistory))
  : list AnalysisHistory :=
  Js.or_array stored [].

(** *** Diagnostics ([showDiagnostics]) *)

Inductive DiagnosticSeverity :=
| SeverityError | SeverityWarning | SeverityInformation | SeverityHint.

Inductive DiagnosticTag := Unnecessary | Deprecated.

Record Range := mkRange {
  startLine : Z;
  startCharacter : Z;
  endLine : Z;
  endCharacter : Z
}.

Definition MAX_SAFE_INTEGER : Z := 9007199254740991.

(** [new vscode.Range(...)]: the host rejects a negative line or
    character with an illegal-argument error, here [None]. *)
Definition newRange (l1 c1 l2 c2 : Z) : option Range :=
  if (l1 <? 0) || (c1 <? 0) || (l2 <? 0) || (c2 <? 0)
  then None
  else Some (mkRange l1 c1 l2 c2).

Record TextDocument := mkTextDocument {
  uri : string;
  lineCount : Z
}.

Record Diagnostic := mkDiagnostic {
  range : Range;
  d_message : string;
  d_severity : DiagnosticSeverity;
  source : string;
  d_code : string;
  relatedInformation : list (string * Range * string);
  tags : list DiagnosticTag
}.

(** [Math.max(0, (issue.line || 1) - 1)]: the zero-based line. *)
Definition lineOf (issue : Issue) : Z :=
  Z.max 0 (Js.or_number (line issue) 1 - 1).

Definition severityOf (issue : Issue) : DiagnosticSeverity :=
  if String.eqb (severity issue) "critical" ||
     String.eqb (severity issue) "error"
  then SeverityError
  else if String.eqb (severity issue) "warning"
  then SeverityWarning
  else SeverityInformation.

(** One iteration of the loop of [showDiagnostics]; [None] when the host
    refuses the range. *)
Definition diagnosticOf (document : TextDocument) (issue : Issue)
  : option Diagnostic :=
  let line := lineOf issue in
  match newRange line 0 line MAX_SAFE_INTEGER with
  | None => None
  | Some range =>
      Some (mkDiagnostic range
              (Js.or_string (message issue) "Code quality issue detected")
              (severityOf issue)
              "Schneider AI"
              (Js.or_string (rule issue) "UNKNOWN")
              (if Js.truthy_string (fix' issue)
               then [(uri document, range,
                      "Suggested fix: " ^^ Js.or_string (fix' issue) "")]
               else [])
              (if String.eqb (severity issue) "critical"
               then [Deprecated]
               else []))
  end.

(** The list handed to [diagnosticCollection.set(document.uri, ...)], which
    replaces what the collection held for the document. *)
Fixpoint showDiagnostics (document : TextDocument) (issues : list Issue)
  : option (list Diagnostic) :=
  match issues with
  | [] => Some []
  | issue :: rest =>
      match diagnosticOf document issue with
      | None => None
      | Some d =>
          match showDiagnostics document rest with
          | None => None
          | Some ds => Some (d :: ds)
          end
      end
  end.

End Extension.

(** ** The reply parser of the backend ([parse_llm_response])

    Python strings are sequences of code points; the embedding covers the
    code points below 256, one [ascii] each. *)

Module Backend.

(** [str.isspace] on the code points below 256. *)
Definition isspace (c : ascii) : bool :=
  let n := nat_of_ascii c in
  ((9 <=? n) && (n <=? 13) || (28 <=? n) && (n <=? 32) ||
   (n =? 133) || (n =? 160))%nat.

Fixpoint lstrip (s : string) : string :=
  match s with
  | String c rest => if isspace c then lstrip rest else s
  | EmptyString => EmptyString
  end.

(** [rstrip]: a character goes when it is a space and all that follows
    it has gone. *)
Fixpoint rstrip (s : string) : string :=
  match s with
  | String c rest =>
      match rstrip rest with
      | EmptyString => if isspace c then EmptyString else String c EmptyString
      | kept => String c kept
      end
  | EmptyString => EmptyString
  end.

Definition strip (s : string) : string := rstrip (lstrip s).

Definition startswith (s p : string) : bool := String.prefix p s.

(** [s.replace(old, new)] for a non-empty [old]: occurrences are taken
    from the left and do not overlap; [skip] counts the characters of an
    occurrence that are still to be passed over. *)
Fixpoint replace_from (old new : string) (skip : nat) (s : string) : string :=
  match s with
  | EmptyString => EmptyString
  | String c rest =>
      match skip with
      | S k => replace_from old new k rest
      | O =>
          if String.prefix old s
          then new ^^ replace_from old new (String.length old - 1) rest
          else String c (replace_from old new O rest)
      end
  end.

Definition replace (s old new : string) : string := replace_from old new O s.

Definition open_bracket : ascii := "["%char.
Definition close_bracket : ascii := "]"%char.

(** The suffix that starts at the first opening bracket. *)
Fixpoint from_first_open (s : string) : option string :=
  match s with
  | EmptyString => None
  | String c rest =>
      if Ascii.eqb c open_bracket then Some s else from_first_open rest
  end.

(** The longest prefix that ends in a closing bracket. *)
Fixpoint upto_last_close (s : string) : option string :=
  match s with
  | EmptyString => None
  | String c rest =>
      match upto_last_close rest with
      | Some p => Some (String c p)
      | None =>
          if Ascii.eqb c close_bracket
          then Some (String c EmptyString)
          else None
      end
  end.

(** [re.search(r'\[[\s\S]*\]', s)], group 0: the leftmost match starts at
    the first opening bracket that has a closing bracket after it, and the
    greedy star runs to the last closing bracket. *)
Definition re_search_array (s : string) : option string :=
  match from_first_open s with
  | Some (String c rest) =>
      match upto_last_close rest with
      | Some p => Some (String c p)
      | None => None
      end
  | _ => None
  end.

(** [c in s]. *)
Fixpoint contains (s : string) (c : ascii) : bool :=
  match s with
  | EmptyString => false
  | String c' rest => Ascii.eqb c' c || contains rest c
  end.

(** The reply begins, after white space, with an opening bracket: what
    [s.strip().startswith('[')] tests, said of the text itself. *)
Definition all_space (s : string) : bool :=
  forallb isspace (list_ascii_of_string s).

Definition begins_array (s : string) : Prop :=
  exists ws rest,
    s = ws ^^ String open_bracket rest /\ all_space ws = true.

(** The exceptions that [json.loads] raises on a string: a
    [JSONDecodeError] on a text that is not JSON, a [RecursionError] on
    nesting beyond the recursion limit, and a plain [ValueError] on a
    number beyond the limit on integer digits. [JSONDecodeError] is a
    subclass of [ValueError], not the other way round. *)
Inductive py_exception := JSONDecodeError | RecursionError | ValueError.

(** How a Python call ends. *)
Inductive py_result (A : Type) :=
| PyReturn (a : A)
| PyRaise (e : py_exception).
Arguments PyReturn {A} a.
Arguments PyRaise {A} e.

Section Parser.

(** The elements of a decoded array, and [json.loads] on a text whose
    first token opens an array. *)
Variable json : Type.
Variable json_loads : string -> py_result (list json).

(** The [try] block. *)
Definition parse_attempts (ai_response : string) : py_result (list json) :=
  if startswith (strip ai_response) "["
  then json_loads ai_response
  else
    let clean := replace (replace ai_response "```json" "") "```" "" in
    if startswith (strip clean) "["
    then json_loads clean
    else
      match re_search_array ai_response with
      | Some json_match => json_loads json_match
      | None => PyReturn []
      end.

(** [except json.JSONDecodeError]: the clause logs the failure and returns
    the empty list; every other exception goes on to the caller. *)
Definition except_JSONDecodeError (attempt : py_result (list json))
  : py_result (list json) :=
  match attempt with
  | PyRaise JSONDecodeError => PyReturn []
  | _ => attempt
  end.

Definition parse_llm_response (ai_response : string)
  : py_result (list json) :=
  except_JSONDecodeError (parse_attempts ai_response).

(** The third stage as the specification words it: the first balanced
    array-shaped substring. [balanced_from depth s] reads [s] after
    [depth] brackets have been opened and returns the text up to the
    bracket that closes the first of them. *)
Fixpoint balanced_from (depth : nat) (s : string) : option string :=
  match s with
  | EmptyString => None
  | String c rest =>
      if Ascii.eqb c open_bracket
      then option_map (String c) (balanced_from (S depth) rest)
      else if Ascii.eqb c close_bracket
      then match depth with
           | O => Some (String c EmptyString)
           | S d => option_map (String c) (balanced_from d rest)
           end
      else option_map (String c) (balanced_from depth rest)
  end.

Fixpoint first_balanced_array (s : string) : option string :=
  match s with
  | EmptyString => None
  | String c rest =>
      if Ascii.eqb c open_bracket
      then match balanced_from O rest with
           | Some p => Some (String c p)
           | None => first_balanced_array rest
           end
      else first_balanced_array rest
  end.

(** The parser as the specification words it: it never fails, whatever
    the decoder does, and its third stage takes the first balanced
    array. *)
Definition parse_as_specified (raw_reply : string) : list json :=
  let decode text :=
    match json_loads text with
    | PyReturn findings => findings
    | PyRaise _ => []
    end in
  if startswith (strip raw_reply) "["
  then decode raw_reply
  else
    let clean := replace (replace raw_reply "```json" "") "```" "" in
    if startswith (strip clean) "["
    then decode clean
    else
      match first_balanced_array raw_reply with
      | Some found => decode found
      | None => []
      end.

End Parser.

End Backend.


(** ** Observations on outcomes and traces, used to state the properties *)

Module Observe.

(** The events that a run from [before] to [after] added to the trace. *)
Definition new_events (before after : world) : list event :=
  skipn (List.length (trace before)) (trace after).

Fixpoint sleeps (evs : list event) : list Z :=
  match evs with
  | [] => []
  | Sleep ms :: rest => ms :: sleeps rest
  | _ :: rest => sleeps rest
  end.

Fixpoint requests (evs : list event) : nat :=
  match evs with
  | [] => O
  | HttpSend _ :: rest => S (requests rest)
  | _ :: rest => requests rest
  end.

(** The delays [base * 1, ..., base * retries]. *)
Definition backoff (base : Z) (retries : nat) : list Z :=
  map (fun k => base * Z.of_nat k) (seq 1 retries).

(** What the server answers to the next [n] requests with [config]. *)
Definition served (w : world) (config : AxiosConfig) (n : nat) : list wire :=
  map (fun i => server w (sent w + i)%nat config) (seq 0 n).

(** The trace of a run of attempts numbered from [attempt], one per
    element of [answers], with the pause [1000 * (k + 1)] between attempt
    [k] and the next one. *)
Fixpoint attempts_trace (config : AxiosConfig) (answers : list wire)
    (attempt : nat) : list event :=
  match answers with
  | [] => []
  | a :: rest =>
      HttpSend config :: HttpSettle config a ::
      match rest with
      | [] => []
      | _ :: _ =>
          Sleep (1000 * (Z.of_nat attempt + 1)) ::
          attempts_trace config rest (S attempt)
      end
  end.

(** The world after one exchange with [config]. *)
Definition after_exchange (config : AxiosConfig) (w : world) : world :=
  mkWorld (server w) (S (sent w))
    (trace w ++
     [HttpSend config; HttpSettle config (server w (sent w) config)]).

(** An attempt that ends the call: the server answered with a status
    below 400. *)
Definition accepted (a : wire) : bool :=
  match a with
  | Answer s _ => s <? 400
  | _ => false
  end.

(** What an attempt comes to, by the answer it gets: the body below 400,
    the [Error] that [makeRequest] raises itself from 400 to 499, and the
    rejection of axios otherwise. *)
Definition settlement (a : wire) : outcome (option body) :=
  match a with
  | Answer s d =>
      if s <? 400 then Return d
      else if s <? 500
      then Throw (Error ("HTTP " ^^ Js.num_to_string s ^^ ": " ^^
                         Js.or_string
                           (match d with
                            | Some b => j_error b
                            | None => None
                            end) "Unknown error"))
      else Throw (AxiosError (Some (mkResponse s d)))
  | Unreachable => Throw (AxiosError None)
  | TimedOut => Throw (AxiosError None)
  end.

(** What a run of attempts comes to: the first body returned, or the error
    of the last attempt. *)
Fixpoint loop_result (answers : list wire) (lastError : js_error)
  : outcome (option body) :=
  match answers with
  | [] => Throw lastError
  | a :: rest =>
      match settlement a with
      | Return d => Return d
      | Throw e => loop_result rest e
      end
  end.

(** How many of the answers in store a call uses up: it stops at the
    first accepted one. *)
Fixpoint attempts_made (answers : list wire) : nat :=
  match answers with
  | [] => O
  | a :: rest => if accepted a then 1%nat else S (attempts_made rest)
  end.

(** The client-fault statuses that the retry loop names. *)
Definition client_fault_status (s : Z) : bool :=
  (s =? 400) || (s =? 401) || (s =? 403) || (s =? 404).

(** When a fix request came back with a usable result. *)
Definition usable_fix (r : outcome (option body)) : option string :=
  match r with
  | Return (Some b) =>
      if j_success b && Js.truthy_string (j_fixed_code b)
      then j_fixed_code b
      else None
  | _ => None
  end.

(** The fixed texts that [chat] answers with when it has no reply of the
    assistant to pass on. *)
Definition chat_fallbacks : list string :=
  [ "No response from AI";
    "I apologize, but I encountered an error. Please try again.";
    "I encountered an internal error. The backend AI service may be experiencing issues. Please try again in a moment.";
    "I cannot reach the backend server. Please ensure it is running and try again.";
    "I apologize, but I encountered an unexpected error. Please check the backend logs and try again." ].

(** The three bands of a score display, to compare the status bar with
    the score card. *)
Inductive band := UpperBand | MiddleBand | LowerBand.

Definition bandOfIcon (i : Extension.statusIcon) : band :=
  match i with
  | Extension.IconCheck => UpperBand
  | Extension.IconWarning => MiddleBand
  | Extension.IconError => LowerBand
  end.

Definition bandOfRating (r : Webview.rating) : band :=
  match r with
  | Webview.Excellent => UpperBand
  | Webview.NeedsImprovement => MiddleBand
  | Webview.Poor => LowerBand
  end.

(** *** A monitor for the order of a fix and the re-analysis after it *)

Inductive call := FixCall | AnalyzeCall | OtherCall.

Definition callOf (config : AxiosConfig) : call :=
  match cfg_data config with
  | Some (FixPayload _ _ _ _) => FixCall
  | Some (AnalyzePayload _ _) => AnalyzeCall
  | _ => OtherCall
  end.

Inductive phase :=
| Idle | FixInFlight | FixSettled | AnalyzeInFlight | AnalyzeSettled.

(** A fix request may go out at rest or after a settled fix attempt (a
    retry); an analysis request only once a fix exchange has settled, or
    after a settled analysis attempt; an exchange settles only while in
    flight. Anything else is an overlap: [None]. *)
Definition step (ph : phase) (e : event) : option phase :=
  match e with
  | HttpSend config =>
      match callOf config, ph with
      | FixCall, Idle => Some FixInFlight
      | FixCall, FixSettled => Some FixInFlight
      | AnalyzeCall, FixSettled => Some AnalyzeInFlight
      | AnalyzeCall, AnalyzeSettled => Some AnalyzeInFlight
      | OtherCall, _ => Some ph
      | _, _ => None
      end
  | HttpSettle config _ =>
      match callOf config, ph with
      | FixCall, FixInFlight => Some FixSettled
      | AnalyzeCall, AnalyzeInFlight => Some AnalyzeSettled
      | OtherCall, _ => Some ph
      | _, _ => None
      end
  | _ => Some ph
  end.

Fixpoint run (ph : phase) (evs : list event) : option phase :=
  match evs with
  | [] => Some ph
  | e :: rest =>
      match step ph e with
      | Some ph' => run ph' rest
      | None => None
      end
  end.

Definition strictly_ordered (evs : list event) : bool :=
  match run Idle evs with
  | Some _ => true
  | None => false
  end.

(** Events that are not HTTP traffic. *)
Definition quiet (evs : list event) : Prop :=
  Forall (fun e => match e with
                   | HttpSend _ => False
                   | HttpSettle _ _ => False
                   | _ => True
                   end) evs.

(** The source texts carried by the analysis requests of a trace. *)
Fixpoint analyzed_codes (evs : list event) : list string :=
  match evs with
  | [] => []
  | HttpSend config :: rest =>
      match cfg_data config with
      | Some (AnalyzePayload code _) => code :: analyzed_codes rest
      | _ => analyzed_codes rest
      end
  | _ :: rest => analyzed_codes rest
  end.

End Observe.

(** ** File types (extension.ts, [SUPPORTED_LANGUAGES]) *)

Module FileTypes.

(** The table, in the order of its keys. *)
Definition SUPPORTED_LANGUAGES : list (string * list string) :=
  [ ("python", ["py"; "pyw"]);
    ("structured-text", ["st"; "iec"]);
    ("javascript", ["js"; "jsx"]);
    ("typescript", ["ts"; "tsx"]);
    ("c", ["c"; "h"]);
    ("cpp", ["cpp"; "hpp"; "cc"; "cxx"; "hh"]);
    ("java", ["java"]);
    ("json", ["json"]);
    ("xml", ["xml"]);
    ("markdown", ["md"]) ].

(** [types.includes(ext)]. *)
Definition includes (types : list string) (ext : string) : bool :=
  existsb (String.eqb ext) types.

(** The loop of [isSupportedFileType] over [Object.values(table)]. *)
Fixpoint isSupportedIn (table : list (string * list string)) (ext : string)
  : bool :=
  match table with
  | [] => false
  | (_, types) :: rest =>
      if includes types ext then true else isSupportedIn rest ext
  end.

Definition isSupportedFileType (ext : string) : bool :=
  isSupportedIn SUPPORTED_LANGUAGES ext.

(** The loop of [getLanguageName] over [Object.entries(table)]. *)
Fixpoint languageNameIn (table : list (string * list string)) (ext : string)
  : string :=
  match table with
  | [] => "unknown"
  | (lang, exts) :: rest =>
      if includes exts ext then lang else languageNameIn rest ext
  end.

Definition getLanguageName (ext : string) : string :=
  languageNameIn SUPPORTED_LANGUAGES ext.

(** [s.split(sep).pop()]: the text after the last separator, the whole
    text when there is none. *)
Fixpoint last_segment (sep : ascii -> bool) (s : string) : string :=
  match s with
  | EmptyString => EmptyString
  | String c rest =>
      if existsb sep (list_ascii_of_string rest) then last_segment sep rest
      else if sep c then rest
      else s
  end.

Definition is_dot (c : ascii) : bool := Ascii.eqb c "."%char.

(** The class [[\\/]]. *)
Definition is_path_separator (c : ascii) : bool :=
  Ascii.eqb c "/"%char || Ascii.eqb c "\"%char.

(** [toLowerCase] on one code point below 256: the letters A to Z, and the
    capital letters from 192 to 222 but for the multiplication sign 215, go
    32 up. *)
Definition lower (c : ascii) : ascii :=
  let n := nat_of_ascii c in
  if ((65 <=? n) && (n <=? 90) ||
      (192 <=? n) && (n <=? 222) && negb (n =? 215))%nat
  then ascii_of_nat (n + 32)
  else c.

Fixpoint toLowerCase (s : string) : string :=
  match s with
  | EmptyString => EmptyString
  | String c rest => String (lower c) (toLowerCase rest)
  end.

(** [document.fileName.split(/[\\/]/).pop() || 'unknown']. *)
Definition baseName (path : string) : string :=
  Js.or_string (Some (last_segment is_path_separator path)) "unknown".

(** [fileName.split('.').pop()?.toLowerCase()]; [pop] of the array of a
    split is never [undefined]. *)
Definition fileExtension (fileName : string) : string :=
  toLowerCase (last_segment is_dot fileName).

(** The test that the commands make on a file name:
    [fileExt && isSupportedFileType(fileExt)]. *)
Definition accepts (fileName : string) : bool :=
  negb (String.eqb (fileExtension fileName) "") &&
  isSupportedFileType (fileExtension fileName).

(** [Object.values(SUPPORTED_LANGUAGES).flat().join(', ')]. *)
Definition supportedList : string :=
  String.concat ", " (flat_map snd SUPPORTED_LANGUAGES).

End FileTypes.

(** ** The commands of the extension (extension.ts) *)

Module Commands.

(** The settings that the commands read, each with the default that
    [config.get] is given. *)
Record Settings := mkSettings {
  maxFileSize : option Z;
  showInlineErrors : option bool
}.

Definition get {A : Type} (setting : option A) (default : A) : A :=
  match setting with
  | Some v => v
  | None => default
  end.

(** The active editor: its document, the text [getText()] returns and the
    path [document.fileName]. *)
Record TextEditor := mkTextEditor {
  document : Extension.TextDocument;
  getText : string;
  documentFileName : string
}.

(** The module-level variables of extension.ts, the value kept in
    [globalState] under [schneider.analysisHistory] ([None]: never
    written), the diagnostic collection as the list of the documents that
    have diagnostics, and the assistant. *)
Record State := mkState {
  lastAnalysisResult : option AnalysisResult;
  diagnosticCollection : list (string * list Extension.Diagnostic);
  statusBarItem : Extension.StatusBarItem;
  analysisHistory : list Extension.AnalysisHistory;
  globalState : option (list Extension.AnalysisHistory);
  chatbotProvider : ChatbotViewProvider.t
}.

(** [diagnosticCollection.set(uri, diagnostics)] replaces what was there
    for [uri]. *)
Definition setDiagnostics (collection : list (string * list Extension.Diagnostic))
    (uri : string) (diagnostics : list Extension.Diagnostic)
  : list (string * list Extension.Diagnostic) :=
  (uri, diagnostics) ::
  filter (fun entry => negb (String.eqb (fst entry) uri)) collection.

Definition getDiagnostics (collection : list (string * list Extension.Diagnostic))
    (uri : string) : list Extension.Diagnostic :=
  match find (fun entry => String.eqb (fst entry) uri) collection with
  | Some entry => snd entry
  | None => []
  end.

(** [error.message]. *)
Definition messageOf (error : js_error) : string :=
  match error with
  | Error m => m
  | _ => "undefined"
  end.

(** Running a computation and looking at how it ended: the two arms of a
    [try]/[catch] whose handler needs the variables as they were when the
    exception was raised. *)
Definition attempt {A : Type} (m : M A) : M (outcome A) :=
  fun w =>
    match m w with
    | (Return a, w1) => (Return (Return a), w1)
    | (Throw e, w1) => (Return (Throw e), w1)
    end.

(** The [catch] block of [startAnalysis]. *)
Definition analysisFailed (st : State) (error : js_error) : M State :=
  emit (ErrorMessage ("Analysis failed: " ^^ messageOf error)) ;;;
  ret (mkState (lastAnalysisResult st) (diagnosticCollection st)
         (Extension.mkStatusBarItem "$(error) Analysis Failed"
            (Some "statusBarItem.errorBackground"))
         (analysisHistory st) (globalState st) (chatbotProvider st)).

(** The summary notification. *)
Definition summaryMessage (analysisTime : string) (result : AnalysisResult)
  : string :=
  let issueCount := Js.length_or_zero (Some (issues result)) in
  "Analysis Complete (" ^^ analysisTime ^^ "s): " ^^
  Js.num_to_string issueCount ^^ " issue" ^^
  (if issueCount =? 1 then "" else "s") ^^ " | Score: " ^^
  Js.num_to_string (Js.or_number (Some (score result)) 0) ^^ "/100 (" ^^
  grade result ^^ ")".

(** [startAnalysis]. [proceed] is what the user answers when asked about a
    long file, [now] is [new Date().toISOString()] and [analysisTime] the
    elapsed time as printed. The progress notifications are left out, and
    so is what the buttons of the closing notifications start later. *)
Definition startAnalysis (settings : Settings)
    (activeTextEditor : option TextEditor) (proceed : option string)
    (now analysisTime : string) (c : LLMClient.t) (st : State) : M State :=
  match activeTextEditor with
  | None =>
      emit (ErrorMessage "No active editor found. Please open a file first.") ;;;
      ret st
  | Some editor =>
      let code := getText editor in
      let fileName := FileTypes.baseName (documentFileName editor) in
      let filePath := documentFileName editor in
      let fileExtension := FileTypes.fileExtension fileName in
      if negb (FileTypes.accepts fileName)
      then
        emit (WarningMessage
                ("Schneider AI supports: " ^^ FileTypes.supportedList)) ;;;
        ret st
      else
        let maxLines := get (maxFileSize settings) 1000 in
        let lineCount := Extension.lineCount (document editor) in
        go <- (if maxLines <? lineCount
               then
                 emit (WarningMessage
                         ("File has " ^^ Js.num_to_string lineCount ^^
                          " lines (max: " ^^ Js.num_to_string maxLines ^^
                          "). Analysis may take longer.")) ;;;
                 ret (match proceed with
                      | Some answer => String.eqb answer "Analyze Anyway"
                      | None => false
                      end)
               else ret true) ;;
        if negb go then ret st
        else
          let st1 :=
            mkState (lastAnalysisResult st) []
              (Extension.mkStatusBarItem "$(sync~spin) Analyzing..."
                 (Extension.backgroundColor (statusBarItem st)))
              (analysisHistory st) (globalState st) (chatbotProvider st) in
          analysed <- attempt (LLMClient.analyzeCode c code fileName) ;;
          match analysed with
          | Throw error => analysisFailed st1 error
          | Return result =>
              let st2 :=
                mkState (Some result) (diagnosticCollection st1)
                  (statusBarItem st1) (analysisHistory st1) (globalState st1)
                  (chatbotProvider st1) in
              let shown :=
                if get (showInlineErrors settings) true
                then
                  option_map
                    (setDiagnostics (diagnosticCollection st2)
                       (Extension.uri (document editor)))
                    (Extension.showDiagnostics (document editor)
                       (issues result))
                else Some (diagnosticCollection st2) in
              match shown with
              | None => analysisFailed st2 (Error "Illegal argument: line must be non-negative")
              | Some collection =>
                  let entry :=
                    Extension.historyEntry now fileName filePath fileExtension
                      result in
                  let history :=
                    Extension.saveToHistory (analysisHistory st2) entry in
                  provider <- ChatbotViewProvider.showAnalysisResults
                                (chatbotProvider st2) result code fileName ;;
                  emit (InformationMessage
                          (summaryMessage analysisTime result)) ;;;
                  ret (mkState (Some result) collection
                         (Extension.updateStatusBar result)
                         history (Some history) provider)
              end
          end
  end.

(** [clearAnalysisHistory]; [confirm] is the button the user presses in the
    modal question. *)
Definition clearAnalysisHistory (confirm : option string) (st : State)
  : M State :=
  emit (WarningMessage "Clear all analysis history?") ;;;
  match confirm with
  | Some "Clear" =>
      emit (InformationMessage "Analysis history cleared") ;;;
      ret (mkState (lastAnalysisResult st) (diagnosticCollection st)
             (statusBarItem st) Extension.clearAnalysisHistory (Some [])
             (chatbotProvider st))
  | _ => ret st
  end.

(** [loadAnalysisHistory], at activation. *)
Definition loadAnalysisHistory (st : State) : State :=
  mkState (lastAnalysisResult st) (diagnosticCollection st)
    (statusBarItem st) (Extension.loadAnalysisHistory (globalState st))
    (globalState st) (chatbotProvider st).

(** Whether [startAnalysis] gets as far as the analysis: there is an
    editor, the file type is accepted, and the file is short enough or the
    user said to go on. *)
Definition tooLong (settings : Settings) (editor : TextEditor) : bool :=
  get (maxFileSize settings) 1000 <? Extension.lineCount (document editor).

Definition runs (settings : Settings) (activeTextEditor : option TextEditor)
    (proceed : option string) : bool :=
  match activeTextEditor with
  | None => false
  | Some editor =>
      FileTypes.accepts (FileTypes.baseName (documentFileName editor)) &&
      (if tooLong settings editor
       then match proceed with
            | Some answer => String.eqb answer "Analyze Anyway"
            | None => false
            end
       else true)
  end.

(** What a restart would load is what the extension holds. *)
Definition persisted (st : State) : Prop :=
  Extension.loadAnalysisHistory (globalState st) = analysisHistory st.

End Commands.

(** ** The chat of the assistant (chatbotView.ts) *)

Module Chat.

Definition newline : string := String (ascii_of_nat 10) EmptyString.

(** [`${idx + 1}. [${i.severity}] ${i.message} (Line ${i.line})`]. *)
Definition issueLine (idx : nat) (i : Issue) : string :=
  Js.num_to_string (Z.of_nat idx + 1) ^^ ". [" ^^ severity i ^^ "] " ^^
  ChatbotViewProvider.template (message i) ^^ " (Line " ^^
  match line i with
  | Some l => Js.num_to_string l
  | None => "undefined"
  end ^^ ")".

(** [xs.map((x, idx) => f(idx, x))]. *)
Fixpoint mapi {A B : Type} (f : nat -> A -> B) (idx : nat) (xs : list A)
  : list B :=
  match xs with
  | [] => []
  | x :: rest => f idx x :: mapi f (S idx) rest
  end.

(** The context that [handleChatMessage] builds from the analysis at
    hand. *)
Definition contextOf (p : ChatbotViewProvider.t) : string :=
  match ChatbotViewProvider.currentAnalysisResult p with
  | None => ""
  | Some current =>
      "File: " ^^ ChatbotViewProvider.currentFileName p ^^ newline ^^
      "Score: " ^^ Js.num_to_string (Js.or_number (Some (score current)) 0) ^^
      "/100" ^^ newline ^^
      "Issues Found: " ^^
      Js.num_to_string (Z.of_nat (List.length (issues current))) ^^
      newline ^^ newline ^^
      "Top Issues:" ^^ newline ^^
      String.concat newline (mapi issueLine O (firstn 5 (issues current))) ^^
      newline ^^ newline ^^
      "Current Code:" ^^ newline ^^ "```python" ^^ newline ^^
      ChatbotViewProvider.currentCode p ^^ newline ^^ "```" ^^
      newline ^^ newline ^^
      "Instructions: Give SPECIFIC fixes with CODE EXAMPLES. Show exactly what to change."
  end.

(** The description of the error that [handleFixCode] sends along with the
    code: the first issue, if there is one. *)
Definition errorDescOf (current : AnalysisResult) : string :=
  match issues current with
  | firstIssue :: _ =>
      ChatbotViewProvider.template (rule firstIssue) ^^ ": " ^^
      ChatbotViewProvider.template (message firstIssue)
  | [] => "Multiple issues detected"
  end.

(** The world with more events on its trace. *)
Definition extended (w : world) (evs : list event) : world :=
  mkWorld (server w) (sent w) (trace w ++ evs).

(** What [this._view?.webview.postMessage(m)] adds to the trace. *)
Definition postedBy (p : ChatbotViewProvider.t) (m : webview_message)
  : list event :=
  if ChatbotViewProvider.view p then [PostMessage m] else [].

Definition handleChatMessage (c : LLMClient.t) (p : ChatbotViewProvider.t)
    (message : string) : M unit :=
  try_catch
    (ChatbotViewProvider.postMessage p (MsgThinking "AI is thinking...") ;;;
     reply <- LLMClient.chat c message (contextOf p) ;;
     ChatbotViewProvider.postMessage p (MsgChatReply reply))
    (fun error =>
       ChatbotViewProvider.postMessage p
         (MsgError ("Chat error: " ^^ Commands.messageOf error))).

(** The input of the webview: whether the text field and the send button
    are enabled. The listener disables them on [thinking] and [fixing] and
    enables them on [chatReply], [codeFixed] and [error]; the click on the
    Auto-Fix button disables them before the command is sent. *)
Definition inputAfter (enabled : bool) (m : webview_message) : bool :=
  match m with
  | MsgAnalysisComplete _ _ _ _ => enabled
  | MsgChatReply _ => true
  | MsgThinking _ => false
  | MsgCodeFixed _ => true
  | MsgFixing _ => false
  | MsgError _ => true
  end.

Definition fixCodeClicked (enabled : bool) : bool := false.

Fixpoint posted (evs : list event) : list webview_message :=
  match evs with
  | [] => []
  | PostMessage m :: rest => m :: posted rest
  | _ :: rest => posted rest
  end.

(** The events by which a command tells the user that it failed: an error
    notification, or an [error] message to the webview. *)
Definition reportsFailure (e : event) : bool :=
  match e with
  | ErrorMessage _ => true
  | PostMessage (MsgError _) => true
  | _ => false
  end.

(** The input after the webview has handled the messages of a trace. *)
Definition inputAfterAll (enabled : bool) (evs : list event) : bool :=
  fold_left inputAfter (posted evs) enabled.

End Chat.

(** * Properties *)

(** ** The monad *)

Section MonadFacts.

Context {A B : Type}.

Lemma bind_return (m : M A) (k : A -> M B) (w w1 : world) (a : A) :
  m w = (Return a, w1) -> bind m k w = k a w1.
Proof. intros H. unfold bind. now rewrite H. Qed.

Lemma bind_throw (m : M A) (k : A -> M B) (w w1 : world) (e : js_error) :
  m w = (Throw e, w1) -> bind m k w = (Throw e, w1).
Proof. intros H. unfold bind. now rewrite H. Qed.

Lemma try_catch_return (m : M A) (h : js_error -> M A) (w w1 : world) (a : A) :
  m w = (Return a, w1) -> try_catch m h w = (Return a, w1).
Proof. intros H. unfold try_catch. now rewrite H. Qed.

Lemma try_catch_throw (m : M A) (h : js_error -> M A) (w w1 : world)
    (e : js_error) :
  m w = (Throw e, w1) -> try_catch m h w = h e w1.
Proof. intros H. unfold try_catch. now rewrite H. Qed.

End MonadFacts.

Lemma new_events_app (w w' : world) (evs : list event) :
  trace w' = trace w ++ evs -> Observe.new_events w w' = evs.
Proof.
  intros H. unfold Observe.new_events. rewrite H.
  rewrite skipn_app, skipn_all, Nat.sub_diag. reflexivity.
Qed.

(** ** The transport: [makeRequest] *)

Section Transport.

Import Observe.

Variable c : LLMClient.t.
Variable endpoint : string.
Variable method : http_method.
Variable data' : option payload.
Variable timeout : Z.

Let config := LLMClient.requestConfig c endpoint method data' timeout.

Local Abbreviation after_exchange := (Observe.after_exchange config).

(** One attempt always performs exactly one exchange. *)
Lemma attempt_once_world (w : world) :
  snd (LLMClient.attempt_once c endpoint method data' timeout w)
  = after_exchange w.
Proof.
  unfold LLMClient.attempt_once, bind, axios, after_exchange.
  fold config.
  destruct (server w (sent w) config) as [s d| |]; cbn; try reflexivity.
  destruct (LLMClient.validateStatus s); cbn; [|reflexivity].
  destruct (400 <=? s); reflexivity.
Qed.

(** One attempt comes to the settlement of the answer it gets. *)
Lemma attempt_once_run (w : world) :
  LLMClient.attempt_once c endpoint method data' timeout w
  = (settlement (server w (sent w) config), after_exchange w).
Proof.
  unfold LLMClient.attempt_once, bind, axios, Observe.after_exchange.
  fold config.
  destruct (server w (sent w) config) as [s d| |]; cbn [settlement];
    try reflexivity.
  unfold LLMClient.validateStatus.
  destruct (Z.ltb_spec s 500) as [Hlt|Hge]; cbn [status data].
  - destruct (Z.leb_spec 400 s), (Z.ltb_spec s 400); try lia; reflexivity.
  - destruct (Z.ltb_spec s 400); [lia|]. reflexivity.
Qed.

(** An accepted answer is returned as it is. *)
Lemma attempt_once_accepted (w : world) (s : Z) (d : option body) :
  server w (sent w) config = Answer s d -> s < 400 ->
  fst (LLMClient.attempt_once c endpoint method data' timeout w) = Return d.
Proof.
  intros Hs Hlt.
  unfold LLMClient.attempt_once, bind, axios. fold config. rewrite Hs.
  unfold LLMClient.validateStatus.
  destruct (Z.ltb_spec s 500) as [_|?]; [|lia]. cbn.
  destruct (Z.leb_spec 400 s) as [?|_]; [lia|]. reflexivity.
Qed.

(** The slip behind the retry policy: with [validateStatus] accepting
    every status below 500, axios rejects only on a status of 500 or more
    or without a response, and a 4xx answer is turned into a plain
    [Error] by [makeRequest] itself. So no error that reaches the [catch]
    block passes its client-fault test. *)
Lemma attempt_once_rejected (w : world) :
  accepted (server w (sent w) config) = false ->
  exists e,
    fst (LLMClient.attempt_once c endpoint method data' timeout w) = Throw e
    /\ LLMClient.is_client_fault e = false.
Proof.
  intros Hacc.
  unfold LLMClient.attempt_once, bind, axios. fold config.
  destruct (server w (sent w) config) as [s d| |]; cbn in *.
  - unfold LLMClient.validateStatus.
    destruct (Z.ltb_spec s 500) as [Hlt|Hge]; cbn.
    + destruct (Z.leb_spec 400 s) as [?|?]; [|lia].
      eexists; split; reflexivity.
    + eexists; split; [reflexivity|]. cbn.
      repeat match goal with
             | |- context [?x =? ?y] => destruct (Z.eqb_spec x y); try lia
             end; reflexivity.
  - eexists; split; reflexivity.
  - eexists; split; reflexivity.
Qed.

Lemma served_S (w : world) (n : nat) :
  served w config (S n)
  = server w (sent w) config :: served (after_exchange w) config n.
Proof.
  unfold served. cbn [seq map]. rewrite Nat.add_0_r. f_equal.
  rewrite <- seq_shift, map_map. apply map_ext. intros i. cbn.
  now rewrite Nat.add_succ_r.
Qed.

Lemma attempts_made_pos (a : wire) (rest : list wire) :
  (1 <= attempts_made (a :: rest))%nat.
Proof. cbn. destruct (accepted a); lia. Qed.

Lemma attempts_made_le (answers : list wire) :
  (attempts_made answers <= List.length answers)%nat.
Proof.
  induction answers as [|a rest IH]; cbn; [lia|].
  destruct (accepted a); lia.
Qed.

(** The world after the loop: it has used up [attempts_made] answers and
    paused between any two attempts. *)
Lemma retry_loop_world (remaining : nat) :
  forall (attempt : nat) (lastError : js_error) (w : world),
    (attempt + remaining = S (LLMClient.retryAttempts c))%nat ->
    let answers := served w config remaining in
    let k := attempts_made answers in
    snd (LLMClient.retry_loop c endpoint method data' timeout
           remaining attempt lastError w)
    = mkWorld (server w) (sent w + k)
        (trace w ++ attempts_trace config (firstn k answers) attempt).
Proof.
  induction remaining as [|n IH]; intros attempt lastError w Hinv answers k.
  - destruct w; cbn. now rewrite Nat.add_0_r, app_nil_r.
  - subst answers k. rewrite served_S.
    cbn [LLMClient.retry_loop]. unfold try_catch.
    pose proof (attempt_once_world w) as Hw.
    destruct (LLMClient.attempt_once c endpoint method data' timeout w)
      as [r w1] eqn:Hrun.
    cbn in Hw. subst w1.
    cbn [attempts_made].
    destruct (accepted (server w (sent w) config)) eqn:Hacc.
    + destruct (server w (sent w) config) as [s d| |] eqn:Hs;
        cbn in Hacc; try discriminate.
      pose proof (attempt_once_accepted w s d Hs) as Hok.
      rewrite Hrun in Hok. cbn in Hok. rewrite Hok by lia.
      cbn. unfold after_exchange. rewrite Hs, Nat.add_1_r. reflexivity.
    + destruct (attempt_once_rejected w Hacc) as [e [He Hcf]].
      rewrite Hrun in He. cbn in He. subst r. rewrite Hcf, andb_false_r.
      destruct n as [|n'].
      * assert (Hlast : (attempt <? LLMClient.retryAttempts c)%nat = false)
          by (apply Nat.ltb_ge; lia).
        rewrite Hlast. cbn. unfold after_exchange.
        now rewrite Nat.add_1_r.
      * assert (Hmore : (attempt <? LLMClient.retryAttempts c)%nat = true)
          by (apply Nat.ltb_lt; lia).
        rewrite Hmore.
        unfold bind at 1. unfold LLMClient.delay, emit. cbv beta iota.
        rewrite IH by lia. cbv zeta.
        change (served (mkWorld (server (after_exchange w))
                          (sent (after_exchange w)) _) config (S n'))
          with (served (after_exchange w) config (S n')).
        destruct (served (after_exchange w) config (S n')) as [|a1 rest]
          eqn:Hsv; [discriminate|].
        pose proof (attempts_made_pos a1 rest) as Hpos.
        destruct (attempts_made (a1 :: rest)) as [|k']; [lia|].
        cbn [server sent trace Observe.after_exchange firstn attempts_trace].
        f_equal; [lia|].
        rewrite <- !app_assoc. reflexivity.
Qed.

(** The result of the loop. *)
Lemma retry_loop_result (remaining : nat) :
  forall (attempt : nat) (lastError : js_error) (w : world),
    fst (LLMClient.retry_loop c endpoint method data' timeout
           remaining attempt lastError w)
    = loop_result (served w config remaining) lastError.
Proof.
  induction remaining as [|n IH]; intros attempt lastError w; [reflexivity|].
  rewrite served_S. cbn [LLMClient.retry_loop loop_result].
  unfold try_catch. rewrite attempt_once_run.
  destruct (settlement (server w (sent w) config)) as [d|e] eqn:Hset;
    [reflexivity|].
  assert (Hcf : LLMClient.is_client_fault e = false).
  { destruct (server w (sent w) config) as [s d| |]; cbn in Hset.
    - destruct (Z.ltb_spec s 400); [discriminate|].
      destruct (Z.ltb_spec s 500); inversion Hset; subst; [reflexivity|].
      cbn.
      repeat match goal with
             | |- context [?x =? ?y] => destruct (Z.eqb_spec x y); try lia
             end; reflexivity.
    - inversion Hset; reflexivity.
    - inversion Hset; reflexivity. }
  rewrite Hcf, andb_false_r.
  unfold bind at 1.
  destruct (attempt <? LLMClient.retryAttempts c)%nat;
    unfold LLMClient.delay, emit, ret; cbv beta iota; rewrite IH; reflexivity.
Qed.

End Transport.

Section Backoff.

Import Observe.

Lemma attempts_trace_retry (config : AxiosConfig) (a b : wire)
    (rest : list wire) (attempt : nat) :
  attempts_trace config (a :: b :: rest) attempt
  = HttpSend config :: HttpSettle config a ::
    Sleep (1000 * (Z.of_nat attempt + 1)) ::
    attempts_trace config (b :: rest) (S attempt).
Proof. reflexivity. Qed.

Lemma sleeps_attempts_trace (config : AxiosConfig) (answers : list wire) :
  forall attempt : nat,
    sleeps (attempts_trace config answers attempt)
    = map (fun k => 1000 * Z.of_nat k)
        (seq (S attempt) (List.length answers - 1)).
Proof.
  induction answers as [|a rest IH]; intros attempt; [reflexivity|].
  destruct rest as [|b rest']; [reflexivity|].
  rewrite attempts_trace_retry. cbn [sleeps]. rewrite IH.
  cbn [List.length Nat.sub]. rewrite Nat.sub_0_r. cbn [seq map].
  f_equal. lia.
Qed.

Lemma requests_attempts_trace (config : AxiosConfig) (answers : list wire) :
  forall attempt : nat,
    requests (attempts_trace config answers attempt) = List.length answers.
Proof.
  induction answers as [|a rest IH]; intros attempt; [reflexivity|].
  destruct rest as [|b rest']; [reflexivity|].
  rewrite attempts_trace_retry. cbn [requests]. rewrite IH. reflexivity.
Qed.

Lemma firstn_seq_le (k : nat) :
  forall start n : nat, (k <= n)%nat -> firstn k (seq start n) = seq start k.
Proof.
  induction k as [|k IH]; intros start n Hle; [reflexivity|].
  destruct n as [|n]; [lia|].
  cbn [seq firstn]. f_equal. apply IH. lia.
Qed.

Lemma firstn_served (w : world) (config : AxiosConfig) (k n : nat) :
  (k <= n)%nat -> firstn k (served w config n) = served w config k.
Proof.
  intros Hle. unfold served. rewrite firstn_map.
  now rewrite firstn_seq_le.
Qed.

(** The whole effect of [makeRequest] on the world. *)
Lemma makeRequest_world (c : LLMClient.t) (endpoint : string)
    (method : http_method) (data' : option payload) (timeout : Z) (w : world) :
  let config := LLMClient.requestConfig c endpoint method data' timeout in
  let k := attempts_made (served w config (S (LLMClient.retryAttempts c))) in
  (1 <= k <= S (LLMClient.retryAttempts c))%nat /\
  snd (LLMClient.makeRequest c endpoint method data' timeout w)
  = mkWorld (server w) (sent w + k)
      (trace w ++ attempts_trace config (served w config k) O).
Proof.
  cbv zeta.
  set (config := LLMClient.requestConfig c endpoint method data' timeout).
  set (k := attempts_made _).
  assert (Hk : (1 <= k <= S (LLMClient.retryAttempts c))%nat).
  { subst k config. split.
    - rewrite served_S. apply attempts_made_pos.
    - etransitivity; [apply attempts_made_le|].
      unfold served. now rewrite length_map, length_seq. }
  split; [exact Hk|].
  unfold LLMClient.makeRequest.
  rewrite retry_loop_world by lia. cbv zeta. fold config. fold k.
  now rewrite firstn_served by lia.
Qed.

End Backoff.

(** C9. For every transport call the pause before retry [k] is
    [1000 * k] milliseconds, and the call makes at least one and at most
    [retryAttempts + 1] attempts: the events it adds to the trace are exactly
    the attempts, each a request and its settlement, with the pause
    [1000 * k] between attempt [k - 1] and attempt [k]. *)
Theorem makeRequest_backoff_bounded :
  forall (c : LLMClient.t) (endpoint : string) (method : http_method)
         (data' : option payload) (timeout : Z) (w : world),
    let config := LLMClient.requestConfig c endpoint method data' timeout in
    let w' := snd (LLMClient.makeRequest c endpoint method data' timeout w) in
    let evs := Observe.new_events w w' in
    let attempts := Observe.requests evs in
    (1 <= attempts <= LLMClient.retryAttempts c + 1)%nat /\
    sent w' = (sent w + attempts)%nat /\
    evs = Observe.attempts_trace config (Observe.served w config attempts) O /\
    Observe.sleeps evs = Observe.backoff 1000 (attempts - 1).
Proof.
  intros c endpoint method data' timeout w config w' evs attempts.
  destruct (makeRequest_world c endpoint method data' timeout w) as [Hk Hw].
  cbv zeta in Hk, Hw. fold config in Hk, Hw.
  set (k := Observe.attempts_made _) in Hk, Hw.
  assert (Hevs : evs = Observe.attempts_trace config (Observe.served w config k) O).
  { subst evs w'. apply new_events_app. rewrite Hw. reflexivity. }
  assert (Hlen : List.length (Observe.served w config k) = k).
  { unfold Observe.served. now rewrite length_map, length_seq. }
  assert (Hatt : attempts = k).
  { subst attempts. rewrite Hevs, requests_attempts_trace. exact Hlen. }
  rewrite Hatt. repeat split; try lia.
  - subst w'. rewrite Hw. reflexivity.
  - exact Hevs.
  - rewrite Hevs, sleeps_attempts_trace, Hlen. reflexivity.
Qed.

(** A client-fault answer is retried like any other failure: against a
    server that answers every attempt with the same status between 400 and
    499, the call uses all its attempts. *)
Lemma client_fault_uses_all_attempts (c : LLMClient.t) (endpoint : string)
    (method : http_method) (data' : option payload) (timeout : Z) (w : world)
    (s : Z) (d : option body) :
  (forall n config, server w n config = Answer s d) ->
  400 <= s < 500 ->
  sent (snd (LLMClient.makeRequest c endpoint method data' timeout w))
  = (sent w + LLMClient.retryAttempts c + 1)%nat.
Proof.
  intros Hsrv Hs.
  destruct (makeRequest_world c endpoint method data' timeout w) as [_ Hw].
  cbv zeta in Hw. rewrite Hw. cbn [sent].
  assert (Hall : forall n config,
             Observe.attempts_made (Observe.served w config n) = n).
  { intros n config. unfold Observe.served.
    generalize 0%nat as from.
    induction n as [|n IH]; intros from; [reflexivity|].
    cbn [seq map Observe.attempts_made]. rewrite Hsrv. cbn.
    destruct (Z.ltb_spec s 400); [lia|]. now rewrite IH. }
  rewrite Hall. lia.
Qed.

(** C1, at the failing input. The server answers every attempt with 401;
    the call does not stop at the first answer: it makes three attempts,
    pauses 1000 and 2000 milliseconds between them, and only then throws. *)
Theorem auth_fault_is_retried :
  let w := mkWorld (fun _ _ => Answer 401 None) 0 [] in
  let run := LLMClient.makeRequest (LLMClient.create None) "/analyze" POST
               (Some (AnalyzePayload "x = 1" "a.py")) 60000 w in
  fst run = Throw (Error "HTTP 401: Unknown error") /\
  sent (snd run) = 3%nat /\
  Observe.requests (trace (snd run)) = 3%nat /\
  Observe.sleeps (trace (snd run)) = [1000; 2000].
Proof. vm_compute. repeat split. Qed.

(** ** The client operations: [chat] and [fixCode] *)

Section ClientOperations.

Import Observe.

Lemma makeRequest_result (c : LLMClient.t) (endpoint : string)
    (method : http_method) (data' : option payload) (timeout : Z) (w : world) :
  fst (LLMClient.makeRequest c endpoint method data' timeout w)
  = loop_result
      (served w (LLMClient.requestConfig c endpoint method data' timeout)
         (S (LLMClient.retryAttempts c)))
      Undefined.
Proof. unfold LLMClient.makeRequest. apply retry_loop_result. Qed.

Lemma loop_result_return (answers : list wire) :
  forall (lastError : js_error) (d : option body),
    loop_result answers lastError = Return d ->
    exists s, In (Answer s d) answers /\ s < 400.
Proof.
  induction answers as [|a rest IH]; intros lastError d H; [discriminate|].
  cbn [loop_result] in H.
  destruct (settlement a) as [d0|e] eqn:Hset.
  - inversion H; subst d0. destruct a as [s d1| |]; cbn in Hset;
      try discriminate.
    destruct (Z.ltb_spec s 400) as [Hlt|Hge].
    + inversion Hset; subst. exists s. split; [now left|exact Hlt].
    + destruct (s <? 500); discriminate.
  - destruct (IH e d H) as [s [Hin Hs]]. exists s. split; [now right|exact Hs].
Qed.

Lemma makeRequest_return (c : LLMClient.t) (endpoint : string)
    (method : http_method) (data' : option payload) (timeout : Z) (w : world)
    (d : option body) :
  fst (LLMClient.makeRequest c endpoint method data' timeout w) = Return d ->
  exists n s,
    server w n (LLMClient.requestConfig c endpoint method data' timeout)
    = Answer s d /\ s < 400.
Proof.
  rewrite makeRequest_result. intros H.
  destruct (loop_result_return _ _ _ H) as [s [Hin Hs]].
  unfold served in Hin. apply in_map_iff in Hin.
  destruct Hin as [i [Hi _]]. now exists (sent w + i)%nat, s.
Qed.

(** Against a server that gives the same failing answer to every request,
    the call fails with the error of that answer. *)
Lemma makeRequest_constant_failure (c : LLMClient.t) (endpoint : string)
    (method : http_method) (data' : option payload) (timeout : Z) (w : world)
    (a : wire) (e : js_error) :
  (forall n config, server w n config = a) ->
  settlement a = Throw e ->
  fst (LLMClient.makeRequest c endpoint method data' timeout w) = Throw e.
Proof.
  intros Hsrv Hset. rewrite makeRequest_result. unfold served.
  generalize Undefined as e0. generalize 0%nat as from.
  generalize (LLMClient.retryAttempts c) as n.
  induction n as [|n IH]; intros from e0.
  - cbn [seq map loop_result]. now rewrite Hsrv, Hset.
  - change (seq from (S (S n))) with (from :: seq (S from) (S n)).
    cbn [map loop_result]. rewrite Hsrv, Hset. apply (IH (S from) e).
Qed.

End ClientOperations.

(** C10. [chat] never throws: whatever the message, the context and the
    behaviour of the server, it returns a text, and that text is either one
    of the five fixed texts of the client or the non-empty reply of a
    successful answer of the server. *)
Theorem chat_never_throws :
  forall (c : LLMClient.t) (message context : string) (w : world),
    exists reply : string,
      fst (LLMClient.chat c message context w) = Return reply /\
      (In reply Observe.chat_fallbacks \/
       exists n s b,
         server w n (LLMClient.requestConfig c "/chat" POST
                       (Some (ChatPayload message context)) 30000)
         = Answer s (Some b) /\
         s < 400 /\ j_success b = true /\ j_reply b = Some reply /\
         reply <> "").
Proof.
  intros c message context w.
  pose proof (makeRequest_return c "/chat" POST
                (Some (ChatPayload message context)) 30000 w) as Hret.
  unfold LLMClient.chat, try_catch, bind.
  destruct (LLMClient.makeRequest c "/chat" POST
              (Some (ChatPayload message context)) 30000 w)
    as [[response|e] w1].
  - destruct response as [b|]; cbn.
    + destruct (j_success b) eqn:Hsucc; cbn.
      * eexists; split; [reflexivity|].
        unfold Js.or_string.
        destruct (j_reply b) as [v|] eqn:Hreply; [|left; cbn; tauto].
        destruct (String.eqb_spec v "") as [Hempty|Hne]; [left; cbn; tauto|].
        right. destruct (Hret (Some b) eq_refl) as [n [s [Hsrv Hs]]].
        exists n, s, b. repeat split; assumption.
      * eexists; split; [reflexivity|]. left; cbn; tauto.
    + eexists; split; [reflexivity|]. left; cbn; tauto.
  - cbn. eexists; split; [reflexivity|]. left.
    destruct e as [[r|]|m|]; cbn; [destruct (status r =? 500)|..]; tauto.
Qed.

(** The error classes of [chat]: an internal server error on every
    attempt. *)
Lemma chat_on_internal_error (c : LLMClient.t) (message context : string)
    (w : world) (d : option body) :
  (forall n config, server w n config = Answer 500 d) ->
  fst (LLMClient.chat c message context w)
  = Return "I encountered an internal error. The backend AI service may be experiencing issues. Please try again in a moment.".
Proof.
  intros Hsrv.
  pose proof (makeRequest_constant_failure c "/chat" POST
                (Some (ChatPayload message context)) 30000 w
                (Answer 500 d) _ Hsrv eq_refl) as Hfail.
  unfold LLMClient.chat, try_catch, bind.
  destruct (LLMClient.makeRequest c "/chat" POST
              (Some (ChatPayload message context)) 30000 w) as [r w1].
  cbn in Hfail. subst r. reflexivity.
Qed.

(** A backend that cannot be reached, or that does not answer in time. *)
Lemma chat_on_no_response (c : LLMClient.t) (message context : string)
    (w : world) (a : wire) :
  a = Unreachable \/ a = TimedOut ->
  (forall n config, server w n config = a) ->
  fst (LLMClient.chat c message context w)
  = Return "I cannot reach the backend server. Please ensure it is running and try again.".
Proof.
  intros Ha Hsrv.
  assert (Hset : Observe.settlement a = Throw (AxiosError None))
    by (destruct Ha; subst a; reflexivity).
  pose proof (makeRequest_constant_failure c "/chat" POST
                (Some (ChatPayload message context)) 30000 w
                a _ Hsrv Hset) as Hfail.
  unfold LLMClient.chat, try_catch, bind.
  destruct (LLMClient.makeRequest c "/chat" POST
              (Some (ChatPayload message context)) 30000 w) as [r w1].
  cbn in Hfail. subst r. reflexivity.
Qed.

(** [fixCode] never throws either. *)
Lemma fixCode_never_throws (c : LLMClient.t) (code error : string)
    (issues : list Issue) (filename : string) (w : world) :
  exists text, fst (LLMClient.fixCode c code error issues filename w)
               = Return text.
Proof.
  unfold LLMClient.fixCode, try_catch, bind.
  destruct (LLMClient.makeRequest c "/fix" POST _ (LLMClient.timeout c) w)
    as [[[b|]|e] w1]; cbn.
  - destruct (j_success b && Js.truthy_string (j_fixed_code b)); cbn;
      eexists; reflexivity.
  - eexists; reflexivity.
  - eexists; reflexivity.
Qed.

(** C7. When the fix operation fails, by a transport error or by an answer
    without fixed code, [fixCode] returns the code it was given. *)
Theorem fixCode_returns_original_on_failure :
  forall (c : LLMClient.t) (code error : string) (issues : list Issue)
         (filename : string) (w : world),
    Observe.usable_fix
      (fst (LLMClient.makeRequest c "/fix" POST
              (Some (FixPayload code error issues filename))
              (LLMClient.timeout c) w)) = None ->
    fst (LLMClient.fixCode c code error issues filename w) = Return code.
Proof.
  intros c code error issues filename w.
  unfold LLMClient.fixCode, try_catch, bind.
  destruct (LLMClient.makeRequest c "/fix" POST _ (LLMClient.timeout c) w)
    as [[[b|]|e] w1]; cbn; try (intros _; reflexivity).
  destruct (j_success b && Js.truthy_string (j_fixed_code b)) eqn:Hok; cbn;
    [|intros _; reflexivity].
  intros Hnone. rewrite Hnone in Hok. cbn in Hok.
  rewrite andb_false_r in Hok. discriminate.
Qed.

Lemma fixCode_returns_original_on_failure_witness :
  let c := LLMClient.create None in
  let w := mkWorld (fun _ _ => Answer 200 (Some empty_body)) 0 [] in
  Observe.usable_fix
    (fst (LLMClient.makeRequest c "/fix" POST
            (Some (FixPayload "x = 1" "naming" [] "a.py"))
            (LLMClient.timeout c) w)) = None /\
  fst (LLMClient.fixCode c "x = 1" "naming" [] "a.py" w) = Return "x = 1".
Proof.
  split; [reflexivity|].
  apply (fixCode_returns_original_on_failure (LLMClient.create None)
           "x = 1" "naming" [] "a.py"
           (mkWorld (fun _ _ => Answer 200 (Some empty_body)) 0 [])).
  reflexivity.
Defined.

(** The other half: a usable answer is what [fixCode] returns. *)
Lemma fixCode_returns_fixed_code (c : LLMClient.t) (code error : string)
    (issues : list Issue) (filename : string) (w : world) (fixed : string) :
  Observe.usable_fix
    (fst (LLMClient.makeRequest c "/fix" POST
            (Some (FixPayload code error issues filename))
            (LLMClient.timeout c) w)) = Some fixed ->
  fst (LLMClient.fixCode c code error issues filename w) = Return fixed.
Proof.
  unfold LLMClient.fixCode, try_catch, bind.
  destruct (LLMClient.makeRequest c "/fix" POST _ (LLMClient.timeout c) w)
    as [[[b|]|e] w1]; cbn; try discriminate.
  destruct (j_success b && Js.truthy_string (j_fixed_code b)) eqn:Hok; cbn;
    [|discriminate].
  intros Hfix. rewrite Hfix. cbn.
  apply andb_prop in Hok. destruct Hok as [_ Htruthy].
  rewrite Hfix in Htruthy. cbn in Htruthy.
  destruct (String.eqb fixed ""); [discriminate|reflexivity].
Qed.

(** ** The analysis history *)

Section History.

Import Extension.

Lemma saveToHistory_firstn (h : list AnalysisHistory) (e : AnalysisHistory) :
  saveToHistory h e = firstn 50 (e :: h).
Proof.
  unfold saveToHistory.
  destruct (Nat.ltb_spec 50 (List.length (e :: h))) as [Hlt|Hge];
    [reflexivity|].
  symmetry. apply firstn_all2. exact Hge.
Qed.

(** Whatever the store held, it holds at most 50 entries after an
    insertion. *)
Lemma saveToHistory_bounded (h : list AnalysisHistory) (e : AnalysisHistory) :
  (List.length (saveToHistory h e) <= 50)%nat.
Proof. rewrite saveToHistory_firstn. apply firstn_le_length. Qed.

Lemma saveAll_snoc (h entries : list AnalysisHistory) (e : AnalysisHistory) :
  saveAll h (entries ++ [e]) = saveToHistory (saveAll h entries) e.
Proof. unfold saveAll. now rewrite fold_left_app. Qed.

(** The store after a run of insertions: the last 50 entries of what was
    inserted on top of what was there, the most recent first. *)
Lemma saveAll_firstn (h entries : list AnalysisHistory) :
  (List.length h <= 50)%nat ->
  saveAll h entries = firstn 50 (rev entries ++ h).
Proof.
  intros Hh. induction entries as [|e entries IH] using rev_ind.
  - unfold saveAll. cbn [fold_left rev app]. symmetry. now apply firstn_all2.
  - rewrite saveAll_snoc, IH, saveToHistory_firstn, rev_app_distr.
    cbn [rev app]. change 50%nat with (S 49).
    rewrite !firstn_cons. f_equal.
    rewrite firstn_firstn. reflexivity.
Qed.

Lemma saveAll_bounded (h entries : list AnalysisHistory) :
  (List.length h <= 50)%nat ->
  (List.length (saveAll h entries) <= 50)%nat.
Proof.
  intros Hh. rewrite saveAll_firstn by exact Hh. apply firstn_le_length.
Qed.

(** No run of insertions grows a store beyond 50 entries, also when the
    store that was loaded held more. *)
Lemma saveAll_never_grows (entries : list AnalysisHistory) :
  forall h : list AnalysisHistory,
    (List.length (saveAll h entries) <= Nat.max 50 (List.length h))%nat.
Proof.
  induction entries as [|e entries IH]; intros h.
  - unfold saveAll. cbn [fold_left]. lia.
  - unfold saveAll in *. cbn [fold_left].
    specialize (IH (saveToHistory h e)).
    pose proof (saveToHistory_bounded h e). lia.
Qed.

End History.

(** C4. After 55 insertions into an empty history the store holds exactly
    50 entries, the five oldest are gone, and the rest is listed most recent
    first; and no run of insertions grows a store beyond 50 entries. *)
Theorem history_capacity :
  forall entries : list Extension.AnalysisHistory,
    List.length entries = 55%nat ->
    Extension.saveAll Extension.clearAnalysisHistory entries
    = rev (skipn 5 entries) /\
    List.length (Extension.saveAll Extension.clearAnalysisHistory entries)
    = 50%nat /\
    (forall (h more : list Extension.AnalysisHistory),
        (List.length (Extension.saveAll h more)
         <= Nat.max 50 (List.length h))%nat).
Proof.
  intros entries Hlen.
  assert (Hstore : Extension.saveAll Extension.clearAnalysisHistory entries
                   = rev (skipn 5 entries)).
  { unfold Extension.clearAnalysisHistory.
    rewrite saveAll_firstn by (cbn [List.length]; lia).
    rewrite app_nil_r, firstn_rev, Hlen. reflexivity. }
  split; [exact Hstore|]. split.
  - rewrite Hstore, length_rev, length_skipn, Hlen. reflexivity.
  - intros h more. apply saveAll_never_grows.
Qed.

Lemma history_capacity_witness :
  let entry (n : nat) :=
    Extension.mkAnalysisHistory "2024-01-01T00:00:00.000Z" "a.py" "/src/a.py"
      (Z.of_nat n) "B" 0 "python" in
  let entries := map entry (seq 1 55) in
  List.length entries = 55%nat /\
  Extension.saveAll Extension.clearAnalysisHistory entries
  = rev (skipn 5 entries) /\
  List.length (Extension.saveAll Extension.clearAnalysisHistory entries)
  = 50%nat.
Proof.
  split; [reflexivity|].
  pose proof (history_capacity
                (map (fun n : nat =>
                        Extension.mkAnalysisHistory "2024-01-01T00:00:00.000Z"
                          "a.py" "/src/a.py" (Z.of_nat n) "B" 0 "python")
                   (seq 1 55))
                eq_refl) as [Hstore [Hlen _]].
  split; [exact Hstore | exact Hlen].
Defined.

(** ** Diagnostics *)

Section Diagnostics.

Import Extension.

(** The range constructor never refuses the line that [showDiagnostics]
    computes. *)
Lemma diagnosticOf_defined (document : TextDocument) (issue : Issue) :
  exists d,
    diagnosticOf document issue = Some d /\
    startLine (range d) = lineOf issue /\
    endLine (range d) = lineOf issue.
Proof.
  unfold diagnosticOf, newRange.
  assert (Hline : 0 <= lineOf issue) by (unfold lineOf; lia).
  destruct (Z.ltb_spec (lineOf issue) 0) as [?|_]; [lia|].
  cbn. eexists. split; [reflexivity|]. split; reflexivity.
Qed.

(** The zero-based line by cases: the line below the one asked for when
    that is 1 or more, the first line otherwise. *)
Lemma lineOf_cases (issue : Issue) :
  match line issue with
  | Some l => if 1 <=? l then lineOf issue = l - 1 else lineOf issue = 0
  | None => lineOf issue = 0
  end.
Proof.
  unfold lineOf, Js.or_number.
  destruct (line issue) as [l|]; [|reflexivity].
  destruct (Z.leb_spec 1 l), (Z.eqb_spec l 0); lia.
Qed.

End Diagnostics.

(** C2, as the code has it. Every finding gets a diagnostic, in order, none
    dropped and none refused by the range constructor; its zero-based line
    is [max 0 ((line || 1) - 1)]: a line of 1 or more is kept, and a line
    of 0, a negative line and a missing line go to the first line. There
    is no clamp from above. *)
Theorem showDiagnostics_clamps_from_below :
  forall (document : Extension.TextDocument) (issues : list Issue),
    exists ds : list Extension.Diagnostic,
      Extension.showDiagnostics document issues = Some ds /\
      Forall2
        (fun issue d =>
           0 <= Extension.startLine (Extension.range d) /\
           Extension.endLine (Extension.range d)
           = Extension.startLine (Extension.range d) /\
           match line issue with
           | Some l =>
               if 1 <=? l
               then Extension.startLine (Extension.range d) = l - 1
               else Extension.startLine (Extension.range d) = 0
           | None => Extension.startLine (Extension.range d) = 0
           end)
        issues ds.
Proof.
  intros document issues.
  induction issues as [|issue rest [ds [Hds Hall]]].
  - exists []. split; [reflexivity|constructor].
  - destruct (diagnosticOf_defined document issue) as [d [Hd [Hstart Hend]]].
    exists (d :: ds). split.
    + cbn [Extension.showDiagnostics]. now rewrite Hd, Hds.
    + constructor; [|exact Hall].
      pose proof (lineOf_cases issue) as Hcases.
      rewrite Hend, Hstart. repeat split.
      * unfold Extension.lineOf. lia.
      * exact Hcases.
Qed.

(** C2, where the claim fails: a finding on line 10 of a document of three
    lines keeps line 10. *)
Lemma line_beyond_document_is_kept :
  let document := Extension.mkTextDocument "file:///src/a.py" 3 in
  let issue := mkIssue (Some "SE-001") (Some "magic number") (Some 10)
                 "warning" None None in
  exists d,
    Extension.showDiagnostics document [issue] = Some [d] /\
    Extension.startLine (Extension.range d) + 1 = 10 /\
    ~ (1 <= Extension.startLine (Extension.range d) + 1
       <= Extension.lineCount document).
Proof.
  cbv zeta. eexists. split; [reflexivity|]. split; [reflexivity|].
  cbn. lia.
Qed.

(** ** Score bands *)

(** C3, as the code has it. The score card is drawn by one function on
    both paths: the message of the analyze path and the message of the
    re-analyze path give the same card for the same result, a step function
    of the score with the thresholds 80 and 50. The status bar, written on
    the analyze path only, has its own thresholds, 90 and 70. *)
Theorem score_card_same_on_both_paths :
  forall (result : AnalysisResult) (name : string),
    Webview.onMessage (ChatbotViewProvider.analysisCompleteMessage result name)
    = Some (Webview.showAnalysisResults (score result) name) /\
    Webview.onMessage (ChatbotViewProvider.reanalysisCompleteMessage result name)
    = Some (Webview.showAnalysisResults (score result) name) /\
    (Webview.ratingOf (score result) = Webview.Excellent
     <-> 80 <= score result) /\
    (Webview.ratingOf (score result) = Webview.NeedsImprovement
     <-> 50 <= score result < 80) /\
    (Webview.ratingOf (score result) = Webview.Poor
     <-> score result < 50) /\
    (Extension.statusIconOf (score result) = Extension.IconCheck
     <-> 90 <= score result) /\
    (Extension.statusIconOf (score result) = Extension.IconWarning
     <-> 70 <= score result < 90) /\
    (Extension.statusIconOf (score result) = Extension.IconError
     <-> score result < 70).
Proof.
  intros result name.
  split; [|split].
  - unfold ChatbotViewProvider.analysisCompleteMessage, Js.or_number. cbn.
    destruct (Z.eqb_spec (score result) 0) as [Hz|_]; [rewrite Hz|];
      reflexivity.
  - reflexivity.
  - unfold Webview.ratingOf, Extension.statusIconOf.
    destruct (Z.leb_spec 80 (score result)), (Z.leb_spec 50 (score result)),
      (Z.leb_spec 90 (score result)), (Z.leb_spec 70 (score result));
      repeat split; intros; try lia; try discriminate; try reflexivity.
Qed.

(** C3, where the claim fails: for a score of 85 the analyze path writes
    the middle band into the status bar, while the card, the only thing the
    re-analyze path draws, shows the upper band. *)
Lemma status_bar_and_score_card_disagree :
  let result := mkAnalysisResult true [] 85 "B" "python" 40 None in
  Extension.text (Extension.updateStatusBar result)
  = "$(warning) Score: 85/100 (B)" /\
  option_map Webview.scoreRating
    (Webview.onMessage
       (ChatbotViewProvider.reanalysisCompleteMessage result "a.py"))
  = Some "Excellent" /\
  Observe.bandOfIcon (Extension.statusIconOf (score result))
  <> Observe.bandOfRating (Webview.ratingOf (score result)).
Proof.
  cbv zeta. split; [reflexivity|]. split; [reflexivity|].
  cbn. discriminate.
Qed.

(** ** The reply parser *)

Section ParserFacts.

Import Backend.

Lemma from_first_open_some (s : string) :
  forall t : string,
    from_first_open s = Some t ->
    exists before rest,
      s = before ^^ String open_bracket rest /\
      t = String open_bracket rest /\
      contains before open_bracket = false.
Proof.
  induction s as [|c s IH]; intros t H; [discriminate|].
  cbn [from_first_open] in H.
  destruct (Ascii.eqb_spec c open_bracket) as [Hc|Hc].
  - inversion H; subst. exists EmptyString, s. repeat split.
  - destruct (IH t H) as [before [rest [Hs [Ht Hno]]]].
    exists (String c before), rest. repeat split.
    + cbn. now rewrite Hs.
    + exact Ht.
    + cbn. rewrite Hno, orb_false_r. now apply Ascii.eqb_neq.
Qed.

Lemma from_first_open_app (before rest : string) :
  contains before open_bracket = false ->
  from_first_open (before ^^ String open_bracket rest)
  = Some (String open_bracket rest).
Proof.
  induction before as [|c before IH]; intros Hno.
  - cbn [String.append from_first_open]. now rewrite Ascii.eqb_refl.
  - cbn [contains] in Hno. apply orb_false_elim in Hno.
    destruct Hno as [Hc Hno].
    cbn [String.append from_first_open]. rewrite Hc. now apply IH.
Qed.

Lemma upto_last_close_none (r : string) :
  upto_last_close r = None -> contains r close_bracket = false.
Proof.
  induction r as [|c r IH]; intros H; [reflexivity|].
  cbn [upto_last_close] in H.
  destruct (upto_last_close r) as [p|]; [discriminate|].
  destruct (Ascii.eqb c close_bracket) eqn:Hc; [discriminate|].
  cbn. rewrite Hc. now apply IH.
Qed.

Lemma upto_last_close_some (r : string) :
  forall p : string,
    upto_last_close r = Some p ->
    exists inner after,
      r = inner ^^ String close_bracket after /\
      p = inner ^^ String close_bracket EmptyString /\
      contains after close_bracket = false.
Proof.
  induction r as [|c r IH]; intros p H; [discriminate|].
  cbn [upto_last_close] in H.
  destruct (upto_last_close r) as [q|] eqn:Hq.
  - inversion H; subst p.
    destruct (IH q eq_refl) as [inner [after [Hr [Hp Hno]]]].
    exists (String c inner), after. repeat split.
    + cbn. now rewrite Hr.
    + cbn. now rewrite Hp.
    + exact Hno.
  - destruct (Ascii.eqb_spec c close_bracket) as [Hc|Hc]; [|discriminate].
    inversion H; subst. exists EmptyString, r. repeat split.
    now apply upto_last_close_none.
Qed.

(** The match of the regular expression runs from the first opening
    bracket to the last closing bracket. *)
Lemma re_search_array_some (s m : string) :
  re_search_array s = Some m ->
  exists before inner after,
    s = before ^^ String open_bracket (inner ^^ String close_bracket after) /\
    m = String open_bracket (inner ^^ String close_bracket EmptyString) /\
    contains before open_bracket = false /\
    contains after close_bracket = false.
Proof.
  unfold re_search_array. intros H.
  destruct (from_first_open s) as [t|] eqn:Ht; [|discriminate].
  destruct (from_first_open_some s t Ht) as [before [rest [Hs [Htt Hno]]]].
  subst t.
  destruct (upto_last_close rest) as [p|] eqn:Hp; [|discriminate].
  destruct (upto_last_close_some rest p Hp) as [inner [after [Hr [Hpp Hno2]]]].
  inversion H; subst.
  exists before, inner, after. repeat split; assumption.
Qed.

(** There is no match only when the first opening bracket, if there is
    one, has no closing bracket after it. *)
Lemma re_search_array_none (s : string) :
  re_search_array s = None ->
  forall before rest,
    s = before ^^ String open_bracket rest ->
    contains before open_bracket = false ->
    contains rest close_bracket = false.
Proof.
  unfold re_search_array. intros H before rest Hs Hno.
  rewrite Hs, (from_first_open_app before rest Hno) in H.
  destruct (upto_last_close rest) as [p|] eqn:Hp; [discriminate|].
  now apply upto_last_close_none.
Qed.

(** The converse: a reply of that shape has that match. *)
Lemma upto_last_close_clean (r : string) :
  contains r close_bracket = false -> upto_last_close r = None.
Proof.
  induction r as [|c r IH]; intros H; [reflexivity|].
  cbn [contains] in H. apply orb_false_elim in H. destruct H as [Hc Hr].
  cbn [upto_last_close]. now rewrite (IH Hr), Hc.
Qed.

Lemma upto_last_close_app (inner after : string) :
  contains after close_bracket = false ->
  upto_last_close (inner ^^ String close_bracket after)
  = Some (inner ^^ String close_bracket EmptyString).
Proof.
  intros Hafter. induction inner as [|c inner IH].
  - cbn [String.append upto_last_close].
    now rewrite (upto_last_close_clean after Hafter), Ascii.eqb_refl.
  - cbn [String.append upto_last_close]. now rewrite IH.
Qed.

Lemma re_search_array_found (before inner after : string) :
  contains before open_bracket = false ->
  contains after close_bracket = false ->
  re_search_array
    (before ^^ String open_bracket (inner ^^ String close_bracket after))
  = Some (String open_bracket (inner ^^ String close_bracket EmptyString)).
Proof.
  intros Hbefore Hafter. unfold re_search_array.
  rewrite (from_first_open_app before _ Hbefore).
  now rewrite (upto_last_close_app inner after Hafter).
Qed.

Lemma re_search_array_nothing (s : string) :
  (forall before rest,
      s = before ^^ String open_bracket rest ->
      contains before open_bracket = false ->
      contains rest close_bracket = false) ->
  re_search_array s = None.
Proof.
  intros H. unfold re_search_array.
  destruct (from_first_open s) as [t|] eqn:Ht; [|reflexivity].
  destruct (from_first_open_some s t Ht) as [before [rest [Hs [Htt Hno]]]].
  subst t. now rewrite (upto_last_close_clean rest (H before rest Hs Hno)).
Qed.

(** Stripping, said of the text. *)
Lemma rstrip_keeps_head (a : ascii) (s : string) :
  isspace a = false -> exists kept, rstrip (String a s) = String a kept.
Proof.
  intros Ha. cbn [rstrip]. destruct (rstrip s) as [|b kept].
  - rewrite Ha. now exists EmptyString.
  - now exists (String b kept).
Qed.

Lemma lstrip_spaces (ws : string) (a : ascii) (rest : string) :
  all_space ws = true -> isspace a = false ->
  lstrip (ws ^^ String a rest) = String a rest.
Proof.
  intros Hws Ha. induction ws as [|c ws IH].
  - cbn [String.append lstrip]. now rewrite Ha.
  - unfold all_space in Hws. cbn [list_ascii_of_string forallb] in Hws.
    apply andb_prop in Hws. destruct Hws as [Hc Hws].
    cbn [String.append lstrip]. rewrite Hc. now apply IH.
Qed.

Lemma lstrip_decompose (s : string) :
  exists ws, s = ws ^^ lstrip s /\ all_space ws = true.
Proof.
  induction s as [|c s [ws [Hs Hws]]].
  - now exists EmptyString.
  - cbn [lstrip]. destruct (isspace c) eqn:Hc.
    + exists (String c ws). split.
      * cbn [String.append]. now rewrite <- Hs.
      * unfold all_space in *. cbn [list_ascii_of_string forallb].
        now rewrite Hc, Hws.
    + now exists EmptyString.
Qed.

Lemma lstrip_head (s : string) (a : ascii) (t : string) :
  lstrip s = String a t -> isspace a = false.
Proof.
  induction s as [|c s IH]; [discriminate|].
  cbn [lstrip]. destruct (isspace c) eqn:Hc; [exact IH|].
  intros H. inversion H; subst. exact Hc.
Qed.

Lemma startswith_open (s : string) :
  startswith s "[" = true <-> exists rest, s = String open_bracket rest.
Proof.
  unfold startswith. split.
  - destruct s as [|a s]; [discriminate|]. cbn [String.prefix].
    destruct (ascii_dec _ a) as [Heq|_]; [|discriminate].
    intros _. exists s. now rewrite <- Heq.
  - intros [rest Hs]. subst s. cbn [String.prefix].
    destruct (ascii_dec _ open_bracket) as [_|Hne];
      [destruct rest; reflexivity|].
    exfalso. apply Hne. reflexivity.
Qed.

(** The test of the first two stages holds exactly of the texts that
    begin, after white space, with an opening bracket. *)
Lemma begins_array_spec (s : string) :
  startswith (strip s) "[" = true <-> begins_array s.
Proof.
  unfold strip, begins_array. split.
  - intros Hstart.
    destruct (lstrip s) as [|a t] eqn:Hl; [discriminate|].
    pose proof (lstrip_head s a t Hl) as Ha.
    destruct (rstrip_keeps_head a t Ha) as [kept Hkept].
    rewrite Hkept in Hstart. apply startswith_open in Hstart.
    destruct Hstart as [rest Hrest]. inversion Hrest; subst a.
    destruct (lstrip_decompose s) as [ws [Hs Hws]].
    exists ws, t. rewrite Hl in Hs. now split.
  - intros [ws [rest [Hs Hws]]]. subst s.
    rewrite (lstrip_spaces ws open_bracket rest Hws eq_refl).
    destruct (rstrip_keeps_head open_bracket rest eq_refl) as [kept Hkept].
    rewrite Hkept. apply startswith_open. now exists kept.
Qed.

Lemma not_begins_array (s : string) :
  ~ begins_array s -> startswith (strip s) "[" = false.
Proof.
  intros H. destruct (startswith (strip s) "[") eqn:Hs; [|reflexivity].
  exfalso. apply H. now apply begins_array_spec.
Qed.

End ParserFacts.

(** C5, as the code has it. [parse_llm_response] never lets a JSON decode
    error out, and what it returns goes by the shape of the reply. A reply
    that begins, after white space, with an opening bracket is decoded as
    it is; otherwise the reply without its code-fence markers, when that
    begins so; otherwise the text from the first opening bracket to the
    last closing bracket of the reply; and the result is the empty list
    when there is no such text, or when the decoder raises
    [JSONDecodeError] on the text it was given. *)
Theorem parse_llm_response_fallback_chain :
  forall (json : Type) (json_loads : string -> Backend.py_result (list json))
         (ai_response : string),
    let clean :=
      Backend.replace (Backend.replace ai_response "```json" "") "```" "" in
    let parsed := Backend.parse_llm_response json json_loads ai_response in
    parsed <> Backend.PyRaise Backend.JSONDecodeError /\
    (Backend.begins_array ai_response ->
     parsed = Backend.except_JSONDecodeError json (json_loads ai_response)) /\
    (~ Backend.begins_array ai_response ->
     Backend.begins_array clean ->
     parsed = Backend.except_JSONDecodeError json (json_loads clean)) /\
    (~ Backend.begins_array ai_response ->
     ~ Backend.begins_array clean ->
     forall before inner after,
       ai_response
       = before ^^ String Backend.open_bracket
                     (inner ^^ String Backend.close_bracket after) ->
       Backend.contains before Backend.open_bracket = false ->
       Backend.contains after Backend.close_bracket = false ->
       parsed
       = Backend.except_JSONDecodeError json
           (json_loads
              (String Backend.open_bracket
                 (inner ^^ String Backend.close_bracket EmptyString)))) /\
    (~ Backend.begins_array ai_response ->
     ~ Backend.begins_array clean ->
     (forall before rest,
         ai_response = before ^^ String Backend.open_bracket rest ->
         Backend.contains before Backend.open_bracket = false ->
         Backend.contains rest Backend.close_bracket = false) ->
     parsed = Backend.PyReturn []).
Proof.
  intros json json_loads ai_response clean parsed.
  subst parsed. unfold Backend.parse_llm_response, Backend.parse_attempts.
  fold clean.
  split; [|split; [|split; [|split]]].
  - destruct (if Backend.startswith (Backend.strip ai_response) "[" then _
              else _) as [findings|[ | | ]]; discriminate.
  - intros Hfirst. apply begins_array_spec in Hfirst. now rewrite Hfirst.
  - intros Hfirst Hsecond.
    rewrite (not_begins_array _ Hfirst).
    apply begins_array_spec in Hsecond. now rewrite Hsecond.
  - intros Hfirst Hsecond before inner after Hshape Hbefore Hafter.
    rewrite (not_begins_array _ Hfirst), (not_begins_array _ Hsecond).
    rewrite Hshape at 1.
    now rewrite (re_search_array_found before inner after Hbefore Hafter).
  - intros Hfirst Hsecond Hnone.
    rewrite (not_begins_array _ Hfirst), (not_begins_array _ Hsecond).
    now rewrite (re_search_array_nothing _ Hnone).
Qed.

(** C5, where the claim fails. In a reply with two arrays the match runs
    from the first opening bracket to the last closing bracket, the decoder
    rejects it, and the result is empty, while the first balanced array of
    the reply decodes. And a reply of a thousand nested arrays, on which
    [json.loads] raises [RecursionError] under the default recursion limit,
    makes the parser raise that error, where the parser of the
    specification returns the empty list. *)
Lemma greedy_match_is_not_first_balanced :
  let deep :=
    string_of_list_ascii
      (repeat Backend.open_bracket 1000 ++ repeat Backend.close_bracket 1000) in
  let json_loads (text : string) : Backend.py_result (list Z) :=
    if String.eqb text "[1]" then Backend.PyReturn [1]
    else if String.eqb text deep then Backend.PyRaise Backend.RecursionError
    else Backend.PyRaise Backend.JSONDecodeError in
  let reply := "see [1] or [2]" in
  Backend.re_search_array reply = Some "[1] or [2]" /\
  Backend.first_balanced_array reply = Some "[1]" /\
  Backend.parse_llm_response Z json_loads reply = Backend.PyReturn [] /\
  Backend.parse_as_specified Z json_loads reply = [1] /\
  Backend.parse_llm_response Z json_loads deep
  = Backend.PyRaise Backend.RecursionError /\
  Backend.parse_as_specified Z json_loads deep = [].
Proof. vm_compute. repeat split. Qed.

Example fenced_reply_goes_to_the_decoder :
  forall (json : Type) (json_loads : string -> Backend.py_result (list json)),
    Backend.parse_llm_response json json_loads "```json [1] ```"
    = Backend.except_JSONDecodeError json (json_loads " [1] ").
Proof. intros json json_loads. reflexivity. Qed.

Lemma parse_llm_response_fallback_chain_witness :
  let json_loads (text : string) : Backend.py_result (list Z) :=
    if String.eqb text "[1]" || String.eqb text "  [1]"
    then Backend.PyReturn [1]
    else Backend.PyRaise Backend.JSONDecodeError in
  Backend.parse_llm_response Z json_loads "  [1]" = Backend.PyReturn [1] /\
  Backend.parse_llm_response Z json_loads "```[1]```" = Backend.PyReturn [1] /\
  Backend.parse_llm_response Z json_loads "Issues: [1] and more"
  = Backend.PyReturn [1] /\
  Backend.parse_llm_response Z json_loads "] none [" = Backend.PyReturn [].
Proof.
  cbv zeta.
  set (json_loads := fun text : string =>
                       if String.eqb text "[1]" || String.eqb text "  [1]"
                       then Backend.PyReturn [1]
                       else Backend.PyRaise Backend.JSONDecodeError).
  assert (Hnot : forall s,
             Backend.startswith (Backend.strip s) "[" = false ->
             ~ Backend.begins_array s).
  { intros s Hs Hb. apply begins_array_spec in Hb. congruence. }
  split; [|split; [|split]].
  - destruct (parse_llm_response_fallback_chain Z json_loads "  [1]")
      as [_ [Hfirst _]].
    rewrite Hfirst; [reflexivity|]. exists "  ", "1]". now split.
  - destruct (parse_llm_response_fallback_chain Z json_loads "```[1]```")
      as [_ [_ [Hsecond _]]].
    rewrite Hsecond; [reflexivity| |].
    + apply Hnot. reflexivity.
    + exists "", "1]". now split.
  - destruct (parse_llm_response_fallback_chain Z json_loads
                "Issues: [1] and more") as [_ [_ [_ [Hthird _]]]].
    rewrite (Hthird ltac:(apply Hnot; reflexivity)
               ltac:(apply Hnot; reflexivity)
               "Issues: " "1" " and more" eq_refl eq_refl eq_refl).
    reflexivity.
  - destruct (parse_llm_response_fallback_chain Z json_loads "] none [")
      as [_ [_ [_ [_ Hnone]]]].
    apply Hnone.
    + apply Hnot. reflexivity.
    + apply Hnot. reflexivity.
    + apply re_search_array_none. reflexivity.
Defined.

(** ** Fix, then re-analysis *)

Section FixFlow.

Import Observe.

Lemma run_app (evs1 evs2 : list event) :
  forall ph : phase,
    run ph (evs1 ++ evs2)
    = match run ph evs1 with
      | Some ph' => run ph' evs2
      | None => None
      end.
Proof.
  induction evs1 as [|e evs1 IH]; intros ph; [reflexivity|].
  cbn [app run]. destruct (step ph e); [apply IH|reflexivity].
Qed.

Lemma analyzed_codes_app (evs1 evs2 : list event) :
  analyzed_codes (evs1 ++ evs2) = analyzed_codes evs1 ++ analyzed_codes evs2.
Proof.
  induction evs1 as [|e evs1 IH]; [reflexivity|].
  destruct e as [config|config a|ms|m|t|t|t]; cbn [app analyzed_codes];
    try exact IH.
  destruct (cfg_data config) as [[code name| | ]|]; cbn [app];
    now rewrite IH.
Qed.

(** The attempts of a fix call take the monitor from rest, or from a
    settled fix attempt, to a settled fix attempt. *)
Lemma run_fix_attempts (config : AxiosConfig) (answers : list wire) :
  callOf config = FixCall ->
  answers <> [] ->
  forall (attempt : nat) (ph : phase),
    ph = Idle \/ ph = FixSettled ->
    run ph (attempts_trace config answers attempt) = Some FixSettled.
Proof.
  intros Hcall. induction answers as [|a rest IH]; intros Hne attempt ph Hph;
    [congruence|].
  destruct rest as [|b rest'].
  - cbn [attempts_trace run step]. rewrite Hcall.
    destruct Hph; subst ph; reflexivity.
  - rewrite attempts_trace_retry. cbn [run step]. rewrite Hcall.
    destruct Hph; subst ph; cbn [run step]; apply IH; auto; discriminate.
Qed.

Lemma run_analyze_attempts (config : AxiosConfig) (answers : list wire) :
  callOf config = AnalyzeCall ->
  answers <> [] ->
  forall (attempt : nat) (ph : phase),
    ph = FixSettled \/ ph = AnalyzeSettled ->
    run ph (attempts_trace config answers attempt) = Some AnalyzeSettled.
Proof.
  intros Hcall. induction answers as [|a rest IH]; intros Hne attempt ph Hph;
    [congruence|].
  destruct rest as [|b rest'].
  - cbn [attempts_trace run step]. rewrite Hcall.
    destruct Hph; subst ph; reflexivity.
  - rewrite attempts_trace_retry. cbn [run step]. rewrite Hcall.
    destruct Hph; subst ph; cbn [run step]; apply IH; auto; discriminate.
Qed.

(** Every request of a call carries the payload of the call. *)
Lemma analyzed_codes_attempts (config : AxiosConfig) (answers : list wire) :
  forall attempt : nat,
    analyzed_codes (attempts_trace config answers attempt)
    = match cfg_data config with
      | Some (AnalyzePayload code _) => repeat code (List.length answers)
      | _ => []
      end.
Proof.
  induction answers as [|a rest IH]; intros attempt.
  - cbn. destruct (cfg_data config) as [[? ?| | ]|]; reflexivity.
  - destruct rest as [|b rest'].
    + cbn. destruct (cfg_data config) as [[? ?| | ]|]; reflexivity.
    + rewrite attempts_trace_retry. cbn [analyzed_codes]. rewrite IH.
      destruct (cfg_data config) as [[? ?| | ]|]; reflexivity.
Qed.

Lemma served_nonempty (w : world) (config : AxiosConfig) (k : nat) :
  (1 <= k)%nat -> served w config k <> [].
Proof. destruct k; [lia|]. discriminate. Qed.

Lemma served_length (w : world) (config : AxiosConfig) (k : nat) :
  List.length (served w config k) = k.
Proof. unfold served. now rewrite length_map, length_seq. Qed.

(** The whole run of [fixCode]: a text, never an exception, after the
    attempts of one call and, on failure, one warning. *)
Lemma fixCode_run (c : LLMClient.t) (code error : string)
    (issues : list Issue) (filename : string) (w : world) :
  let config := LLMClient.requestConfig c "/fix" POST
                  (Some (FixPayload code error issues filename))
                  (LLMClient.timeout c) in
  exists (text : string) (k : nat) (tail : list event),
    (1 <= k)%nat /\
    (tail = [] \/
     tail = [WarningMessage "Code fixing failed. Returning original code."]) /\
    LLMClient.fixCode c code error issues filename w
    = (Return text,
       mkWorld (server w) (sent w + k)
         (trace w ++ attempts_trace config (served w config k) O ++ tail)).
Proof.
  intros config.
  destruct (makeRequest_world c "/fix" POST
              (Some (FixPayload code error issues filename))
              (LLMClient.timeout c) w) as [Hk Hw].
  cbv zeta in Hk, Hw. fold config in Hk, Hw.
  set (k := attempts_made _) in Hk, Hw.
  unfold LLMClient.fixCode, try_catch, bind.
  destruct (LLMClient.makeRequest c "/fix" POST _ (LLMClient.timeout c) w)
    as [r w1].
  cbn [snd] in Hw. subst w1.
  assert (Hfail :
            exists text tail,
              (tail = [] \/
               tail = [WarningMessage
                         "Code fixing failed. Returning original code."]) /\
              (bind (emit (WarningMessage
                             "Code fixing failed. Returning original code."))
                 (fun _ => ret code)
                 (mkWorld (server w) (sent w + k)
                    (trace w ++ attempts_trace config (served w config k) O))
               = (Return text,
                  mkWorld (server w) (sent w + k)
                    (trace w ++
                     attempts_trace config (served w config k) O ++ tail)))).
  { exists code, [WarningMessage "Code fixing failed. Returning original code."].
    split; [now right|].
    unfold bind, emit, ret. cbn [server sent trace].
    now rewrite <- app_assoc. }
  destruct r as [[b|]|e]; cbn [LLMClient.property_of ret throw].
  - destruct (j_success b && Js.truthy_string (j_fixed_code b)).
    + exists (Js.or_string (j_fixed_code b) ""), k, [].
      split; [lia|]. split; [now left|]. now rewrite app_nil_r.
    + destruct Hfail as [text [tail [Htail Hrun]]].
      exists text, k, tail. split; [lia|]. split; [exact Htail|exact Hrun].
  - destruct Hfail as [text [tail [Htail Hrun]]].
    exists text, k, tail. split; [lia|]. split; [exact Htail|exact Hrun].
  - destruct Hfail as [text [tail [Htail Hrun]]].
    exists text, k, tail. split; [lia|]. split; [exact Htail|exact Hrun].
Qed.

(** The whole run of [analyzeCode]: the attempts of one call and nothing
    else. *)
Lemma analyzeCode_run (c : LLMClient.t) (code fileName : string) (w : world) :
  let config := LLMClient.requestConfig c "/analyze" POST
                  (Some (AnalyzePayload code fileName))
                  (LLMClient.timeout c) in
  exists (r : outcome AnalysisResult) (k : nat),
    (1 <= k)%nat /\
    LLMClient.analyzeCode c code fileName w
    = (r,
       mkWorld (server w) (sent w + k)
         (trace w ++ attempts_trace config (served w config k) O)).
Proof.
  intros config.
  destruct (makeRequest_world c "/analyze" POST
              (Some (AnalyzePayload code fileName))
              (LLMClient.timeout c) w) as [Hk Hw].
  cbv zeta in Hk, Hw. fold config in Hk, Hw.
  set (k := attempts_made _) in Hk, Hw.
  unfold LLMClient.analyzeCode, try_catch, bind.
  destruct (LLMClient.makeRequest c "/analyze" POST _ (LLMClient.timeout c) w)
    as [r w1].
  cbn [snd] in Hw. subst w1.
  destruct r as [[b|]|e]; cbn [LLMClient.property_of ret throw].
  - destruct (j_success b); eexists; exists k; (split; [lia|reflexivity]).
  - eexists; exists k; (split; [lia|reflexivity]).
  - eexists; exists k; (split; [lia|reflexivity]).
Qed.

End FixFlow.

Section FixFlowOrder.

Import Observe.

Lemma run_quiet (evs : list event) :
  quiet evs -> forall ph, run ph evs = Some ph.
Proof.
  induction 1 as [|e evs He _ IH]; intros ph; [reflexivity|].
  cbn [run]. destruct e; cbn [step]; try contradiction; apply IH.
Qed.

Lemma analyzed_codes_quiet (evs : list event) :
  quiet evs -> analyzed_codes evs = [].
Proof.
  induction 1 as [|e evs He _ IH]; [reflexivity|].
  destruct e; cbn [analyzed_codes]; try contradiction; exact IH.
Qed.

Lemma postMessage_run (p : ChatbotViewProvider.t) (m : webview_message)
    (w : world) :
  exists tail,
    quiet tail /\
    ChatbotViewProvider.postMessage p m w
    = (Return tt, mkWorld (server w) (sent w) (trace w ++ tail)).
Proof.
  unfold ChatbotViewProvider.postMessage.
  destruct (ChatbotViewProvider.view p).
  - exists [PostMessage m]. split; [|reflexivity].
    repeat constructor.
  - exists []. split; [constructor|].
    unfold ret. destruct w; cbn. now rewrite app_nil_r.
Qed.

Lemma forallb_repeat (code : string) (n : nat) :
  forallb (String.eqb code) (repeat code n) = true.
Proof.
  induction n as [|n IH]; [reflexivity|].
  cbn [repeat forallb]. now rewrite String.eqb_refl, IH.
Qed.

(** The re-analysis: the attempts of one analysis call, all of them with
    the fixed code, and then messages only. *)
Lemma reanalyze_run (c : LLMClient.t) (p : ChatbotViewProvider.t)
    (fixedCode : string) (w : world) :
  exists (p' : ChatbotViewProvider.t) (n : nat) (evs : list event),
    ChatbotViewProvider.reanalyze c p fixedCode w
    = (Return p', mkWorld (server w) n (trace w ++ evs)) /\
    ChatbotViewProvider.currentCode p' = ChatbotViewProvider.currentCode p /\
    run FixSettled evs = Some AnalyzeSettled /\
    forallb (String.eqb fixedCode) (analyzed_codes evs) = true.
Proof.
  unfold ChatbotViewProvider.reanalyze, try_catch.
  destruct (analyzeCode_run c fixedCode
              (ChatbotViewProvider.currentFileName p) w) as [r [k [Hk Hrun]]].
  cbv zeta in Hrun.
  set (config := LLMClient.requestConfig c "/analyze" POST _ _) in Hrun.
  assert (Hattempts :
            run FixSettled (attempts_trace config (served w config k) O)
            = Some AnalyzeSettled).
  { apply run_analyze_attempts;
      [reflexivity | now apply served_nonempty | now left]. }
  assert (Hcodes :
            analyzed_codes (attempts_trace config (served w config k) O)
            = repeat fixedCode k).
  { rewrite analyzed_codes_attempts. cbn. now rewrite served_length. }
  unfold bind at 1. rewrite Hrun.
  destruct r as [newResult|e].
  - set (p1 := ChatbotViewProvider.mk _ _ _ _).
    set (w1 := mkWorld _ _ _).
    unfold bind at 1.
    destruct (postMessage_run p1
                (ChatbotViewProvider.reanalysisCompleteMessage newResult
                   (ChatbotViewProvider.currentFileName p1)) w1)
      as [tail [Hquiet Hpost]].
    rewrite Hpost. unfold bind, emit, ret. cbn [server sent trace].
    eexists p1, _, _. split; [|split; [reflexivity|]].
    + subst w1. cbn [server sent trace].
      rewrite <- !app_assoc. reflexivity.
    + split.
      * rewrite run_app, Hattempts. apply run_quiet.
        apply Forall_app. split; [exact Hquiet|]. repeat constructor.
      * rewrite analyzed_codes_app, Hcodes.
        rewrite analyzed_codes_quiet
          by (apply Forall_app; split; [exact Hquiet|repeat constructor]).
        rewrite app_nil_r. apply forallb_repeat.
  - unfold ret. eexists p, _, _. split; [reflexivity|].
    split; [reflexivity|]. split; [exact Hattempts|].
    rewrite Hcodes. apply forallb_repeat.
Qed.

End FixFlowOrder.

Section FixFlowWhole.

Import Observe.

(** The whole run of [handleFixCode]. *)
Lemma handleFixCode_run (c : LLMClient.t) (p : ChatbotViewProvider.t)
    (w : world) :
  exists (p' : ChatbotViewProvider.t) (n : nat) (evs : list event),
    ChatbotViewProvider.handleFixCode c p w
    = (Return p', mkWorld (server w) n (trace w ++ evs)) /\
    (exists ph, run Idle evs = Some ph) /\
    forallb (String.eqb (ChatbotViewProvider.currentCode p'))
      (analyzed_codes evs) = true.
Proof.
  assert (Hearly :
            exists (p' : ChatbotViewProvider.t) (n : nat) (evs : list event),
              bind (emit (WarningMessage "No analysis results to fix"))
                (fun _ => ret p) w
              = (Return p', mkWorld (server w) n (trace w ++ evs)) /\
              (exists ph, run Idle evs = Some ph) /\
              forallb (String.eqb (ChatbotViewProvider.currentCode p'))
                (analyzed_codes evs) = true).
  { eexists p, _, [WarningMessage "No analysis results to fix"].
    split; [reflexivity|]. split; [now exists Idle|reflexivity]. }
  unfold ChatbotViewProvider.handleFixCode.
  destruct (ChatbotViewProvider.currentAnalysisResult p) as [current|];
    [|exact Hearly].
  destruct (String.eqb (ChatbotViewProvider.currentCode p) "");
    [exact Hearly|].
  clear Hearly.
  unfold try_catch.
  (* the announcement *)
  unfold bind at 1.
  destruct (postMessage_run p (MsgFixing "AI is fixing your code...") w)
    as [tail0 [Hq0 Hpost0]].
  rewrite Hpost0. set (w0 := mkWorld (server w) (sent w) (trace w ++ tail0)).
  (* the fix call *)
  set (errorDesc := match issues current with
                    | firstIssue :: _ => _
                    | [] => _
                    end).
  unfold bind at 1.
  destruct (fixCode_run c (ChatbotViewProvider.currentCode p) errorDesc
              (issues current) (ChatbotViewProvider.currentFileName p) w0)
    as [fixedCode [k [tail1 [Hk [Htail1 Hfix]]]]].
  cbv zeta in Hfix.
  set (config := LLMClient.requestConfig c "/fix" POST _ _) in Hfix.
  rewrite Hfix. set (w1 := mkWorld (server w0) _ _).
  assert (Hq1 : quiet tail1)
    by (destruct Htail1; subst tail1; repeat constructor).
  assert (Hfixrun :
            run Idle (attempts_trace config (served w0 config k) O)
            = Some FixSettled).
  { apply run_fix_attempts;
      [reflexivity | now apply served_nonempty | now left]. }
  assert (Hfixcodes :
            analyzed_codes (attempts_trace config (served w0 config k) O) = [])
    by (rewrite analyzed_codes_attempts; reflexivity).
  (* the messages after the fix *)
  set (p1 := ChatbotViewProvider.mk _ _ fixedCode _).
  unfold bind at 1.
  destruct (postMessage_run p1 (MsgCodeFixed fixedCode) w1)
    as [tail2 [Hq2 Hpost2]].
  rewrite Hpost2. set (w2 := mkWorld (server w1) _ _).
  unfold bind at 1. unfold emit at 1. cbv beta iota.
  set (w3 := mkWorld (server w2) _ _).
  (* the re-analysis *)
  destruct (reanalyze_run c p1 fixedCode w3)
    as [p' [n [evs [Hre [Hcode [Hrun Hcodes]]]]]].
  rewrite Hre.
  exists p', n,
    (tail0 ++ attempts_trace config (served w0 config k) O ++ tail1 ++
     tail2 ++
     [InformationMessage "Code fixed! Re-analyzing to update score..."] ++
     evs).
  split; [|split].
  - subst w3 w2 w1 w0. cbn [server sent trace].
    rewrite <- !app_assoc. reflexivity.
  - exists AnalyzeSettled.
    rewrite run_app, (run_quiet tail0 Hq0).
    rewrite run_app, Hfixrun.
    rewrite run_app, (run_quiet tail1 Hq1).
    rewrite run_app, (run_quiet tail2 Hq2).
    rewrite run_app. cbn [run step]. exact Hrun.
  - rewrite Hcode. subst p1. cbn [ChatbotViewProvider.currentCode].
    rewrite !analyzed_codes_app.
    rewrite (analyzed_codes_quiet tail0 Hq0), Hfixcodes,
      (analyzed_codes_quiet tail1 Hq1), (analyzed_codes_quiet tail2 Hq2).
    cbn [analyzed_codes app]. exact Hcodes.
Qed.

End FixFlowWhole.

(** C8. In every run of the fix command the order is strict: no analysis
    request goes out before a fix exchange has settled, no fix traffic
    follows an analysis request, and no request goes out while another one
    is in flight; and the analysis requests carry the very code that the
    fix call returned, which is the code the assistant then holds. *)
Theorem fix_then_reanalyze_is_ordered :
  forall (c : LLMClient.t) (p : ChatbotViewProvider.t) (w : world),
    let result := ChatbotViewProvider.handleFixCode c p w in
    let evs := Observe.new_events w (snd result) in
    Observe.strictly_ordered evs = true /\
    match fst result with
    | Return p' =>
        forallb (String.eqb (ChatbotViewProvider.currentCode p'))
          (Observe.analyzed_codes evs) = true
    | Throw _ => False
    end.
Proof.
  intros c p w result evs.
  destruct (handleFixCode_run c p w)
    as [p' [n [evs' [Hrun [[ph Hph] Hcodes]]]]].
  subst evs result. rewrite Hrun. cbn [fst snd].
  rewrite (new_events_app w _ evs') by reflexivity.
  split; [|exact Hcodes].
  unfold Observe.strictly_ordered. now rewrite Hph.
Qed.

(** The monitor does reject disorder: an analysis request while the fix
    request is in flight, an analysis request with no fix before it, and a
    fix request after the re-analysis has begun. *)
Example monitor_rejects_disorder :
  let fix_config := mkConfig POST "http://localhost:5000/fix" 60000
                      (Some (FixPayload "x = 1" "naming" [] "a.py")) in
  let analyze_config := mkConfig POST "http://localhost:5000/analyze" 60000
                          (Some (AnalyzePayload "x = 1" "a.py")) in
  Observe.strictly_ordered [HttpSend fix_config; HttpSend analyze_config]
  = false /\
  Observe.strictly_ordered [HttpSend analyze_config] = false /\
  Observe.strictly_ordered
    [HttpSend fix_config; HttpSettle fix_config TimedOut;
     HttpSend analyze_config; HttpSend fix_config] = false /\
  Observe.strictly_ordered
    [HttpSend fix_config; HttpSettle fix_config TimedOut;
     Sleep 1000;
     HttpSend fix_config; HttpSettle fix_config (Answer 200 None);
     HttpSend analyze_config; HttpSettle analyze_config (Answer 200 None)]
  = true.
Proof. cbv zeta. repeat split. Qed.

(** Two server faults and then an answer: the call succeeds on the third
    attempt, after pauses of 1000 and 2000 milliseconds. *)
Example two_server_faults_then_success :
  let answer (n : nat) (_ : AxiosConfig) :=
    if (n <? 2)%nat then Answer 503 None else Answer 200 (Some empty_body) in
  let result := LLMClient.makeRequest (LLMClient.create None) "/analyze" POST
                  (Some (AnalyzePayload "x = 1" "a.py")) 60000
                  (mkWorld answer 0 []) in
  fst result = Return (Some empty_body) /\
  sent (snd result) = 3%nat /\
  Observe.sleeps (trace (snd result)) = [1000; 2000].
Proof. cbv zeta. vm_compute. repeat split. Qed.

(** An axios error that did carry a client-fault status would end the
    loop at once; the test of the [catch] block is sound, it is only never
    met. *)
Example client_fault_test_would_stop :
  LLMClient.is_client_fault (AxiosError (Some (mkResponse 401 None))) = true /\
  LLMClient.is_client_fault (AxiosError (Some (mkResponse 503 None))) = false /\
  LLMClient.is_client_fault (Error "HTTP 401: Unknown error") = false.
Proof. repeat split. Qed.

(** * Further properties of the code *)

(** ** The transport: which answer a call returns *)

Section FirstSuccess.

Import Observe.

Lemma loop_result_first_accepted (answers : list wire) :
  forall (lastError : js_error) (d : option body),
    loop_result answers lastError = Return d <->
    exists (i : nat) (s : Z),
      nth_error answers i = Some (Answer s d) /\ s < 400 /\
      forall j a, (j < i)%nat -> nth_error answers j = Some a ->
                  accepted a = false.
Proof.
  induction answers as [|a rest IH]; intros lastError d.
  - split; [discriminate|]. intros [i [s [Hnth _]]].
    destruct i; discriminate.
  - cbn [loop_result]. destruct (settlement a) as [d0|e] eqn:Hset.
    + assert (Ha : exists s, a = Answer s d0 /\ s < 400).
      { destruct a as [s d1| |]; cbn in Hset; try discriminate.
        destruct (Z.ltb_spec s 400); [|destruct (s <? 500); discriminate].
        inversion Hset; subst. now exists s. }
      destruct Ha as [s [Ha Hs]]. subst a. split.
      * intros H. inversion H; subst d0. exists O, s.
        split; [reflexivity|]. split; [exact Hs|]. intros j a Hj. lia.
      * intros [i [s' [Hnth [Hs' Hbefore]]]]. destruct i as [|i].
        -- cbn in Hnth. now inversion Hnth.
        -- specialize (Hbefore O (Answer s d0) ltac:(lia) eq_refl).
           cbn in Hbefore. destruct (Z.ltb_spec s 400); [discriminate|lia].
    + assert (Hacc : accepted a = false).
      { destruct a as [s d1| |]; cbn in Hset |- *; try reflexivity.
        destruct (Z.ltb_spec s 400); [discriminate|reflexivity]. }
      rewrite IH. split.
      * intros [i [s [Hnth [Hs Hbefore]]]]. exists (S i), s.
        split; [exact Hnth|]. split; [exact Hs|].
        intros j b Hj Hb. destruct j as [|j].
        -- cbn in Hb. inversion Hb; subst. exact Hacc.
        -- apply (Hbefore j b); [lia|exact Hb].
      * intros [i [s [Hnth [Hs Hbefore]]]]. destruct i as [|i].
        -- cbn in Hnth. inversion Hnth; subst a. cbn in Hacc.
           destruct (Z.ltb_spec s 400); [discriminate|lia].
        -- exists i, s. split; [exact Hnth|]. split; [exact Hs|].
           intros j b Hj Hb. apply (Hbefore (S j) b); [lia|exact Hb].
Qed.

Lemma nth_error_served (w : world) (config : AxiosConfig) (n i : nat) :
  nth_error (served w config n) i
  = if (i <? n)%nat then Some (server w (sent w + i)%nat config) else None.
Proof.
  unfold served.
  destruct (Nat.ltb_spec i n) as [Hlt|Hge].
  - rewrite nth_error_map, nth_error_seq.
    destruct (Nat.ltb_spec i n); [reflexivity|lia].
  - apply nth_error_None. now rewrite length_map, length_seq.
Qed.

Lemma attempts_made_first (answers : list wire) :
  forall (i : nat) (a : wire),
    nth_error answers i = Some a -> accepted a = true ->
    (forall j b, (j < i)%nat -> nth_error answers j = Some b ->
                 accepted b = false) ->
    attempts_made answers = S i.
Proof.
  induction answers as [|a0 rest IH]; intros i a Hnth Hacc Hbefore.
  - destruct i; discriminate.
  - cbn [attempts_made]. destruct i as [|i].
    + cbn in Hnth. inversion Hnth; subst a0. now rewrite Hacc.
    + rewrite (Hbefore O a0 ltac:(lia) eq_refl). f_equal.
      apply (IH i a Hnth Hacc).
      intros j b Hj Hb. apply (Hbefore (S j) b); [lia|exact Hb].
Qed.

End FirstSuccess.

(** X1. A call returns a body exactly when one of the answers to its first
    [retryAttempts + 1] requests has a status below 400; it returns the
    body of the first such answer, and it stops there: when that answer is
    the one to request [i], the call has sent [i + 1] requests and its
    trace is exactly those attempts, so that no later answer is asked
    for. *)
Theorem makeRequest_returns_first_accepted :
  forall (c : LLMClient.t) (endpoint : string) (method : http_method)
         (data' : option payload) (timeout : Z) (w : world)
         (d : option body),
    let config := LLMClient.requestConfig c endpoint method data' timeout in
    let result := LLMClient.makeRequest c endpoint method data' timeout w in
    fst result = Return d
    <->
    exists (i : nat) (s : Z),
      (i <= LLMClient.retryAttempts c)%nat /\
      server w (sent w + i)%nat config = Answer s d /\ s < 400 /\
      (forall j, (j < i)%nat ->
                 Observe.accepted (server w (sent w + j)%nat config) = false) /\
      sent (snd result) = (sent w + S i)%nat /\
      Observe.new_events w (snd result)
      = Observe.attempts_trace config (Observe.served w config (S i)) O.
Proof.
  intros c endpoint method data' timeout w d config result. subst result.
  rewrite makeRequest_result, loop_result_first_accepted. fold config.
  split.
  - intros [i [s [Hnth [Hs Hbefore]]]].
    assert (Hmade :
              Observe.attempts_made
                (Observe.served w config (S (LLMClient.retryAttempts c)))
              = S i).
    { apply (attempts_made_first _ i (Answer s d) Hnth).
      - cbn. now apply Z.ltb_lt.
      - exact Hbefore. }
    rewrite nth_error_served in Hnth.
    destruct (Nat.ltb_spec i (S (LLMClient.retryAttempts c))) as [Hi|Hi];
      [|discriminate].
    inversion Hnth as [Hsrv]. exists i, s.
    split; [lia|]. split; [exact Hsrv|]. split; [exact Hs|].
    split.
    { intros j Hj. apply (Hbefore j); [exact Hj|].
      rewrite nth_error_served.
      destruct (Nat.ltb_spec j (S (LLMClient.retryAttempts c)));
        [reflexivity|lia]. }
    destruct (makeRequest_world c endpoint method data' timeout w) as [_ Hw].
    cbv zeta in Hw. fold config in Hw. rewrite Hmade in Hw. rewrite Hw.
    cbn [sent]. split; [reflexivity|].
    now apply new_events_app.
  - intros [i [s [Hi [Hsrv [Hs [Hbefore _]]]]]]. exists i, s.
    split.
    + rewrite nth_error_served, <- Hsrv.
      destruct (Nat.ltb_spec i (S (LLMClient.retryAttempts c)));
        [reflexivity|lia].
    + split; [exact Hs|]. intros j a Hj Ha.
      rewrite nth_error_served in Ha.
      destruct (Nat.ltb_spec j (S (LLMClient.retryAttempts c)));
        [|discriminate].
      inversion Ha; subst a. now apply Hbefore.
Qed.

(** ** The errors of [analyzeCode] *)

Section AnalyzeErrors.

Import Observe.

(** The errors with which a call can end: no response, a response of 500
    or more, or the [Error] made from a 4xx answer. *)
Lemma loop_result_throws (answers : list wire) :
  forall (lastError e : js_error),
    loop_result answers lastError = Throw e ->
    (answers = [] /\ e = lastError) \/
    match e with
    | AxiosError (Some r) => 500 <= status r
    | AxiosError None => True
    | Error _ => True
    | Undefined => False
    end.
Proof.
  induction answers as [|a rest IH]; intros lastError e H.
  - left. cbn in H. inversion H. now split.
  - right. cbn [loop_result] in H.
    destruct (settlement a) as [d|e1] eqn:Hset; [discriminate|].
    assert (Hclass : match e1 with
                     | AxiosError (Some r) => 500 <= status r
                     | AxiosError None => True
                     | Error _ => True
                     | Undefined => False
                     end).
    { destruct a as [s d| |]; cbn in Hset.
      - destruct (Z.ltb_spec s 400); [discriminate|].
        destruct (Z.ltb_spec s 500); inversion Hset; subst; cbn; [exact I|lia].
      - inversion Hset; exact I.
      - inversion Hset; exact I. }
    destruct (IH e1 e H) as [[_ He]|Hok]; [now subst e|exact Hok].
Qed.

Lemma makeRequest_throws (c : LLMClient.t) (endpoint : string)
    (method : http_method) (data' : option payload) (timeout : Z) (w : world)
    (e : js_error) :
  fst (LLMClient.makeRequest c endpoint method data' timeout w) = Throw e ->
  match e with
  | AxiosError (Some r) => 500 <= status r
  | AxiosError None => True
  | Error _ => True
  | Undefined => False
  end.
Proof.
  rewrite makeRequest_result. intros H.
  destruct (loop_result_throws _ _ _ H) as [[Hnil _]|Hok]; [|exact Hok].
  rewrite served_S in Hnil. discriminate.
Qed.

End AnalyzeErrors.

(** X2. [analyzeCode] fails only with an [Error] that has a message, and
    the message is never the hint about authentication: the branch of
    [handleError] for the statuses 401 and 403 is not reached through
    [makeRequest], which hands it no response below 500. *)
Theorem analyzeCode_failure_is_error_never_auth_hint :
  forall (c : LLMClient.t) (code fileName : string) (w : world),
    match fst (LLMClient.analyzeCode c code fileName w) with
    | Return result => success result = true
    | Throw e =>
        exists m,
          e = Error m /\
          m <> "Authentication error. Please check backend API keys in .env file."
    end.
Proof.
  intros c code fileName w.
  pose proof (makeRequest_throws c "/analyze" POST
                (Some (AnalyzePayload code fileName)) (LLMClient.timeout c) w)
    as Hthrows.
  unfold LLMClient.analyzeCode, try_catch, bind.
  destruct (LLMClient.makeRequest c "/analyze" POST
              (Some (AnalyzePayload code fileName)) (LLMClient.timeout c) w)
    as [[response|e] w1]; cbn [fst] in Hthrows.
  - destruct response as [b|]; cbn.
    + destruct (j_success b); cbn; [reflexivity|].
      eexists. split; [reflexivity|]. discriminate.
    + eexists. split; [reflexivity|]. discriminate.
  - specialize (Hthrows e eq_refl). cbn [throw fst].
    destruct e as [[r|]|m|]; cbn [LLMClient.handleError].
    + destruct (Z.eqb_spec (status r) 401) as [?|_]; [lia|].
      destruct (Z.eqb_spec (status r) 403) as [?|_]; [lia|].
      cbn [orb].
      destruct (status r =? 500); [eexists; split; [reflexivity|discriminate]|].
      destruct (status r =? 503); [eexists; split; [reflexivity|discriminate]|].
      destruct (data r) as [b|];
        [destruct (Js.truthy_string (j_error b))|];
        (eexists; split; [reflexivity|]); cbn; discriminate.
    + eexists. split; [reflexivity|]. cbn. discriminate.
    + eexists. split; [reflexivity|]. cbn. discriminate.
    + contradiction.
Qed.

(** ** [fixCode]: the warning *)

Lemma makeRequest_extends_trace (c : LLMClient.t) (endpoint : string)
    (method : http_method) (data' : option payload) (timeout : Z) (w : world) :
  let w1 := snd (LLMClient.makeRequest c endpoint method data' timeout w) in
  trace w1 = trace w ++ Observe.new_events w w1 /\ server w1 = server w.
Proof.
  cbv zeta.
  destruct (makeRequest_world c endpoint method data' timeout w) as [_ Hw].
  cbv zeta in Hw. rewrite Hw. cbn [trace server]. split; [|reflexivity].
  f_equal. symmetry. now apply new_events_app.
Qed.

Lemma fixCode_unfolded (c : LLMClient.t) (code error : string)
    (issues : list Issue) (filename : string) (w : world) :
  let request := LLMClient.makeRequest c "/fix" POST
                   (Some (FixPayload code error issues filename))
                   (LLMClient.timeout c) w in
  LLMClient.fixCode c code error issues filename w
  = match Observe.usable_fix (fst request) with
    | Some fixed => (Return fixed, snd request)
    | None =>
        (Return code,
         mkWorld (server (snd request)) (sent (snd request))
           (trace (snd request) ++
            [WarningMessage "Code fixing failed. Returning original code."]))
    end.
Proof.
  cbv zeta. unfold LLMClient.fixCode, try_catch, bind.
  destruct (LLMClient.makeRequest c "/fix" POST _ (LLMClient.timeout c) w)
    as [[[b|]|e] w1]; cbn; try reflexivity.
  destruct (j_success b) eqn:Hs; cbn; [|reflexivity].
  destruct (j_fixed_code b) as [v|] eqn:Hv; cbn; [|reflexivity].
  destruct (String.eqb v ""); reflexivity.
Qed.

(** X3. [fixCode] shows its warning exactly when it falls back to the
    original code: beyond the events of the request, its trace gains the
    warning when the request gave no usable fix, and nothing when it gave
    one. *)
Theorem fixCode_warns_exactly_on_fallback :
  forall (c : LLMClient.t) (code error : string) (issues : list Issue)
         (filename : string) (w : world),
    let request := LLMClient.makeRequest c "/fix" POST
                     (Some (FixPayload code error issues filename))
                     (LLMClient.timeout c) w in
    let result := LLMClient.fixCode c code error issues filename w in
    Observe.new_events w (snd result)
    = Observe.new_events w (snd request) ++
      match Observe.usable_fix (fst request) with
      | Some _ => []
      | None => [WarningMessage "Code fixing failed. Returning original code."]
      end /\
    fst result
    = Return match Observe.usable_fix (fst request) with
             | Some fixed => fixed
             | None => code
             end.
Proof.
  intros c code error issues filename w request result.
  subst result. rewrite fixCode_unfolded. fold request.
  destruct (makeRequest_extends_trace c "/fix" POST
              (Some (FixPayload code error issues filename))
              (LLMClient.timeout c) w) as [Htrace _].
  cbv zeta in Htrace. fold request in Htrace.
  destruct (Observe.usable_fix (fst request)) as [fixed|]; cbn [fst snd].
  - now rewrite app_nil_r.
  - split; [|reflexivity]. apply new_events_app. cbn [trace].
    rewrite Htrace at 1. now rewrite <- app_assoc.
Qed.

(** ** The fix command, step by step *)

Section FixCommand.

Import Observe.
Import Chat.

Lemma postMessage_unfolded (p : ChatbotViewProvider.t) (m : webview_message)
    (w : world) :
  ChatbotViewProvider.postMessage p m w
  = (Return tt, extended w (postedBy p m)).
Proof.
  unfold ChatbotViewProvider.postMessage, postedBy, extended.
  destruct (ChatbotViewProvider.view p); [reflexivity|].
  unfold ret. destruct w; cbn. now rewrite app_nil_r.
Qed.

Lemma extended_extended (w : world) (evs1 evs2 : list event) :
  extended (extended w evs1) evs2 = extended w (evs1 ++ evs2).
Proof. unfold extended. cbn. now rewrite app_assoc. Qed.

(** The re-analysis, by the outcome of [analyzeCode]. *)
Lemma reanalyze_unfolded (c : LLMClient.t) (p : ChatbotViewProvider.t)
    (fixedCode : string) (w : world) :
  let analysis := LLMClient.analyzeCode c fixedCode
                    (ChatbotViewProvider.currentFileName p) w in
  ChatbotViewProvider.reanalyze c p fixedCode w
  = match fst analysis with
    | Return newResult =>
        let p1 := ChatbotViewProvider.mk (ChatbotViewProvider.view p)
                    (Some newResult) (ChatbotViewProvider.currentCode p)
                    (ChatbotViewProvider.currentFileName p) in
        (Return p1,
         extended (snd analysis)
           (postedBy p
              (ChatbotViewProvider.reanalysisCompleteMessage newResult
                 (ChatbotViewProvider.currentFileName p)) ++
            [InformationMessage
               ("Score updated: " ^^ Js.num_to_string (score newResult) ^^
                "/100 (" ^^ grade newResult ^^ ")")]))
    | Throw _ => (Return p, snd analysis)
    end.
Proof.
  cbv zeta. unfold ChatbotViewProvider.reanalyze, try_catch.
  unfold bind at 1.
  destruct (LLMClient.analyzeCode c fixedCode
              (ChatbotViewProvider.currentFileName p) w) as [[newResult|e] w1];
    cbn [fst snd]; [|reflexivity].
  unfold bind at 1. rewrite postMessage_unfolded.
  unfold bind, emit, ret. cbn [ChatbotViewProvider.currentFileName].
  rewrite <- extended_extended. reflexivity.
Qed.

Lemma reanalyze_returns (c : LLMClient.t) (p : ChatbotViewProvider.t)
    (fixedCode : string) (w : world) :
  exists p' w', ChatbotViewProvider.reanalyze c p fixedCode w = (Return p', w').
Proof.
  rewrite reanalyze_unfolded. cbv zeta.
  destruct (fst (LLMClient.analyzeCode c fixedCode _ w));
    eexists; eexists; reflexivity.
Qed.

(** The command proper, when there is an analysis and code to fix. *)
Lemma handleFixCode_unfolded (c : LLMClient.t) (p : ChatbotViewProvider.t)
    (current : AnalysisResult) (w : world) :
  ChatbotViewProvider.currentAnalysisResult p = Some current ->
  ChatbotViewProvider.currentCode p <> "" ->
  let w0 := extended w
              (postedBy p (MsgFixing "AI is fixing your code...")) in
  let fixing := LLMClient.fixCode c (ChatbotViewProvider.currentCode p)
                  (errorDescOf current) (issues current)
                  (ChatbotViewProvider.currentFileName p) w0 in
  exists fixedCode : string,
    fst fixing = Return fixedCode /\
    let p1 := ChatbotViewProvider.mk (ChatbotViewProvider.view p)
                (Some current) fixedCode
                (ChatbotViewProvider.currentFileName p) in
    ChatbotViewProvider.handleFixCode c p w
    = ChatbotViewProvider.reanalyze c p1 fixedCode
        (extended (snd fixing)
           (postedBy p (MsgCodeFixed fixedCode) ++
            [InformationMessage
               "Code fixed! Re-analyzing to update score..."])).
Proof.
  intros Hcurrent Hcode. cbv zeta.
  destruct (fixCode_never_throws c (ChatbotViewProvider.currentCode p)
              (errorDescOf current) (issues current)
              (ChatbotViewProvider.currentFileName p)
              (extended w
                 (postedBy p (MsgFixing "AI is fixing your code..."))))
    as [fixedCode Hfixed].
  exists fixedCode. split; [exact Hfixed|].
  unfold ChatbotViewProvider.handleFixCode. rewrite Hcurrent.
  destruct (String.eqb_spec (ChatbotViewProvider.currentCode p) "")
    as [?|_]; [contradiction|].
  unfold try_catch. unfold bind at 1. rewrite postMessage_unfolded.
  unfold bind at 1. fold (errorDescOf current).
  destruct (LLMClient.fixCode c (ChatbotViewProvider.currentCode p)
              (errorDescOf current) (issues current)
              (ChatbotViewProvider.currentFileName p)
              (extended w
                 (postedBy p (MsgFixing "AI is fixing your code..."))))
    as [r w1].
  cbn [fst snd] in Hfixed |- *. subst r.
  unfold bind at 1. rewrite postMessage_unfolded.
  unfold bind at 1. unfold emit at 1. cbv beta iota.
  change (mkWorld (server (extended w1 ?a)) (sent (extended w1 ?a))
            (trace (extended w1 ?a) ++ ?b))
    with (extended (extended w1 a) b).
  rewrite extended_extended.
  match goal with
  | |- _ = ChatbotViewProvider.reanalyze ?c' ?p' ?f' ?w' =>
      destruct (reanalyze_returns c' p' f' w') as [q [w2 Hre]];
      change (ChatbotViewProvider.reanalyze _ _ _ _)
        with (ChatbotViewProvider.reanalyze c' p' f' w');
      rewrite Hre
  end.
  reflexivity.
Qed.

End FixCommand.

Section FixCommandTrace.

Import Observe.
Import Chat.

Lemma posted_app (evs1 evs2 : list event) :
  posted (evs1 ++ evs2) = posted evs1 ++ posted evs2.
Proof.
  induction evs1 as [|e evs1 IH]; [reflexivity|].
  destruct e; cbn [app posted]; try exact IH. now rewrite IH.
Qed.

Lemma posted_attempts_trace (config : AxiosConfig) (answers : list wire) :
  forall attempt, posted (attempts_trace config answers attempt) = [].
Proof.
  induction answers as [|a rest IH]; intros attempt; [reflexivity|].
  destruct rest as [|b rest']; [reflexivity|].
  rewrite attempts_trace_retry. cbn [posted]. apply IH.
Qed.

Lemma silent_attempts_trace (config : AxiosConfig) (answers : list wire) :
  forall attempt,
    existsb reportsFailure (attempts_trace config answers attempt) = false.
Proof.
  induction answers as [|a rest IH]; intros attempt; [reflexivity|].
  destruct rest as [|b rest']; [reflexivity|].
  rewrite attempts_trace_retry. cbn [existsb reportsFailure orb]. apply IH.
Qed.

Lemma posted_postedBy (p : ChatbotViewProvider.t) (m : webview_message) :
  posted (postedBy p m) = if ChatbotViewProvider.view p then [m] else [].
Proof. unfold postedBy. now destruct (ChatbotViewProvider.view p). Qed.

(** What [fixCode] adds to the trace: traffic and, at most, its warning. *)
Lemma fixCode_events (c : LLMClient.t) (code error : string)
    (issues : list Issue) (filename : string) (w : world) :
  exists evs,
    trace (snd (LLMClient.fixCode c code error issues filename w))
    = trace w ++ evs /\
    posted evs = [] /\ existsb reportsFailure evs = false.
Proof.
  destruct (fixCode_run c code error issues filename w)
    as [text [k [tail [_ [Htail Hrun]]]]].
  cbv zeta in Hrun. rewrite Hrun. cbn [snd trace].
  eexists. split; [reflexivity|].
  rewrite posted_app, posted_attempts_trace.
  rewrite existsb_app, silent_attempts_trace.
  destruct Htail; subst tail; split; reflexivity.
Qed.

Lemma analyzeCode_events (c : LLMClient.t) (code fileName : string)
    (w : world) :
  exists evs,
    trace (snd (LLMClient.analyzeCode c code fileName w)) = trace w ++ evs /\
    posted evs = [] /\ existsb reportsFailure evs = false.
Proof.
  destruct (analyzeCode_run c code fileName w) as [r [k [_ Hrun]]].
  cbv zeta in Hrun. rewrite Hrun. cbn [snd trace].
  eexists. split; [reflexivity|].
  split; [apply posted_attempts_trace|apply silent_attempts_trace].
Qed.

(** The re-analysis posts its result, or nothing, and reports no
    failure. *)
Lemma reanalyze_events (c : LLMClient.t) (p : ChatbotViewProvider.t)
    (fixedCode : string) (w : world) :
  exists p' evs,
    fst (ChatbotViewProvider.reanalyze c p fixedCode w) = Return p' /\
    ChatbotViewProvider.currentCode p' = ChatbotViewProvider.currentCode p /\
    trace (snd (ChatbotViewProvider.reanalyze c p fixedCode w))
    = trace w ++ evs /\
    existsb reportsFailure evs = false /\
    (posted evs = [] \/
     exists newResult,
       posted evs
       = if ChatbotViewProvider.view p
         then [ChatbotViewProvider.reanalysisCompleteMessage newResult
                 (ChatbotViewProvider.currentFileName p)]
         else []).
Proof.
  rewrite reanalyze_unfolded. cbv zeta.
  destruct (analyzeCode_events c fixedCode
              (ChatbotViewProvider.currentFileName p) w)
    as [evs [Htrace [Hposted Hsilent]]].
  destruct (fst (LLMClient.analyzeCode c fixedCode _ w)) as [newResult|e];
    cbn [fst snd].
  - eexists. eexists. split; [reflexivity|]. split; [reflexivity|].
    unfold extended. cbn [trace]. rewrite Htrace, <- app_assoc.
    split; [reflexivity|]. split.
    + rewrite !existsb_app, Hsilent. unfold postedBy.
      destruct (ChatbotViewProvider.view p); reflexivity.
    + right. exists newResult.
      rewrite !posted_app, Hposted, posted_postedBy.
      destruct (ChatbotViewProvider.view p); reflexivity.
  - exists p, evs. repeat split; try assumption. now left.
Qed.

(** The whole trace of the command when there is something to fix. *)
Lemma handleFixCode_events (c : LLMClient.t) (p : ChatbotViewProvider.t)
    (current : AnalysisResult) (w : world) :
  ChatbotViewProvider.currentAnalysisResult p = Some current ->
  ChatbotViewProvider.currentCode p <> "" ->
  exists (fixedCode : string) (p' : ChatbotViewProvider.t)
         (fixing rest : list event),
    fst (LLMClient.fixCode c (ChatbotViewProvider.currentCode p)
           (errorDescOf current) (issues current)
           (ChatbotViewProvider.currentFileName p)
           (extended w (postedBy p (MsgFixing "AI is fixing your code..."))))
    = Return fixedCode /\
    fst (ChatbotViewProvider.handleFixCode c p w) = Return p' /\
    ChatbotViewProvider.currentCode p' = fixedCode /\
    Observe.new_events w (snd (ChatbotViewProvider.handleFixCode c p w))
    = postedBy p (MsgFixing "AI is fixing your code...") ++ fixing ++
      postedBy p (MsgCodeFixed fixedCode) ++
      [InformationMessage "Code fixed! Re-analyzing to update score..."] ++
      rest /\
    posted fixing = [] /\ existsb reportsFailure fixing = false /\
    existsb reportsFailure rest = false /\
    (posted rest = [] \/
     exists newResult,
       posted rest
       = if ChatbotViewProvider.view p
         then [ChatbotViewProvider.reanalysisCompleteMessage newResult
                 (ChatbotViewProvider.currentFileName p)]
         else []).
Proof.
  intros Hcurrent Hcode.
  destruct (handleFixCode_unfolded c p current w Hcurrent Hcode)
    as [fixedCode [Hfixed Hrun]].
  cbv zeta in Hfixed, Hrun. rewrite Hrun.
  set (w0 := extended w (postedBy p (MsgFixing "AI is fixing your code..."))) in *.
  destruct (fixCode_events c (ChatbotViewProvider.currentCode p)
              (errorDescOf current) (issues current)
              (ChatbotViewProvider.currentFileName p) w0)
    as [fixing [Hfixtrace [Hfixposted Hfixsilent]]].
  set (w1 := snd (LLMClient.fixCode _ _ _ _ _ w0)) in *.
  set (p1 := ChatbotViewProvider.mk _ _ fixedCode _).
  set (w3 := extended w1 _).
  destruct (reanalyze_events c p1 fixedCode w3)
    as [p' [rest [Hret [Hcode' [Hretrace [Hresilent Hreposted]]]]]].
  exists fixedCode, p', fixing, rest.
  split; [exact Hfixed|]. split; [exact Hret|]. split; [exact Hcode'|].
  split; [|repeat split; assumption].
  apply new_events_app. rewrite Hretrace. subst w3. unfold extended at 1.
  cbn [trace]. rewrite Hfixtrace. subst w0. unfold extended. cbn [trace].
  rewrite <- !app_assoc. reflexivity.
Qed.

End FixCommandTrace.

(** X4. The fix command never reports a failure: whatever the server
    does, it ends normally, and shows neither an error notification nor an
    [error] message in the webview; the [catch] block that would do so is
    not reached, since [fixCode] and the re-analysis keep their errors to
    themselves. *)
Theorem handleFixCode_never_reports_failure :
  forall (c : LLMClient.t) (p : ChatbotViewProvider.t) (w : world),
    let result := ChatbotViewProvider.handleFixCode c p w in
    (exists p', fst result = Return p') /\
    existsb Chat.reportsFailure (Observe.new_events w (snd result)) = false.
Proof.
  intros c p w result. subst result.
  assert (Hearly :
            ChatbotViewProvider.handleFixCode c p w
            = (Return p,
               Chat.extended w [WarningMessage "No analysis results to fix"]) ->
            (exists p', fst (ChatbotViewProvider.handleFixCode c p w)
                        = Return p') /\
            existsb Chat.reportsFailure
              (Observe.new_events w
                 (snd (ChatbotViewProvider.handleFixCode c p w))) = false).
  { intros H. rewrite H. cbn [fst snd]. split; [now exists p|].
    rewrite (new_events_app w _ [WarningMessage "No analysis results to fix"])
      by reflexivity.
    reflexivity. }
  destruct (ChatbotViewProvider.currentAnalysisResult p) as [current|]
    eqn:Hcurrent.
  - destruct (String.eqb_spec (ChatbotViewProvider.currentCode p) "")
      as [Hempty|Hcode].
    + apply Hearly. unfold ChatbotViewProvider.handleFixCode.
      rewrite Hcurrent, Hempty. reflexivity.
    + destruct (handleFixCode_events c p current w Hcurrent Hcode)
        as [fixedCode [p' [fixing [rest [_ [Hret [_ [Hevs [_ [Hs1 [Hs2 _]]]]]]]]]]].
      split; [now exists p'|]. rewrite Hevs.
      rewrite !existsb_app, Hs1, Hs2. unfold Chat.postedBy.
      destruct (ChatbotViewProvider.view p); reflexivity.
  - apply Hearly. unfold ChatbotViewProvider.handleFixCode.
    rewrite Hcurrent. reflexivity.
Qed.

(** X5. After a click on Auto-Fix, which disables the input of the
    webview, the messages of the command enable it again when there is an
    analysis and non-empty code to fix: the webview is then sent [fixing],
    [codeFixed] and, at most, one [analysisComplete], in this order. When
    there is none, the command shows its warning and nothing else: it
    posts no message to the webview, and the input stays disabled. *)
Theorem input_after_fix_command :
  forall (c : LLMClient.t) (p : ChatbotViewProvider.t) (w : world)
         (enabled : bool),
    ChatbotViewProvider.view p = true ->
    let evs :=
      Observe.new_events w (snd (ChatbotViewProvider.handleFixCode c p w)) in
    let work :=
      match ChatbotViewProvider.currentAnalysisResult p with
      | Some _ => negb (String.eqb (ChatbotViewProvider.currentCode p) "")
      | None => false
      end in
    Chat.inputAfterAll (Chat.fixCodeClicked enabled) evs = work /\
    (work = false ->
     evs = [WarningMessage "No analysis results to fix"] /\
     Chat.posted evs = []) /\
    (work = true ->
     exists (fixedCode : string) (tail : list webview_message),
       Chat.posted evs
       = MsgFixing "AI is fixing your code..." :: MsgCodeFixed fixedCode ::
         tail /\
       (tail = [] \/
        exists newResult,
          tail = [ChatbotViewProvider.reanalysisCompleteMessage newResult
                    (ChatbotViewProvider.currentFileName p)])).
Proof.
  intros c p w enabled Hview evs work.
  assert (Hearly :
            ChatbotViewProvider.handleFixCode c p w
            = (Return p,
               Chat.extended w [WarningMessage "No analysis results to fix"]) ->
            evs = [WarningMessage "No analysis results to fix"]).
  { intros H. subst evs. rewrite H. cbn [snd].
    now apply new_events_app. }
  assert (Hnone :
            work = false ->
            evs = [WarningMessage "No analysis results to fix"] ->
            Chat.inputAfterAll (Chat.fixCodeClicked enabled) evs = work /\
            (work = false ->
             evs = [WarningMessage "No analysis results to fix"] /\
             Chat.posted evs = []) /\
            (work = true ->
             exists (fixedCode : string) (tail : list webview_message),
               Chat.posted evs
               = MsgFixing "AI is fixing your code..." ::
                 MsgCodeFixed fixedCode :: tail /\
               (tail = [] \/
                exists newResult,
                  tail = [ChatbotViewProvider.reanalysisCompleteMessage
                            newResult
                            (ChatbotViewProvider.currentFileName p)]))).
  { intros Hwork Hevs. rewrite Hwork, Hevs.
    split; [reflexivity|]. split; [now split|discriminate]. }
  destruct (ChatbotViewProvider.currentAnalysisResult p) as [current|]
    eqn:Hcurrent.
  - destruct (String.eqb_spec (ChatbotViewProvider.currentCode p) "")
      as [Hempty|Hcode].
    + apply Hnone; [reflexivity|]. apply Hearly.
      unfold ChatbotViewProvider.handleFixCode.
      rewrite Hcurrent, Hempty. reflexivity.
    + clear Hnone Hearly.
      destruct (handleFixCode_events c p current w Hcurrent Hcode)
        as [fixedCode [p' [fixing [rest [_ [_ [_ [Hevs [Hp1 [_ [_ Hp2]]]]]]]]]]].
      fold evs in Hevs.
      assert (Hposted :
                exists tail,
                  Chat.posted evs
                  = MsgFixing "AI is fixing your code..." ::
                    MsgCodeFixed fixedCode :: tail /\
                  (tail = [] \/
                   exists newResult,
                     tail = [ChatbotViewProvider.reanalysisCompleteMessage
                               newResult
                               (ChatbotViewProvider.currentFileName p)])).
      { rewrite Hevs, !posted_app, Hp1, !posted_postedBy, Hview.
        destruct Hp2 as [Hp2|[newResult Hp2]]; rewrite Hp2.
        - exists []. split; [reflexivity|now left].
        - rewrite Hview. eexists. split; [reflexivity|].
          right. now exists newResult. }
      destruct Hposted as [tail [Hposted Htail]].
      subst work. cbn [negb]. split.
      { unfold Chat.inputAfterAll. rewrite Hposted.
        destruct Htail as [Htail|[newResult Htail]]; rewrite Htail;
          reflexivity. }
      split; [discriminate|]. intros _. now exists fixedCode, tail.
  - apply Hnone; [reflexivity|]. apply Hearly.
    unfold ChatbotViewProvider.handleFixCode.
    rewrite Hcurrent. reflexivity.
Qed.

Lemma input_after_fix_command_witness :
  let c := LLMClient.create None in
  let current := mkAnalysisResult true [] 40 "F" "python" 40 None in
  let p := ChatbotViewProvider.mk true (Some current) "x = 1" "a.py" in
  let idle := ChatbotViewProvider.mk true None "" "" in
  let w := mkWorld (fun _ _ => Unreachable) 0 [] in
  ChatbotViewProvider.view p = true /\
  ChatbotViewProvider.view idle = true /\
  Chat.inputAfterAll (Chat.fixCodeClicked true)
    (Observe.new_events w (snd (ChatbotViewProvider.handleFixCode c p w)))
  = true /\
  Chat.posted
    (Observe.new_events w (snd (ChatbotViewProvider.handleFixCode c idle w)))
  = [].
Proof.
  split; [reflexivity|]. split; [reflexivity|]. split.
  - apply (input_after_fix_command (LLMClient.create None)
             (ChatbotViewProvider.mk true
                (Some (mkAnalysisResult true [] 40 "F" "python" 40 None))
                "x = 1" "a.py")
             (mkWorld (fun _ _ => Unreachable) 0 []) true).
    reflexivity.
  - apply (input_after_fix_command (LLMClient.create None)
             (ChatbotViewProvider.mk true None "" "")
             (mkWorld (fun _ _ => Unreachable) 0 []) true eq_refl).
    reflexivity.
Defined.

Lemma makeRequest_fst_extended (c : LLMClient.t) (endpoint : string)
    (method : http_method) (data' : option payload) (timeout : Z) (w : world)
    (evs : list event) :
  fst (LLMClient.makeRequest c endpoint method data' timeout
         (Chat.extended w evs))
  = fst (LLMClient.makeRequest c endpoint method data' timeout w).
Proof. rewrite !makeRequest_result. reflexivity. Qed.

(** The re-analysis sends at least one request, and every request carries
    the fixed code. *)
Lemma reanalyze_codes (c : LLMClient.t) (p : ChatbotViewProvider.t)
    (fixedCode : string) (w : world) (evs : list event) :
  trace (snd (ChatbotViewProvider.reanalyze c p fixedCode w)) = trace w ++ evs ->
  exists k, (1 <= k)%nat /\ Observe.analyzed_codes evs = repeat fixedCode k.
Proof.
  rewrite reanalyze_unfolded. cbv zeta.
  destruct (analyzeCode_run c fixedCode
              (ChatbotViewProvider.currentFileName p) w) as [r [k [Hk Han]]].
  cbv zeta in Han.
  set (config := LLMClient.requestConfig _ _ _ _ _) in Han.
  rewrite Han. cbn [fst snd].
  intros Htrace. exists k. split; [exact Hk|].
  assert (Hattempts :
            Observe.analyzed_codes
              (Observe.attempts_trace config (Observe.served w config k) O)
            = repeat fixedCode k).
  { rewrite analyzed_codes_attempts. cbn. now rewrite served_length. }
  destruct r as [newResult|e]; cbn [snd] in Htrace.
  - unfold Chat.extended in Htrace. cbn [trace] in Htrace.
    rewrite <- app_assoc in Htrace. apply app_inv_head in Htrace.
    rewrite <- Htrace, analyzed_codes_app, Hattempts.
    rewrite analyzed_codes_quiet; [now rewrite app_nil_r|].
    unfold Chat.postedBy; destruct (ChatbotViewProvider.view p);
      repeat constructor.
  - cbn [trace] in Htrace. apply app_inv_head in Htrace.
    now rewrite <- Htrace.
Qed.




(** ** The chat command *)

Lemma chat_unfolded (c : LLMClient.t) (message context : string) (w : world) :
  exists reply,
    LLMClient.chat c message context w
    = (Return reply,
       snd (LLMClient.makeRequest c "/chat" POST
              (Some (ChatPayload message context)) 30000 w)).
Proof.
  unfold LLMClient.chat, try_catch, bind.
  destruct (LLMClient.makeRequest c "/chat" POST
              (Some (ChatPayload message context)) 30000 w)
    as [[[b|]|e] w1]; cbn.
  - destruct (j_success b); eexists; reflexivity.
  - eexists; reflexivity.
  - eexists; reflexivity.
Qed.

(** X7. The chat command always answers: it ends normally, and when the
    view is there it posts the [thinking] message and then one [chatReply]
    with the text that [chat] returned, never an [error] message; so the
    input that [thinking] disabled is enabled again. *)
Theorem handleChatMessage_always_replies :
  forall (c : LLMClient.t) (p : ChatbotViewProvider.t) (message : string)
         (w : world) (enabled : bool),
    let result := Chat.handleChatMessage c p message w in
    let evs := Observe.new_events w (snd result) in
    fst result = Return tt /\
    (exists reply,
        fst (LLMClient.chat c message (Chat.contextOf p)
               (Chat.extended w
                  (Chat.postedBy p (MsgThinking "AI is thinking..."))))
        = Return reply /\
        Chat.posted evs
        = if ChatbotViewProvider.view p
          then [MsgThinking "AI is thinking..."; MsgChatReply reply]
          else []) /\
    Chat.inputAfterAll enabled evs
    = (ChatbotViewProvider.view p || enabled)%bool.
Proof.
  intros c p message w enabled result evs.
  set (w0 := Chat.extended w
               (Chat.postedBy p (MsgThinking "AI is thinking..."))).
  destruct (chat_unfolded c message (Chat.contextOf p) w0) as [reply Hchat].
  destruct (makeRequest_world c "/chat" POST
              (Some (ChatPayload message (Chat.contextOf p))) 30000 w0)
    as [_ Hw].
  cbv zeta in Hw.
  set (config := LLMClient.requestConfig _ _ _ _ _) in Hw.
  set (k := Observe.attempts_made _) in Hw.
  assert (Hrun :
            result
            = (Return tt,
               mkWorld (server w) (sent w + k)
                 (trace w ++
                  Chat.postedBy p (MsgThinking "AI is thinking...") ++
                  Observe.attempts_trace config (Observe.served w0 config k) O ++
                  Chat.postedBy p (MsgChatReply reply)))).
  { subst result. unfold Chat.handleChatMessage, try_catch.
    unfold bind at 1. rewrite postMessage_unfolded. fold w0.
    unfold bind at 1. rewrite Hchat, Hw, postMessage_unfolded.
    change (server w0) with (server w). change (sent w0) with (sent w).
    change (trace w0)
      with (trace w ++ Chat.postedBy p (MsgThinking "AI is thinking...")).
    unfold Chat.extended. cbn [server sent trace].
    rewrite <- !app_assoc. reflexivity. }
  assert (Hevs :
            evs
            = Chat.postedBy p (MsgThinking "AI is thinking...") ++
              Observe.attempts_trace config (Observe.served w0 config k) O ++
              Chat.postedBy p (MsgChatReply reply)).
  { subst evs. rewrite Hrun. now apply new_events_app. }
  assert (Hposted :
            Chat.posted evs
            = if ChatbotViewProvider.view p
              then [MsgThinking "AI is thinking..."; MsgChatReply reply]
              else []).
  { rewrite Hevs, !posted_app, posted_attempts_trace, !posted_postedBy.
    destruct (ChatbotViewProvider.view p); reflexivity. }
  split; [now rewrite Hrun|]. split.
  - exists reply. split; [now rewrite Hchat|exact Hposted].
  - unfold Chat.inputAfterAll. rewrite Hposted.
    destruct (ChatbotViewProvider.view p); reflexivity.
Qed.

(** ** File types *)

Section FileTypeFacts.

Import FileTypes.

Lemma isSupportedIn_languageNameIn (table : list (string * list string))
    (ext : string) :
  Forall (fun entry => fst entry <> "unknown") table ->
  (isSupportedIn table ext = true <-> languageNameIn table ext <> "unknown").
Proof.
  induction 1 as [|[lang exts] rest Hlang _ IH]; cbn [isSupportedIn languageNameIn].
  - split; [discriminate|congruence].
  - destruct (includes exts ext); [|exact IH].
    split; [intros _; exact Hlang|reflexivity].
Qed.

Lemma last_segment_clean (sep : ascii -> bool) (s : string) :
  existsb sep (list_ascii_of_string (last_segment sep s)) = false.
Proof.
  induction s as [|c rest IH]; [reflexivity|].
  cbn [last_segment].
  destruct (existsb sep (list_ascii_of_string rest)) eqn:Hrest; [exact IH|].
  destruct (sep c) eqn:Hc; [exact Hrest|].
  cbn [list_ascii_of_string existsb]. now rewrite Hc, Hrest.
Qed.

Lemma is_dot_lower (c : ascii) : is_dot (lower c) = is_dot c.
Proof. destruct c as [[] [] [] [] [] [] [] []]; reflexivity. Qed.

Lemma existsb_is_dot_toLowerCase (s : string) :
  existsb is_dot (list_ascii_of_string (toLowerCase s))
  = existsb is_dot (list_ascii_of_string s).
Proof.
  induction s as [|c rest IH]; [reflexivity|].
  cbn [toLowerCase list_ascii_of_string existsb].
  now rewrite is_dot_lower, IH.
Qed.

(** Lower-casing and taking the extension commute. *)
Lemma last_segment_toLowerCase (s : string) :
  last_segment is_dot (toLowerCase s) = toLowerCase (last_segment is_dot s).
Proof.
  induction s as [|c rest IH]; [reflexivity|].
  cbn [toLowerCase last_segment].
  rewrite existsb_is_dot_toLowerCase, is_dot_lower.
  destruct (existsb is_dot (list_ascii_of_string rest)); [exact IH|].
  destruct (is_dot c); reflexivity.
Qed.

Lemma lower_lower (c : ascii) : lower (lower c) = lower c.
Proof. destruct c as [[] [] [] [] [] [] [] []]; reflexivity. Qed.

Lemma toLowerCase_idempotent (s : string) :
  toLowerCase (toLowerCase s) = toLowerCase s.
Proof.
  induction s as [|c rest IH]; [reflexivity|].
  cbn [toLowerCase]. now rewrite lower_lower, IH.
Qed.

End FileTypeFacts.

(** X8. The two look-ups of the language table agree: a file extension is
    supported exactly when it has a language name other than
    [unknown]. *)
Theorem supported_iff_language_known :
  forall ext : string,
    FileTypes.isSupportedFileType ext = true
    <-> FileTypes.getLanguageName ext <> "unknown".
Proof.
  intros ext. apply isSupportedIn_languageNameIn.
  unfold FileTypes.SUPPORTED_LANGUAGES.
  repeat (constructor; [cbn; discriminate|]). constructor.
Qed.

(** X9. No extension is listed under two languages: an extension in the
    list of a language has that language as its name, whatever the order
    of the table. *)
Theorem language_of_listed_extension :
  forall (lang : string) (exts : list string) (ext : string),
    In (lang, exts) FileTypes.SUPPORTED_LANGUAGES ->
    In ext exts ->
    FileTypes.getLanguageName ext = lang /\
    FileTypes.isSupportedFileType ext = true.
Proof.
  intros lang exts ext Hin Hext.
  unfold FileTypes.SUPPORTED_LANGUAGES in Hin. cbn [In] in Hin.
  repeat (destruct Hin as [Hin|Hin];
          [inversion Hin; subst; clear Hin; cbn [In] in Hext;
           repeat (destruct Hext as [Hext|Hext];
                   [subst; split; reflexivity|]);
           contradiction|]).
  contradiction.
Qed.

Lemma language_of_listed_extension_witness :
  In ("cpp", ["cpp"; "hpp"; "cc"; "cxx"; "hh"]) FileTypes.SUPPORTED_LANGUAGES /\
  In "cxx" ["cpp"; "hpp"; "cc"; "cxx"; "hh"] /\
  FileTypes.getLanguageName "cxx" = "cpp".
Proof.
  assert (Hin : In ("cpp", ["cpp"; "hpp"; "cc"; "cxx"; "hh"])
                  FileTypes.SUPPORTED_LANGUAGES)
    by (cbn; tauto).
  assert (Hext : In "cxx" ["cpp"; "hpp"; "cc"; "cxx"; "hh"]) by (cbn; tauto).
  split; [exact Hin|]. split; [exact Hext|].
  exact (proj1 (language_of_listed_extension "cpp"
                  ["cpp"; "hpp"; "cc"; "cxx"; "hh"] "cxx" Hin Hext)).
Defined.

(** X10. The name under which a file is analysed is never empty and holds
    no path separator, and its extension holds no dot. *)
Theorem base_name_and_extension_are_clean :
  forall path : string,
    FileTypes.baseName path <> "" /\
    existsb FileTypes.is_path_separator
      (list_ascii_of_string (FileTypes.baseName path)) = false /\
    existsb FileTypes.is_dot
      (list_ascii_of_string
         (FileTypes.fileExtension (FileTypes.baseName path))) = false.
Proof.
  intros path. unfold FileTypes.baseName, Js.or_string.
  pose proof (last_segment_clean FileTypes.is_path_separator path) as Hclean.
  split; [|split].
  - destruct (String.eqb_spec
                (FileTypes.last_segment FileTypes.is_path_separator path) "");
      [discriminate|assumption].
  - destruct (String.eqb
                (FileTypes.last_segment FileTypes.is_path_separator path) "");
      [reflexivity|exact Hclean].
  - unfold FileTypes.fileExtension.
    rewrite existsb_is_dot_toLowerCase. apply last_segment_clean.
Qed.

(** X11. The file type test does not look at the case of letters: two
    names that are equal once in lower case have the same extension and
    are accepted or refused alike. *)
Theorem file_type_test_ignores_case :
  forall name1 name2 : string,
    FileTypes.toLowerCase name1 = FileTypes.toLowerCase name2 ->
    FileTypes.fileExtension name1 = FileTypes.fileExtension name2 /\
    FileTypes.accepts name1 = FileTypes.accepts name2.
Proof.
  intros name1 name2 Hsame.
  assert (Hext : FileTypes.fileExtension name1 = FileTypes.fileExtension name2).
  { unfold FileTypes.fileExtension.
    now rewrite <- !last_segment_toLowerCase, Hsame. }
  split; [exact Hext|]. unfold FileTypes.accepts. now rewrite Hext.
Qed.

Lemma file_type_test_ignores_case_witness :
  FileTypes.toLowerCase "Motor.PY" = FileTypes.toLowerCase "motor.py" /\
  FileTypes.fileExtension "Motor.PY" = "py" /\
  FileTypes.accepts "Motor.PY" = true.
Proof.
  split; [reflexivity|].
  destruct (file_type_test_ignores_case "Motor.PY" "motor.py" eq_refl)
    as [Hext Hacc].
  split; [rewrite Hext|rewrite Hacc]; reflexivity.
Defined.

(** ** The analysis command *)

Section AnalysisCommand.

Import Observe.
Import Commands.

Lemma analyzeCode_fst_extended (c : LLMClient.t) (code fileName : string)
    (w : world) (evs : list event) :
  fst (LLMClient.analyzeCode c code fileName (Chat.extended w evs))
  = fst (LLMClient.analyzeCode c code fileName w).
Proof.
  pose proof (makeRequest_fst_extended c "/analyze" POST
                (Some (AnalyzePayload code fileName)) (LLMClient.timeout c)
                w evs) as H.
  unfold LLMClient.analyzeCode, try_catch, bind.
  destruct (LLMClient.makeRequest c "/analyze" POST _ _ (Chat.extended w evs))
    as [r1 w1].
  destruct (LLMClient.makeRequest c "/analyze" POST _ _ w) as [r2 w2].
  cbn [fst] in H. subst r2.
  destruct r1 as [[b|]|e]; cbn; try reflexivity.
  destruct (j_success b); reflexivity.
Qed.

Lemma showDiagnostics_defined (document : Extension.TextDocument)
    (issues : list Issue) :
  exists ds,
    Extension.showDiagnostics document issues = Some ds /\
    List.length ds = List.length issues.
Proof.
  induction issues as [|issue rest [ds [Hds Hlen]]].
  - now exists [].
  - destruct (diagnosticOf_defined document issue) as [d [Hd _]].
    exists (d :: ds). cbn [Extension.showDiagnostics].
    rewrite Hd, Hds. cbn [List.length]. now rewrite Hlen.
Qed.

(** The command when it does not get to the analysis. *)
Lemma startAnalysis_stopped (settings : Settings)
    (activeTextEditor : option TextEditor) (proceed : option string)
    (now analysisTime : string) (c : LLMClient.t) (st : State) (w : world) :
  runs settings activeTextEditor proceed = false ->
  exists evs,
    startAnalysis settings activeTextEditor proceed now analysisTime c st w
    = (Return st, Chat.extended w evs) /\
    quiet evs.
Proof.
  unfold runs, startAnalysis. intros Hruns.
  destruct activeTextEditor as [editor|].
  - destruct (FileTypes.accepts (FileTypes.baseName (documentFileName editor))).
    + cbn [negb andb] in *. unfold tooLong in Hruns. unfold bind at 1.
      destruct (get (maxFileSize settings) 1000
                <? Extension.lineCount (document editor)).
      * unfold bind at 1. unfold emit, ret. cbv beta iota. rewrite Hruns.
        cbn [negb]. eexists. split; [reflexivity|]. repeat constructor.
      * discriminate.
    + cbn [negb]. eexists. split; [reflexivity|]. repeat constructor.
  - eexists. split; [reflexivity|]. repeat constructor.
Qed.

(** The command when it gets to the analysis: all depends on how
    [analyzeCode] ends. *)
Lemma startAnalysis_ran (settings : Settings) (editor : TextEditor)
    (proceed : option string) (now analysisTime : string)
    (c : LLMClient.t) (st : State) (w : world) :
  runs settings (Some editor) proceed = true ->
  let fileName := FileTypes.baseName (documentFileName editor) in
  let w0 := Chat.extended w
              (if tooLong settings editor
               then [WarningMessage
                       ("File has " ^^
                        Js.num_to_string
                          (Extension.lineCount (document editor)) ^^
                        " lines (max: " ^^
                        Js.num_to_string (get (maxFileSize settings) 1000) ^^
                        "). Analysis may take longer.")]
               else []) in
  let analysis := LLMClient.analyzeCode c (getText editor) fileName w0 in
  startAnalysis settings (Some editor) proceed now analysisTime c st w
  = match fst analysis with
    | Throw error =>
        (Return
           (mkState (lastAnalysisResult st) []
              (Extension.mkStatusBarItem "$(error) Analysis Failed"
                 (Some "statusBarItem.errorBackground"))
              (analysisHistory st) (globalState st) (chatbotProvider st)),
         Chat.extended (snd analysis)
           [ErrorMessage ("Analysis failed: " ^^ messageOf error)])
    | Return result =>
        let history :=
          Extension.saveToHistory (analysisHistory st)
            (Extension.historyEntry now fileName (documentFileName editor)
               (FileTypes.fileExtension fileName) result) in
        (Return
           (mkState (Some result)
              (if get (showInlineErrors settings) true
               then match Extension.showDiagnostics (document editor)
                            (issues result) with
                    | Some ds => [(Extension.uri (document editor), ds)]
                    | None => []
                    end
               else [])
              (Extension.updateStatusBar result)
              history (Some history)
              (ChatbotViewProvider.mk
                 (ChatbotViewProvider.view (chatbotProvider st))
                 (Some result) (getText editor) fileName)),
         Chat.extended (snd analysis)
           (Chat.postedBy (chatbotProvider st)
              (ChatbotViewProvider.analysisCompleteMessage result fileName) ++
            [InformationMessage (summaryMessage analysisTime result)]))
    end.
Proof.
  unfold runs. intros Hruns. cbv zeta.
  apply andb_prop in Hruns. destruct Hruns as [Haccepts Hgo].
  unfold startAnalysis. rewrite Haccepts. cbn [negb].
  unfold bind at 1. fold (tooLong settings editor).
  assert (Hstep :
            (if tooLong settings editor
             then
               emit (WarningMessage
                       ("File has " ^^
                        Js.num_to_string
                          (Extension.lineCount (document editor)) ^^
                        " lines (max: " ^^
                        Js.num_to_string (get (maxFileSize settings) 1000) ^^
                        "). Analysis may take longer.")) ;;;
               ret (match proceed with
                    | Some answer => String.eqb answer "Analyze Anyway"
                    | None => false
                    end)
             else ret true) w
            = (Return true,
               Chat.extended w
                 (if tooLong settings editor
                  then [WarningMessage
                          ("File has " ^^
                           Js.num_to_string
                             (Extension.lineCount (document editor)) ^^
                           " lines (max: " ^^
                           Js.num_to_string (get (maxFileSize settings) 1000) ^^
                           "). Analysis may take longer.")]
                  else []))).
  { destruct (tooLong settings editor).
    - unfold bind, emit, ret. cbv beta iota. rewrite Hgo. reflexivity.
    - unfold ret, Chat.extended. destruct w; cbn. now rewrite app_nil_r. }
  rewrite Hstep. cbn [negb].
  set (w0 := Chat.extended w _).
  unfold bind at 1. unfold attempt.
  destruct (LLMClient.analyzeCode c (getText editor)
              (FileTypes.baseName (documentFileName editor)) w0)
    as [[result|error] w1]; cbn [fst snd].
  - destruct (showDiagnostics_defined (document editor) (issues result))
      as [ds [Hds _]].
    rewrite Hds.
    assert (Hshown :
              (if get (showInlineErrors settings) true
               then option_map
                      (setDiagnostics [] (Extension.uri (document editor)))
                      (Some ds)
               else Some [])
              = Some (if get (showInlineErrors settings) true
                      then [(Extension.uri (document editor), ds)]
                      else [])).
    { destruct (get (showInlineErrors settings) true); reflexivity. }
    cbn [diagnosticCollection]. rewrite Hshown.
    unfold ChatbotViewProvider.showAnalysisResults.
    unfold bind at 1. unfold bind at 1. rewrite postMessage_unfolded.
    unfold ret at 1. cbv beta iota.
    unfold bind, emit, ret.
    unfold Chat.extended, Chat.postedBy. cbn.
    rewrite <- !app_assoc. reflexivity.
  - reflexivity.
Qed.

End AnalysisCommand.

Lemma requests_quiet (evs : list event) :
  Observe.quiet evs -> Observe.requests evs = O.
Proof.
  induction 1 as [|e evs He _ IH]; [reflexivity|].
  destruct e; cbn [Observe.requests]; try contradiction; exact IH.
Qed.

(** X12. When the command stops before the analysis (no editor, a file
    type that is not supported, or a long file that the user does not want
    analysed) it sends no request and changes nothing. *)
Theorem startAnalysis_stops_without_request :
  forall (settings : Commands.Settings)
         (activeTextEditor : option Commands.TextEditor)
         (proceed : option string) (now analysisTime : string)
         (c : LLMClient.t) (st : Commands.State) (w : world),
    Commands.runs settings activeTextEditor proceed = false ->
    let result := Commands.startAnalysis settings activeTextEditor proceed
                    now analysisTime c st w in
    fst result = Return st /\
    sent (snd result) = sent w /\
    Observe.requests (Observe.new_events w (snd result)) = O.
Proof.
  intros settings activeTextEditor proceed now analysisTime c st w Hruns result.
  destruct (startAnalysis_stopped settings activeTextEditor proceed now
              analysisTime c st w Hruns) as [evs [Hrun Hquiet]].
  subst result. rewrite Hrun. cbn [fst snd].
  split; [reflexivity|]. split; [reflexivity|].
  rewrite (new_events_app w _ evs) by reflexivity.
  now apply requests_quiet.
Qed.

Lemma startAnalysis_stops_without_request_witness :
  let settings := Commands.mkSettings None None in
  let editor := Commands.mkTextEditor
                  (Extension.mkTextDocument "file:///notes/plan.txt" 12)
                  "buy milk" "/notes/plan.txt" in
  let st := Commands.mkState None [] (Extension.mkStatusBarItem "" None) []
              None (ChatbotViewProvider.mk false None "" "") in
  let w := mkWorld (fun _ _ => Unreachable) 0 [] in
  Commands.runs settings (Some editor) None = false /\
  sent (snd (Commands.startAnalysis settings (Some editor) None
               "2024-01-01T00:00:00.000Z" "0.10" (LLMClient.create None) st w))
  = O.
Proof.
  split; [reflexivity|].
  exact (proj1 (proj2
    (startAnalysis_stops_without_request
       (Commands.mkSettings None None)
       (Some (Commands.mkTextEditor
                (Extension.mkTextDocument "file:///notes/plan.txt" 12)
                "buy milk" "/notes/plan.txt"))
       None "2024-01-01T00:00:00.000Z" "0.10" (LLMClient.create None)
       (Commands.mkState None [] (Extension.mkStatusBarItem "" None) []
          None (ChatbotViewProvider.mk false None "" ""))
       (mkWorld (fun _ _ => Unreachable) 0 [])
       eq_refl))).
Defined.

(** X13. An analysis that fails takes the diagnostics away and keeps the
    rest: the collection is empty afterwards, also of what an earlier
    analysis had put there, while the last result, the history, the stored
    history and the assistant are as before; the status bar says that the
    analysis failed and the user is shown the message of the error. *)
Theorem failed_analysis_clears_diagnostics_only :
  forall (settings : Commands.Settings) (editor : Commands.TextEditor)
         (proceed : option string) (now analysisTime : string)
         (c : LLMClient.t) (st : Commands.State) (w : world)
         (error : js_error),
    Commands.runs settings (Some editor) proceed = true ->
    fst (LLMClient.analyzeCode c (Commands.getText editor)
           (FileTypes.baseName (Commands.documentFileName editor)) w)
    = Throw error ->
    let result := Commands.startAnalysis settings (Some editor) proceed
                    now analysisTime c st w in
    exists st',
      fst result = Return st' /\
      Commands.diagnosticCollection st' = [] /\
      Commands.lastAnalysisResult st' = Commands.lastAnalysisResult st /\
      Commands.analysisHistory st' = Commands.analysisHistory st /\
      Commands.globalState st' = Commands.globalState st /\
      Commands.chatbotProvider st' = Commands.chatbotProvider st /\
      Commands.statusBarItem st'
      = Extension.mkStatusBarItem "$(error) Analysis Failed"
          (Some "statusBarItem.errorBackground") /\
      In (ErrorMessage ("Analysis failed: " ^^ Commands.messageOf error))
        (Observe.new_events w (snd result)).
Proof.
  intros settings editor proceed now analysisTime c st w error Hruns Hfail
    result.
  pose proof (startAnalysis_ran settings editor proceed now analysisTime c st w
                Hruns) as Hran.
  cbv zeta in Hran.
  set (w0 := Chat.extended w _) in Hran.
  assert (Hfail0 :
            fst (LLMClient.analyzeCode c (Commands.getText editor)
                   (FileTypes.baseName (Commands.documentFileName editor)) w0)
            = Throw error)
    by (unfold w0; now rewrite analyzeCode_fst_extended).
  rewrite Hfail0 in Hran.
  destruct (analyzeCode_events c (Commands.getText editor)
              (FileTypes.baseName (Commands.documentFileName editor)) w0)
    as [evs [Htrace _]].
  subst result. rewrite Hran. cbn [fst snd].
  eexists. split; [reflexivity|].
  cbn [Commands.diagnosticCollection Commands.lastAnalysisResult
       Commands.analysisHistory Commands.globalState
       Commands.chatbotProvider Commands.statusBarItem].
  repeat (split; [reflexivity|]).
  assert (Hall :
            trace (Chat.extended
                     (snd (LLMClient.analyzeCode c (Commands.getText editor)
                             (FileTypes.baseName
                                (Commands.documentFileName editor)) w0))
                     [ErrorMessage
                        ("Analysis failed: " ^^ Commands.messageOf error)])
            = trace w ++
              (Observe.new_events w w0 ++ evs ++
               [ErrorMessage
                  ("Analysis failed: " ^^ Commands.messageOf error)])).
  { unfold Chat.extended at 1. cbn [trace]. rewrite Htrace.
    rewrite (new_events_app w w0 _ eq_refl).
    unfold w0, Chat.extended. cbn [trace]. now rewrite <- !app_assoc. }
  rewrite (new_events_app _ _ _ Hall).
  apply in_or_app. right. apply in_or_app. right. now left.
Qed.

Lemma failed_analysis_clears_diagnostics_only_witness :
  let settings := Commands.mkSettings None None in
  let editor := Commands.mkTextEditor
                  (Extension.mkTextDocument "file:///src/a.py" 3)
                  "x = 1" "/src/a.py" in
  let st := Commands.mkState None [] (Extension.mkStatusBarItem "" None) []
              None (ChatbotViewProvider.mk false None "" "") in
  let w := mkWorld (fun _ _ => Unreachable) 0 [] in
  Commands.runs settings (Some editor) None = true /\
  exists error,
    fst (LLMClient.analyzeCode (LLMClient.create None)
           (Commands.getText editor)
           (FileTypes.baseName (Commands.documentFileName editor)) w)
    = Throw error /\
    exists st',
      fst (Commands.startAnalysis settings (Some editor) None
             "2024-01-01T00:00:00.000Z" "0.10" (LLMClient.create None) st w)
      = Return st' /\
      Commands.diagnosticCollection st' = [].
Proof.
  cbv zeta. split; [reflexivity|].
  eexists. split; [reflexivity|].
  destruct (failed_analysis_clears_diagnostics_only
              (Commands.mkSettings None None)
              (Commands.mkTextEditor
                 (Extension.mkTextDocument "file:///src/a.py" 3)
                 "x = 1" "/src/a.py")
              None "2024-01-01T00:00:00.000Z" "0.10" (LLMClient.create None)
              (Commands.mkState None [] (Extension.mkStatusBarItem "" None) []
                 None (ChatbotViewProvider.mk false None "" ""))
              (mkWorld (fun _ _ => Unreachable) 0 [])
              _ eq_refl eq_refl)
    as [st' [Hret [Hdiag _]]].
  exists st'. split; [exact Hret|exact Hdiag].
Defined.

(** X14. An analysis that succeeds is recorded everywhere at once: it is
    the last result, it is the head of the history, which still holds at
    most 50 entries and is stored as it is, the assistant holds the result
    with the text and the name of the file, the status bar shows the band
    of the score, and, unless inline errors are switched off, the document
    has one diagnostic per issue and no other document has any. *)
Theorem successful_analysis_is_recorded :
  forall (settings : Commands.Settings) (editor : Commands.TextEditor)
         (proceed : option string) (now analysisTime : string)
         (c : LLMClient.t) (st : Commands.State) (w : world)
         (result : AnalysisResult),
    Commands.runs settings (Some editor) proceed = true ->
    fst (LLMClient.analyzeCode c (Commands.getText editor)
           (FileTypes.baseName (Commands.documentFileName editor)) w)
    = Return result ->
    let fileName := FileTypes.baseName (Commands.documentFileName editor) in
    let entry := Extension.historyEntry now fileName
                   (Commands.documentFileName editor)
                   (FileTypes.fileExtension fileName) result in
    exists st',
      fst (Commands.startAnalysis settings (Some editor) proceed now
             analysisTime c st w) = Return st' /\
      Commands.lastAnalysisResult st' = Some result /\
      hd_error (Commands.analysisHistory st') = Some entry /\
      Commands.analysisHistory st'
      = Extension.saveToHistory (Commands.analysisHistory st) entry /\
      (List.length (Commands.analysisHistory st') <= 50)%nat /\
      Commands.globalState st' = Some (Commands.analysisHistory st') /\
      Commands.chatbotProvider st'
      = ChatbotViewProvider.mk
          (ChatbotViewProvider.view (Commands.chatbotProvider st))
          (Some result) (Commands.getText editor) fileName /\
      Commands.statusBarItem st' = Extension.updateStatusBar result /\
      exists ds,
        List.length ds = List.length (issues result) /\
        Commands.diagnosticCollection st'
        = if Commands.get (Commands.showInlineErrors settings) true
          then [(Extension.uri (Commands.document editor), ds)]
          else [].
Proof.
  intros settings editor proceed now analysisTime c st w result Hruns Hok
    fileName entry.
  pose proof (startAnalysis_ran settings editor proceed now analysisTime c st w
                Hruns) as Hran.
  cbv zeta in Hran.
  set (w0 := Chat.extended w _) in Hran.
  assert (Hok0 :
            fst (LLMClient.analyzeCode c (Commands.getText editor)
                   (FileTypes.baseName (Commands.documentFileName editor)) w0)
            = Return result)
    by (unfold w0; now rewrite analyzeCode_fst_extended).
  rewrite Hok0 in Hran. rewrite Hran. cbn [fst].
  destruct (showDiagnostics_defined (Commands.document editor) (issues result))
    as [ds [Hds Hlen]].
  rewrite Hds.
  eexists. split; [reflexivity|].
  cbn [Commands.diagnosticCollection Commands.lastAnalysisResult
       Commands.analysisHistory Commands.globalState
       Commands.chatbotProvider Commands.statusBarItem].
  fold fileName. fold entry.
  split; [reflexivity|]. split.
  { rewrite saveToHistory_firstn. reflexivity. }
  split; [reflexivity|]. split; [apply saveToHistory_bounded|].
  split; [reflexivity|]. split; [reflexivity|]. split; [reflexivity|].
  exists ds. split; [exact Hlen|reflexivity].
Qed.

Lemma successful_analysis_is_recorded_witness :
  let settings := Commands.mkSettings None None in
  let editor := Commands.mkTextEditor
                  (Extension.mkTextDocument "file:///src/a.py" 3)
                  "x = 1" "/src/a.py" in
  let st := Commands.mkState None [] (Extension.mkStatusBarItem "" None) []
              None (ChatbotViewProvider.mk false None "" "") in
  let answer := mkBody true None None None
                  (Some [mkIssue (Some "SE-001") (Some "magic number")
                           (Some 1) "warning" None None])
                  (Some 90) (Some "A") (Some "python") (Some 40) None in
  let w := mkWorld (fun _ _ => Answer 200 (Some answer)) 0 [] in
  Commands.runs settings (Some editor) None = true /\
  exists result st',
    fst (LLMClient.analyzeCode (LLMClient.create None)
           (Commands.getText editor)
           (FileTypes.baseName (Commands.documentFileName editor)) w)
    = Return result /\
    fst (Commands.startAnalysis settings (Some editor) None
           "2024-01-01T00:00:00.000Z" "0.10" (LLMClient.create None) st w)
    = Return st' /\
    Commands.lastAnalysisResult st' = Some result.
Proof.
  cbv zeta. split; [reflexivity|].
  eexists.
  destruct (successful_analysis_is_recorded
              (Commands.mkSettings None None)
              (Commands.mkTextEditor
                 (Extension.mkTextDocument "file:///src/a.py" 3)
                 "x = 1" "/src/a.py")
              None "2024-01-01T00:00:00.000Z" "0.10" (LLMClient.create None)
              (Commands.mkState None [] (Extension.mkStatusBarItem "" None) []
                 None (ChatbotViewProvider.mk false None "" ""))
              (mkWorld
                 (fun _ _ =>
                    Answer 200
                      (Some (mkBody true None None None
                               (Some [mkIssue (Some "SE-001")
                                        (Some "magic number") (Some 1)
                                        "warning" None None])
                               (Some 90) (Some "A") (Some "python") (Some 40)
                               None)))
                 0 [])
              _ eq_refl eq_refl)
    as [st' [Hret [Hlast _]]].
  exists st'. split; [reflexivity|]. split; [exact Hret|exact Hlast].
Defined.

(** X15. What is stored is what is held. Loading the history at
    activation makes the two agree, whatever the store holds and whatever
    the extension held before. Every run of the analysis command and of
    the clear command ends normally, and either leaves the history and the
    store as they were or writes to the store the very history that the
    extension then holds; so a state in which the two agree is followed by
    one in which they agree, and a restart would load exactly the history
    that the extension holds. *)
Theorem history_stays_persisted :
  forall (settings : Commands.Settings)
         (activeTextEditor : option Commands.TextEditor)
         (proceed confirm : option string) (now analysisTime : string)
         (c : LLMClient.t) (st : Commands.State) (w : world),
    Commands.persisted (Commands.loadAnalysisHistory st) /\
    (exists st',
        fst (Commands.startAnalysis settings activeTextEditor proceed now
               analysisTime c st w) = Return st' /\
        ((Commands.analysisHistory st' = Commands.analysisHistory st /\
          Commands.globalState st' = Commands.globalState st) \/
         Commands.globalState st' = Some (Commands.analysisHistory st')) /\
        (Commands.persisted st -> Commands.persisted st')) /\
    (exists st',
        fst (Commands.clearAnalysisHistory confirm st w) = Return st' /\
        ((Commands.analysisHistory st' = Commands.analysisHistory st /\
          Commands.globalState st' = Commands.globalState st) \/
         Commands.globalState st' = Some (Commands.analysisHistory st')) /\
        (Commands.persisted st -> Commands.persisted st')).
Proof.
  intros settings activeTextEditor proceed confirm now analysisTime c st w.
  assert (Hkept :
            exists st' : Commands.State,
              Return st = Return st' /\
              ((Commands.analysisHistory st' = Commands.analysisHistory st /\
                Commands.globalState st' = Commands.globalState st) \/
               Commands.globalState st'
               = Some (Commands.analysisHistory st')) /\
              (Commands.persisted st -> Commands.persisted st')).
  { exists st. split; [reflexivity|]. split; [left; now split|tauto]. }
  split; [reflexivity|]. split.
  - destruct (Commands.runs settings activeTextEditor proceed) eqn:Hruns.
    + destruct activeTextEditor as [editor|]; [|discriminate].
      pose proof (startAnalysis_ran settings editor proceed now analysisTime
                    c st w Hruns) as Hran.
      cbv zeta in Hran. rewrite Hran.
      destruct (fst (LLMClient.analyzeCode c _ _ _)) as [result|error];
        cbn [fst]; eexists; (split; [reflexivity|]);
        cbn [Commands.analysisHistory Commands.globalState].
      * split; [now right|]. intros _. reflexivity.
      * split; [left; now split|]. intros Hpersisted. exact Hpersisted.
    + destruct (startAnalysis_stopped settings activeTextEditor proceed now
                  analysisTime c st w Hruns) as [evs [Hrun _]].
      rewrite Hrun. exact Hkept.
  - unfold Commands.clearAnalysisHistory, bind, emit, ret.
    destruct confirm as [answer|]; [|exact Hkept].
    destruct (String.eqb_spec answer "Clear") as [Hclear|Hother].
    + subst answer. eexists. split; [reflexivity|].
      split; [now right|]. intros _. reflexivity.
    + assert (Hsame :
                forall (A : Type) (x y : A),
                  match answer with
                  | "Clear" => x
                  | _ => y
                  end = y).
      { intros A x y. destruct answer as [|a0 answer]; [reflexivity|].
        repeat match goal with
               | |- context [match ?x with _ => _ end] =>
                   destruct x; try reflexivity
               end.
        exfalso. apply Hother. reflexivity. }
      rewrite Hsame. exact Hkept.
Qed.

Lemma history_stays_persisted_witness :
  let settings := Commands.mkSettings None None in
  let editor := Commands.mkTextEditor
                  (Extension.mkTextDocument "file:///src/a.py" 3)
                  "x = 1" "/src/a.py" in
  let stored := Extension.mkAnalysisHistory "2023-12-31T00:00:00.000Z"
                  "b.py" "/src/b.py" 70 "C" 2 "python" in
  let activation :=
    Commands.mkState None [] (Extension.mkStatusBarItem "" None) []
      (Some [stored]) (ChatbotViewProvider.mk false None "" "") in
  let st := Commands.loadAnalysisHistory activation in
  let answer := mkBody true None None None (Some []) (Some 90) (Some "A")
                  (Some "python") (Some 40) None in
  let w := mkWorld (fun _ _ => Answer 200 (Some answer)) 0 [] in
  ~ Commands.persisted activation /\
  Commands.persisted st /\
  Commands.analysisHistory st = [stored] /\
  (exists st',
      fst (Commands.startAnalysis settings (Some editor) None
             "2024-01-01T00:00:00.000Z" "0.10" (LLMClient.create None) st w)
      = Return st' /\
      Commands.persisted st') /\
  (exists st',
      fst (Commands.clearAnalysisHistory (Some "Clear") st w) = Return st' /\
      Commands.persisted st').
Proof.
  cbv zeta.
  split; [intros H; discriminate H|].
  split.
  { exact (proj1
             (history_stays_persisted (Commands.mkSettings None None) None
                None None "" "" (LLMClient.create None)
                (Commands.mkState None []
                   (Extension.mkStatusBarItem "" None) []
                   (Some [Extension.mkAnalysisHistory
                            "2023-12-31T00:00:00.000Z" "b.py" "/src/b.py"
                            70 "C" 2 "python"])
                   (ChatbotViewProvider.mk false None "" ""))
                (mkWorld (fun _ _ => Unreachable) 0 []))). }
  split; [reflexivity|].
  destruct (history_stays_persisted (Commands.mkSettings None None)
              (Some (Commands.mkTextEditor
                       (Extension.mkTextDocument "file:///src/a.py" 3)
                       "x = 1" "/src/a.py"))
              None (Some "Clear") "2024-01-01T00:00:00.000Z" "0.10"
              (LLMClient.create None)
              (Commands.loadAnalysisHistory
                 (Commands.mkState None []
                    (Extension.mkStatusBarItem "" None) []
                    (Some [Extension.mkAnalysisHistory
                             "2023-12-31T00:00:00.000Z" "b.py" "/src/b.py"
                             70 "C" 2 "python"])
                    (ChatbotViewProvider.mk false None "" "")))
              (mkWorld
                 (fun _ _ =>
                    Answer 200
                      (Some (mkBody true None None None (Some []) (Some 90)
                               (Some "A") (Some "python") (Some 40) None)))
                 0 []))
    as [_ [[st1 [Hret1 [_ Hkeep1]]] [st2 [Hret2 [_ Hkeep2]]]]].
  split.
  - exists st1. split; [exact Hret1|]. apply Hkeep1. reflexivity.
  - exists st2. split; [exact Hret2|]. apply Hkeep2. reflexivity.
Defined.

(** ** The history, with what was there before *)

(** X16. Eviction is oldest first also over what the store held: after
    at least one insertion the store is the first 50 of the inserted
    entries, most recent first, followed by the old content. *)
Theorem history_keeps_most_recent :
  forall (h entries : list Extension.AnalysisHistory),
    entries <> [] ->
    Extension.saveAll h entries = firstn 50 (rev entries ++ h).
Proof.
  intros h entries. induction entries as [|e entries IH] using rev_ind;
    [congruence|].
  intros _. rewrite saveAll_snoc, saveToHistory_firstn, rev_app_distr.
  cbn [rev app]. change 50%nat with (S 49). rewrite !firstn_cons. f_equal.
  destruct entries as [|e0 entries']; [reflexivity|].
  rewrite IH by discriminate. change (S 49) with 50%nat.
  now rewrite firstn_firstn.
Qed.

Lemma history_keeps_most_recent_witness :
  let entry (n : nat) :=
    Extension.mkAnalysisHistory "2024-01-01T00:00:00.000Z" "a.py" "/src/a.py"
      (Z.of_nat n) "B" 0 "python" in
  [entry 2%nat] <> [] /\
  Extension.saveAll [entry 1%nat] [entry 2%nat] = [entry 2%nat; entry 1%nat].
Proof.
  cbv zeta. split; [discriminate|].
  exact (history_keeps_most_recent
           [Extension.mkAnalysisHistory "2024-01-01T00:00:00.000Z" "a.py"
              "/src/a.py" (Z.of_nat 1%nat) "B" 0 "python"]
           [Extension.mkAnalysisHistory "2024-01-01T00:00:00.000Z" "a.py"
              "/src/a.py" (Z.of_nat 2%nat) "B" 0 "python"]
           ltac:(discriminate)).
Defined.

(** ** The fields of a diagnostic *)

Lemma diagnosticOf_fields (document : Extension.TextDocument) (issue : Issue) :
  exists d,
    Extension.diagnosticOf document issue = Some d /\
    Extension.d_message d <> "" /\
    Extension.d_code d <> "" /\
    Extension.source d = "Schneider AI" /\
    Extension.d_severity d = Extension.severityOf issue /\
    (Extension.tags d = [Extension.Deprecated]
     <-> severity issue = "critical") /\
    (Extension.relatedInformation d = []
     <-> Js.truthy_string (fix' issue) = false).
Proof.
  unfold Extension.diagnosticOf, Extension.newRange.
  assert (Hline : 0 <= Extension.lineOf issue)
    by (unfold Extension.lineOf; lia).
  destruct (Z.ltb_spec (Extension.lineOf issue) 0) as [?|_]; [lia|].
  cbn. eexists. split; [reflexivity|]. cbn.
  assert (Hor : forall s d, d <> "" -> Js.or_string s d <> "").
  { intros s d Hd. unfold Js.or_string. destruct s as [v|]; [|exact Hd].
    destruct (String.eqb_spec v ""); assumption. }
  split; [apply Hor; discriminate|]. split; [apply Hor; discriminate|].
  split; [reflexivity|]. split; [reflexivity|]. split.
  - destruct (String.eqb_spec (severity issue) "critical");
      split; intros; try assumption; try reflexivity; try discriminate;
      contradiction.
  - destruct (Js.truthy_string (fix' issue)); split; intros;
      try reflexivity; discriminate.
Qed.

(** X17. Every finding gets a complete diagnostic: a non-empty message and
    a non-empty code also when the finding has none, the source of the
    extension, and one of three severities: error for [critical] and
    [error], warning for [warning], information for everything else,
    never a hint. The tag marks exactly the critical findings, and the
    related information is there exactly when the finding has a fix. *)
Theorem diagnostics_are_complete :
  forall (document : Extension.TextDocument) (issues : list Issue),
    exists ds : list Extension.Diagnostic,
      Extension.showDiagnostics document issues = Some ds /\
      Forall2
        (fun issue d =>
           Extension.d_message d <> "" /\
           Extension.d_code d <> "" /\
           Extension.source d = "Schneider AI" /\
           Extension.d_severity d <> Extension.SeverityHint /\
           (Extension.d_severity d = Extension.SeverityError
            <-> severity issue = "critical" \/ severity issue = "error") /\
           (Extension.d_severity d = Extension.SeverityWarning
            <-> severity issue = "warning") /\
           (Extension.tags d = [Extension.Deprecated]
            <-> severity issue = "critical") /\
           (Extension.relatedInformation d = []
            <-> Js.truthy_string (fix' issue) = false))
        issues ds.
Proof.
  intros document issues.
  induction issues as [|issue rest [ds [Hds Hall]]].
  - exists []. split; [reflexivity|constructor].
  - destruct (diagnosticOf_fields document issue)
      as [d [Hd [Hm [Hc [Hs [Hsev [Htag Hrel]]]]]]].
    exists (d :: ds). split.
    + cbn [Extension.showDiagnostics]. now rewrite Hd, Hds.
    + constructor; [|exact Hall].
      split; [exact Hm|]. split; [exact Hc|]. split; [exact Hs|].
      rewrite Hsev. unfold Extension.severityOf.
      destruct (String.eqb_spec (severity issue) "critical") as [Hcr|Hcr];
        destruct (String.eqb_spec (severity issue) "error") as [Her|Her];
        destruct (String.eqb_spec (severity issue) "warning") as [Hwa|Hwa];
        cbn [orb];
        (split; [discriminate|]);
        (split; [split; [intros; tauto || discriminate | intros [?|?]; congruence || reflexivity]|]);
        (split; [split; [intros; congruence || discriminate | intros; congruence || reflexivity]|]);
        (split; [exact Htag|exact Hrel]).
Qed.

(** ** The reply parser on prose and on fenced replies *)

Section ParserShapes.

Import Backend.

Lemma contains_append (s t : string) (c : ascii) :
  contains (s ^^ t) c = contains s c || contains t c.
Proof.
  induction s as [|a s IH]; [reflexivity|].
  cbn [String.append contains]. now rewrite IH, orb_assoc.
Qed.

Lemma contains_lstrip (s : string) (c : ascii) :
  contains s c = false -> contains (lstrip s) c = false.
Proof.
  induction s as [|a s IH]; [reflexivity|]. intros H.
  cbn [lstrip]. destruct (isspace a); [|exact H].
  cbn [contains] in H. apply orb_false_elim in H. now apply IH.
Qed.

Lemma contains_rstrip (s : string) (c : ascii) :
  contains s c = false -> contains (rstrip s) c = false.
Proof.
  induction s as [|a s IH]; [reflexivity|]. intros H.
  cbn [contains] in H. apply orb_false_elim in H. destruct H as [Ha Hs].
  cbn [rstrip]. specialize (IH Hs).
  destruct (rstrip s) as [|b kept].
  - destruct (isspace a); [reflexivity|]. cbn [contains]. now rewrite Ha.
  - cbn [contains] in IH |- *. now rewrite Ha, IH.
Qed.

Lemma startswith_contains (s : string) :
  startswith s "[" = true -> contains s open_bracket = true.
Proof.
  unfold startswith. destruct s as [|a s]; [discriminate|].
  cbn [String.prefix contains].
  destruct (ascii_dec _ a) as [Heq|Hne]; [|discriminate].
  intros _. subst a. reflexivity.
Qed.

Lemma contains_replace_from (old new : string) (c : ascii) (s : string) :
  contains new c = false ->
  contains s c = false ->
  forall skip, contains (replace_from old new skip s) c = false.
Proof.
  intros Hnew. induction s as [|a s IH]; intros H skip; [reflexivity|].
  cbn [contains] in H. apply orb_false_elim in H. destruct H as [Ha Hs].
  cbn [replace_from]. destruct skip as [|k]; [|now apply IH].
  destruct (String.prefix old (String a s)).
  - rewrite contains_append, Hnew. now apply IH.
  - cbn [contains]. rewrite Ha. now apply IH.
Qed.

Lemma from_first_open_none (s : string) :
  contains s open_bracket = false -> from_first_open s = None.
Proof.
  induction s as [|a s IH]; [reflexivity|]. intros H.
  cbn [contains] in H. apply orb_false_elim in H. destruct H as [Ha Hs].
  cbn [from_first_open]. rewrite Ha. now apply IH.
Qed.

Lemma not_startswith (s : string) :
  contains s open_bracket = false -> startswith (strip s) "[" = false.
Proof.
  intros H. destruct (startswith (strip s) "[") eqn:Hstart; [|reflexivity].
  apply startswith_contains in Hstart. unfold strip in Hstart.
  now rewrite (contains_rstrip _ _ (contains_lstrip _ _ H)) in Hstart.
Qed.

(** A text without a backquote has no occurrence of a marker that starts
    with one. *)
Lemma replace_from_no_backquote (old new body tail : string) :
  contains body "`"%char = false ->
  replace_from (String "`"%char old) new O (body ^^ tail)
  = body ^^ replace_from (String "`"%char old) new O tail.
Proof.
  induction body as [|a body IH]; intros H; [reflexivity|].
  cbn [contains] in H. apply orb_false_elim in H. destruct H as [Ha Hs].
  cbn [String.append replace_from String.prefix].
  destruct (ascii_dec _ a) as [Heq|_].
  - subst a. discriminate.
  - now rewrite IH.
Qed.

Lemma replace_from_hit (old new : string) (a : ascii) (rest : string) :
  String.prefix old (String a rest) = true ->
  replace_from old new O (String a rest)
  = new ^^ replace_from old new (String.length old - 1) rest.
Proof. intros H. cbn [replace_from]. now rewrite H. Qed.

Lemma replace_from_skip (old new : string) (k : nat) (a : ascii)
    (rest : string) :
  replace_from old new (S k) (String a rest) = replace_from old new k rest.
Proof. reflexivity. Qed.

Lemma prefix_append (p s : string) : String.prefix p (p ^^ s) = true.
Proof.
  induction p as [|a p IH]; [destruct s; reflexivity|].
  cbn [String.append String.prefix].
  destruct (ascii_dec a a) as [_|Hne]; [exact IH|congruence].
Qed.

Lemma append_empty (s : string) : s ^^ "" = s.
Proof. induction s as [|a s IH]; [reflexivity|]. cbn. now rewrite IH. Qed.

End ParserShapes.

(** X18. A reply with no opening bracket gives the empty list, and the
    decoder is not even asked: whatever the decoder would answer or raise,
    the result is the same. *)
Theorem prose_without_array_gives_nothing :
  forall (json : Type) (json_loads : string -> Backend.py_result (list json))
         (ai_response : string),
    Backend.contains ai_response Backend.open_bracket = false ->
    Backend.parse_llm_response json json_loads ai_response
    = Backend.PyReturn [].
Proof.
  intros json json_loads ai_response Hnone.
  unfold Backend.parse_llm_response, Backend.parse_attempts.
  rewrite (not_startswith _ Hnone).
  assert (Hclean :
            Backend.contains
              (Backend.replace (Backend.replace ai_response "```json" "")
                 "```" "") Backend.open_bracket = false).
  { unfold Backend.replace.
    apply contains_replace_from; [reflexivity|].
    apply contains_replace_from; [reflexivity|exact Hnone]. }
  rewrite (not_startswith _ Hclean).
  unfold Backend.re_search_array.
  now rewrite (from_first_open_none _ Hnone).
Qed.

Lemma prose_without_array_gives_nothing_witness :
  Backend.contains "The code looks fine to me." Backend.open_bracket = false /\
  Backend.parse_llm_response Z (fun _ => Backend.PyReturn [1])
    "The code looks fine to me." = Backend.PyReturn [].
Proof.
  split; [reflexivity|].
  apply (prose_without_array_gives_nothing Z (fun _ => Backend.PyReturn [1])
           "The code looks fine to me.").
  reflexivity.
Defined.

(** X19. A reply that is an array in a code fence goes to the decoder as
    the array: when the text between the opening marker and the closing
    marker has no backquote and starts, after white space, with an opening
    bracket, the decoder is given exactly that text, and the result is what
    the decoder makes of it: its list, the empty list when it raises
    [JSONDecodeError], and its exception when it raises another one. *)
Theorem fenced_array_is_decoded :
  forall (json : Type) (json_loads : string -> Backend.py_result (list json))
         (body : string),
    Backend.contains body "`"%char = false ->
    Backend.startswith (Backend.strip body) "[" = true ->
    Backend.parse_llm_response json json_loads ("```json" ^^ body ^^ "```")
    = match json_loads body with
      | Backend.PyReturn findings => Backend.PyReturn findings
      | Backend.PyRaise Backend.JSONDecodeError => Backend.PyReturn []
      | Backend.PyRaise e => Backend.PyRaise e
      end.
Proof.
  intros json json_loads body Hbody Hstart.
  unfold Backend.parse_llm_response, Backend.parse_attempts.
  assert (Hfirst :
            Backend.startswith (Backend.strip ("```json" ^^ body ^^ "```")) "["
            = false).
  { unfold Backend.strip. cbn [String.append Backend.lstrip].
    change (Backend.isspace "`"%char) with false. cbv iota.
    destruct (rstrip_keeps_head "`"%char ("``json" ^^ body ^^ "```") eq_refl)
      as [kept Hkept].
    cbn [String.append] in Hkept. rewrite Hkept. reflexivity. }
  rewrite Hfirst.
  assert (Hclean :
            Backend.replace
              (Backend.replace ("```json" ^^ body ^^ "```") "```json" "")
              "```" "" = body).
  { unfold Backend.replace.
    assert (Hhead :
              Backend.replace_from "```json" "" O ("```json" ^^ body ^^ "```")
              = Backend.replace_from "```json" "" O (body ^^ "```")).
    { cbn [String.append].
      rewrite replace_from_hit
        by exact (prefix_append "```json" (body ^^ "```")).
      change (String.length "```json" - 1)%nat with 6%nat.
      rewrite !replace_from_skip. reflexivity. }
    rewrite Hhead.
    rewrite (replace_from_no_backquote "``json" "" body "```" Hbody).
    change (Backend.replace_from "```json" "" O "```") with "```".
    rewrite (replace_from_no_backquote "``" "" body "```" Hbody).
    change (Backend.replace_from "```" "" O "```") with "".
    apply append_empty. }
  rewrite Hclean, Hstart. unfold Backend.except_JSONDecodeError.
  destruct (json_loads body) as [findings|[ | | ]]; reflexivity.
Qed.

Lemma fenced_array_is_decoded_witness :
  let big :=
    "[" ^^ string_of_list_ascii (repeat "1"%char 5000) ^^ "]" in
  let json_loads (text : string) : Backend.py_result (list Z) :=
    if String.eqb text " [1] " then Backend.PyReturn [1]
    else if String.eqb text big then Backend.PyRaise Backend.ValueError
    else Backend.PyRaise Backend.JSONDecodeError in
  Backend.contains " [1] " "`"%char = false /\
  Backend.startswith (Backend.strip " [1] ") "[" = true /\
  Backend.parse_llm_response Z json_loads "```json [1] ```"
  = Backend.PyReturn [1] /\
  Backend.contains big "`"%char = false /\
  Backend.startswith (Backend.strip big) "[" = true /\
  Backend.parse_llm_response Z json_loads ("```json" ^^ big ^^ "```")
  = Backend.PyRaise Backend.ValueError.
Proof.
  cbv zeta.
  set (big := "[" ^^ string_of_list_ascii (repeat "1"%char 5000) ^^ "]").
  set (json_loads :=
         fun text : string =>
           if String.eqb text " [1] " then Backend.PyReturn [1]
           else if String.eqb text big
                then Backend.PyRaise Backend.ValueError
                else Backend.PyRaise Backend.JSONDecodeError).
  assert (Hbig1 : Backend.contains big "`"%char = false)
    by (vm_compute; reflexivity).
  assert (Hbig2 : Backend.startswith (Backend.strip big) "[" = true)
    by (vm_compute; reflexivity).
  assert (Hbig3 : json_loads big = Backend.PyRaise Backend.ValueError)
    by (vm_compute; reflexivity).
  split; [reflexivity|]. split; [reflexivity|].
  split.
  { exact (fenced_array_is_decoded Z json_loads " [1] " eq_refl eq_refl). }
  split; [exact Hbig1|]. split; [exact Hbig2|].
  rewrite (fenced_array_is_decoded Z json_loads big Hbig1 Hbig2).
  now rewrite Hbig3.
Defined.

(** ** The text of [chat], by what the server does *)

(** X20. Against a server that gives the same answer to every request,
    the text of [chat] is fixed by that answer: the reply of a successful
    body, or [No response from AI] when it has none; the plain apology for
    a body that does not report success; the internal-error text for a
    status of 500; the cannot-reach text when there is no answer; and the
    unexpected-error text for every other status from 400 on and for an
    empty body. *)
Theorem chat_text_by_answer :
  forall (c : LLMClient.t) (message context : string) (w : world) (a : wire),
    (forall n config, server w n config = a) ->
    fst (LLMClient.chat c message context w)
    = Return
        match a with
        | Answer s d =>
            if s <? 400
            then match d with
                 | Some b =>
                     if j_success b
                     then Js.or_string (j_reply b) "No response from AI"
                     else "I apologize, but I encountered an error. Please try again."
                 | None =>
                     "I apologize, but I encountered an unexpected error. Please check the backend logs and try again."
                 end
            else if s =? 500
            then "I encountered an internal error. The backend AI service may be experiencing issues. Please try again in a moment."
            else "I apologize, but I encountered an unexpected error. Please check the backend logs and try again."
        | _ =>
            "I cannot reach the backend server. Please ensure it is running and try again."
        end.
Proof.
  intros c message context w a Hsrv.
  destruct (Observe.settlement a) as [d|e] eqn:Hset.
  - assert (Hreq :
              fst (LLMClient.makeRequest c "/chat" POST
                     (Some (ChatPayload message context)) 30000 w)
              = Return d).
    { rewrite makeRequest_result, served_S.
      cbn [Observe.loop_result]. now rewrite Hsrv, Hset. }
    unfold LLMClient.chat, try_catch, bind.
    destruct (LLMClient.makeRequest c "/chat" POST
                (Some (ChatPayload message context)) 30000 w) as [r w1].
    cbn [fst] in Hreq. subst r.
    destruct a as [s d0| |]; cbn in Hset; try discriminate.
    destruct (s <? 400); [|destruct (s <? 500); discriminate].
    inversion Hset; subst d0.
    destruct d as [b|]; cbn; [destruct (j_success b)|]; reflexivity.
  - pose proof (makeRequest_constant_failure c "/chat" POST
                  (Some (ChatPayload message context)) 30000 w a e Hsrv Hset)
      as Hfail.
    unfold LLMClient.chat, try_catch, bind.
    destruct (LLMClient.makeRequest c "/chat" POST
                (Some (ChatPayload message context)) 30000 w) as [r w1].
    cbn [fst] in Hfail. subst r. cbn [fst ret]. f_equal.
    destruct a as [s d0| |]; cbn in Hset.
    + destruct (Z.ltb_spec s 400); [discriminate|].
      destruct (Z.ltb_spec s 500); inversion Hset; subst e;
        cbn [LLMClient.handleChatError status].
      * destruct (Z.eqb_spec s 500); [lia|reflexivity].
      * reflexivity.
    + inversion Hset; reflexivity.
    + inversion Hset; reflexivity.
Qed.

Lemma chat_text_by_answer_witness :
  let w := mkWorld (fun _ _ => Answer 503 None) 0 [] in
  (forall n config, server w n config = Answer 503 None) /\
  fst (LLMClient.chat (LLMClient.create None) "why?" "" w)
  = Return "I apologize, but I encountered an unexpected error. Please check the backend logs and try again.".
Proof.
  cbv zeta. split; [reflexivity|].
  exact (chat_text_by_answer (LLMClient.create None) "why?" ""
           (mkWorld (fun _ _ => Answer 503 None) 0 []) (Answer 503 None)
           (fun _ _ => eq_refl)).
Defined.
